(** * satcom-sim: packet codec, impairment channel and stop-and-wait endpoints

    A shallow embedding of the C++ sources (crc.cpp, packet.cpp, link.cpp,
    satellite.cpp, ground_station.cpp) and the properties of the
    specification that are checked against them.

    Conventions of the embedding:
    - [uint8_t], [uint16_t], [uint32_t], [uint64_t] and [size_t] (64 bits)
      are integers of [Z] reduced modulo 2^w where the C++ code converts
      to the type;
    - a [std::string] is the list of its bytes, each byte the unsigned
      value 0..255 of the [char];
    - an exception thrown by the codec is the result [None];
    - the object state of a class is a record that is passed and returned. *)

From Stdlib Require Import Ascii String ZArith List Lia Bool Sorted.
Import ListNotations.
Open Scope Z_scope.

(** ** Fixed-width integers *)

Definition u8 (x : Z) : Z := x mod 2 ^ 8.
Definition u16 (x : Z) : Z := x mod 2 ^ 16.
Definition u32 (x : Z) : Z := x mod 2 ^ 32.
Definition u64 (x : Z) : Z := x mod 2 ^ 64.

(** [static_cast<char>(x)]: the low eight bits. *)
Definition to_char (x : Z) : Z := x mod 2 ^ 8.

Definition is_u8 (x : Z) : Prop := 0 <= x < 2 ^ 8.
Definition is_u16 (x : Z) : Prop := 0 <= x < 2 ^ 16.
Definition is_u32 (x : Z) : Prop := 0 <= x < 2 ^ 32.
Definition is_u64 (x : Z) : Prop := 0 <= x < 2 ^ 64.

(** The bytes of a string literal. *)
Definition str (s : String.string) : list Z :=
  map (fun c => Z.of_N (Ascii.N_of_ascii c)) (String.list_ascii_of_string s).

(** ** crc.cpp *)

Module crc.

(** Body of the inner loop: [if (crc & 0x8000) crc = (crc << 1) ^ 0x1021;
    else crc = crc << 1;].  The right-hand sides are computed in [int] and
    converted to [uint16_t] by the assignment. *)
Definition crc_bit (crc : Z) : Z :=
  if negb (Z.land crc 0x8000 =? 0)
  then u16 (Z.lxor (Z.shiftl crc 1) 0x1021)
  else u16 (Z.shiftl crc 1).

(** [for (int j = 0; j < 8; ++j)] *)
Fixpoint crc_bits (j : nat) (crc : Z) : Z :=
  match j with
  | O => crc
  | S j' => crc_bits j' (crc_bit crc)
  end.

(** Body of the outer loop for the byte [b = data[i]]. *)
Definition crc_byte (crc b : Z) : Z :=
  crc_bits 8 (u16 (Z.lxor crc (Z.shiftl (u16 b) 8))).

(** [crc16_ccitt(data, len)]: the loop runs over the first [len] bytes. *)
Definition crc16_ccitt (data : list Z) (len : nat) : Z :=
  fold_left crc_byte (firstn len data) 0xFFFF.

(** The algorithm in the words of the specification, on a 16-bit register:
    "for each input byte, XOR into the high byte of the 16-bit register,
    then iterate 8 times: if the top bit is set, shift left by one and XOR
    with polynomial; otherwise shift left by one.  All shifts are modulo
    2^16."  No reflection, no final XOR, initial register 0xFFFF. *)
Definition polynomial : Z := 0x1021.
Definition initial_register : Z := 0xFFFF.
Definition shift_left_one (reg : Z) : Z := (2 * reg) mod 2 ^ 16.
Definition top_bit (reg : Z) : bool := Z.testbit reg 15.
Definition spec_step (reg : Z) : Z :=
  if top_bit reg then Z.lxor (shift_left_one reg) polynomial
  else shift_left_one reg.
Definition xor_high_byte (reg b : Z) : Z := Z.lxor reg (b * 2 ^ 8).
Definition spec_byte (reg b : Z) : Z :=
  Nat.iter 8 spec_step (xor_high_byte reg b).
Fixpoint spec_from (reg : Z) (bytes : list Z) : Z :=
  match bytes with
  | [] => reg
  | b :: rest => spec_from (spec_byte reg b) rest
  end.
Definition crc16_spec (bytes : list Z) : Z := spec_from initial_register bytes.

End crc.


(** ** packet.hpp, packet.cpp *)

(** [enum class PacketType : uint8_t].  The field [type] of a decoded frame
    holds whatever tag byte was on the wire, so it is kept as an integer. *)
Definition TelemetryPkt : Z := 1.
Definition CommandPkt : Z := 2.
Definition AckPkt : Z := 3.
Definition NakPkt : Z := 4.

Record Packet : Type := mkPacket {
  version : Z;            (* uint16_t, default 1 *)
  type : Z;               (* PacketType *)
  seq : Z;                (* uint32_t *)
  payload_size : Z;       (* uint32_t *)
  payload : list Z;       (* std::string *)
  crc16 : Z               (* uint16_t *)
}.

(** The values a [Packet] object can hold. *)
Definition packet_wf (p : Packet) : Prop :=
  is_u16 (version p) /\ is_u8 (type p) /\ is_u32 (seq p) /\
  is_u32 (payload_size p) /\ Forall is_u8 (payload p) /\ is_u16 (crc16 p).

Definition set_crc16 (c : Z) (p : Packet) : Packet :=
  mkPacket (version p) (type p) (seq p) (payload_size p) (payload p) c.

Module Packet.

(** The eleven [push_back] statements that [to_bytes], [compute_crc] and
    [verify_crc] each repeat; [psize] is the local variable
    [static_cast<uint32_t>(payload.size())] of the caller. *)
Definition header_bytes (version type seq psize : Z) : list Z :=
  [ to_char (Z.shiftr version 8);
    to_char (Z.land version 0xFF);
    to_char type;
    to_char (Z.shiftr seq 24);
    to_char (Z.land (Z.shiftr seq 16) 0xFF);
    to_char (Z.land (Z.shiftr seq 8) 0xFF);
    to_char (Z.land seq 0xFF);
    to_char (Z.shiftr psize 24);
    to_char (Z.land (Z.shiftr psize 16) 0xFF);
    to_char (Z.land (Z.shiftr psize 8) 0xFF);
    to_char (Z.land psize 0xFF) ].

Definition to_bytes (p : Packet) : list Z :=
  let psize := u32 (Z.of_nat (length (payload p))) in
  header_bytes (version p) (type p) (seq p) psize
    ++ payload p
    ++ [ to_char (Z.shiftr (crc16 p) 8); to_char (Z.land (crc16 p) 0xFF) ].

(** [bytes[i]] read as [static_cast<uint8_t>]. *)
Definition byte_at (bytes : list Z) (i : Z) : Z :=
  u8 (nth (Z.to_nat i) bytes 0).

(** [std::string::substr(pos, n)] for [pos <= size]. *)
Definition substr (bytes : list Z) (pos n : Z) : list Z :=
  firstn (Z.to_nat n) (skipn (Z.to_nat pos) bytes).

(** [None] stands for the [std::runtime_error] thrown. *)
Definition from_bytes (bytes : list Z) : option Packet :=
  let size := Z.of_nat (length bytes) in
  if size <? 13 then None
  else
    let pos := 0 in
    let version :=
      u16 (Z.lor (Z.shiftl (byte_at bytes pos) 8) (byte_at bytes (pos + 1))) in
    let pos := pos + 2 in
    let type := byte_at bytes pos in
    let pos := pos + 1 in
    let seq :=
      u32 (Z.lor (Z.lor (Z.lor (Z.shiftl (byte_at bytes pos) 24)
                               (Z.shiftl (byte_at bytes (pos + 1)) 16))
                        (Z.shiftl (byte_at bytes (pos + 2)) 8))
                 (byte_at bytes (pos + 3))) in
    let pos := pos + 4 in
    let payload_size :=
      u32 (Z.lor (Z.lor (Z.lor (Z.shiftl (byte_at bytes pos) 24)
                               (Z.shiftl (byte_at bytes (pos + 1)) 16))
                        (Z.shiftl (byte_at bytes (pos + 2)) 8))
                 (byte_at bytes (pos + 3))) in
    let pos := pos + 4 in
    if size <? u64 (pos + payload_size + 2) then None
    else
      let payload := substr bytes pos payload_size in
      let pos := pos + payload_size in
      let crc16 :=
        u16 (Z.lor (Z.shiftl (byte_at bytes pos) 8) (byte_at bytes (pos + 1))) in
      Some (mkPacket version type seq payload_size payload crc16).

(** The string [data] that [compute_crc] and [verify_crc] each build. *)
Definition crc_data (p : Packet) : list Z :=
  let psize := u32 (Z.of_nat (length (payload p))) in
  header_bytes (version p) (type p) (seq p) psize ++ payload p.

Definition compute_crc (p : Packet) : Packet :=
  let data := crc_data p in
  set_crc16 (crc.crc16_ccitt data (length data)) p.

Definition verify_crc (p : Packet) : bool :=
  let data := crc_data p in
  let computed := crc.crc16_ccitt data (length data) in
  computed =? crc16 p.

End Packet.

(** The payload-size field read from the wire: bytes 7..10, big-endian. *)
Definition wire_payload_size (bytes : list Z) : Z :=
  u32 (Z.lor (Z.lor (Z.lor (Z.shiftl (Packet.byte_at bytes 7) 24)
                           (Z.shiftl (Packet.byte_at bytes 8) 16))
                    (Z.shiftl (Packet.byte_at bytes 9) 8))
             (Packet.byte_at bytes 10)).

(** ** Notions used to state the codec properties *)

Definition set_payload_size (n : Z) (p : Packet) : Packet :=
  mkPacket (version p) (type p) (seq p) n (payload p) (crc16 p).

(** Two packets that agree on every field except possibly [payload_size]. *)
Definition differ_only_in_payload_size (p q : Packet) : Prop :=
  version p = version q /\ type p = type q /\ seq p = seq q /\
  payload p = payload q /\ crc16 p = crc16 q.

(** Byte [k] of an integer, [k = 0] the least significant one, and the
    integer with that byte replaced. *)
Definition get_byte (x : Z) (k : nat) : Z := (x / 256 ^ Z.of_nat k) mod 256.
Definition set_byte (x : Z) (k : nat) (v : Z) : Z :=
  x + (v - get_byte x k) * 256 ^ Z.of_nat k.

Fixpoint set_nth (i : nat) (v : Z) (l : list Z) : list Z :=
  match l, i with
  | [], _ => []
  | _ :: l', O => v :: l'
  | x :: l', S i' => x :: set_nth i' v l'
  end.

(** A byte of a packet object outside the CRC footer. *)
Inductive Place : Type :=
| VersionByte (k : nat)
| TypeByte
| SeqByte (k : nat)
| PayloadSizeByte (k : nat)
| PayloadByte (i : nat).

Definition place_ok (pl : Place) (p : Packet) : bool :=
  match pl with
  | VersionByte k => (k <? 2)%nat
  | TypeByte => true
  | SeqByte k => (k <? 4)%nat
  | PayloadSizeByte k => (k <? 4)%nat
  | PayloadByte i => (i <? length (payload p))%nat
  end.

Definition read_byte (pl : Place) (p : Packet) : Z :=
  match pl with
  | VersionByte k => get_byte (version p) k
  | TypeByte => type p
  | SeqByte k => get_byte (seq p) k
  | PayloadSizeByte k => get_byte (payload_size p) k
  | PayloadByte i => nth i (payload p) 0
  end.

Definition write_byte (pl : Place) (v : Z) (p : Packet) : Packet :=
  match pl with
  | VersionByte k =>
      mkPacket (set_byte (version p) k v) (type p) (seq p) (payload_size p)
        (payload p) (crc16 p)
  | TypeByte =>
      mkPacket (version p) v (seq p) (payload_size p) (payload p) (crc16 p)
  | SeqByte k =>
      mkPacket (version p) (type p) (set_byte (seq p) k v) (payload_size p)
        (payload p) (crc16 p)
  | PayloadSizeByte k =>
      mkPacket (version p) (type p) (seq p) (set_byte (payload_size p) k v)
        (payload p) (crc16 p)
  | PayloadByte i =>
      mkPacket (version p) (type p) (seq p) (payload_size p)
        (set_nth i v (payload p)) (crc16 p)
  end.

(** The bytes that enter the checksum input built by [verify_crc]. *)
Definition covered_by_crc (pl : Place) : bool :=
  match pl with
  | PayloadSizeByte _ => false
  | _ => true
  end.

(** The packet of the round-trip test, "test payload data" with seq 12345,
    before and after [compute_crc]. *)
Definition test_fields : Packet :=
  mkPacket 1 TelemetryPkt 12345 17 (str "test payload data") 0.
Definition test_packet : Packet := Packet.compute_crc test_fields.

(** An empty acknowledgement whose [payload_size] field says 7. *)
Definition stale_size_packet : Packet := mkPacket 1 AckPkt 0 7 [] 0.

(** A complete empty frame followed by one more byte. *)
Definition frame_with_trailing_byte : list Z :=
  Packet.to_bytes (Packet.compute_crc (mkPacket 1 AckPkt 5 0 [] 0)) ++ [0].

(** ** thread_safe_queue.hpp

    The queue is the list of its elements, oldest first.  A blocking
    [try_pop(timeout)] is modelled on the content the call gets to see: the
    elements already queued and those another thread pushes before the
    deadline; it returns at once when that content is not empty and times
    out otherwise. *)

Module ThreadSafeQueue.

Definition push {T : Type} (value : T) (queue_ : list T) : list T :=
  queue_ ++ [value].

Definition try_pop {T : Type} (queue_ : list T) : option T * list T :=
  match queue_ with
  | [] => (None, [])
  | value :: rest => (Some value, rest)
  end.

End ThreadSafeQueue.

(** ** What the embedding takes from the C++ standard library

    Floating point, the Mersenne twister with its two distributions, and the
    conversion of text to numbers are not modelled; the code is embedded
    over any implementation of them. *)

Class Std : Type := {
  double : Type;
  (** [a < b] on [double] *)
  double_lt : double -> double -> bool;
  (** [std::mt19937] and its constructor from a seed *)
  mt19937 : Type;
  mt19937_seed : Z -> mt19937;
  (** [std::uniform_real_distribution<double>(0.0, 1.0)(rng)] *)
  uniform_real_distribution : mt19937 -> double * mt19937;
  (** [std::normal_distribution<double>(mean, stddev)(rng)] *)
  normal_distribution : Z -> Z -> mt19937 -> double * mt19937;
  (** whether [Telemetry::from_json] returns (its [std::stoll] and
      [std::stod] calls all convert) or throws *)
  telemetry_parses : list Z -> bool;
  (** whether [iss >> d_pitch >> delim >> d_yaw >> delim >> d_roll]
      succeeds on the rest of the stream *)
  orientation_parameters_parse : list Z -> bool;
  (** whether [iss >> burn_seconds] succeeds on the rest of the stream *)
  burn_parameter_parses : list Z -> bool
}.

(** ** link.hpp, link.cpp *)

Module Link.
Section WithStd.
Context {std : Std}.

Record Config : Type := mkConfig {
  latency_ms : Z;
  jitter_ms : Z;
  loss_prob : double;
  seed : Z
}.

Record t : Type := mk {
  config_ : Config;
  rng_ : mt19937;
  sat_to_gs_ : list Packet;
  gs_to_sat_ : list Packet;
  packets_dropped_ : Z;     (* std::atomic<uint64_t> *)
  packets_sent_ : Z         (* std::atomic<uint64_t> *)
}.

(** [Link::Link(config)] *)
Definition new (config : Config) : t :=
  mk config (mt19937_seed (seed config)) [] [] 0 0.

(** The parameter [ThreadSafeQueue<Packet>& queue]: one of the two members. *)
Inductive QueueRef : Type := sat_to_gs | gs_to_sat.

Definition queue_of (queue : QueueRef) (l : t) : list Packet :=
  match queue with
  | sat_to_gs => sat_to_gs_ l
  | gs_to_sat => gs_to_sat_ l
  end.

Definition set_queue (queue : QueueRef) (q : list Packet) (l : t) : t :=
  match queue with
  | sat_to_gs =>
      mk (config_ l) (rng_ l) q (gs_to_sat_ l) (packets_dropped_ l)
        (packets_sent_ l)
  | gs_to_sat =>
      mk (config_ l) (rng_ l) (sat_to_gs_ l) q (packets_dropped_ l)
        (packets_sent_ l)
  end.

(** The sleep of [delay_ms] milliseconds before the push takes time and
    changes no state; the draw of the delay advances the engine. *)
Definition apply_impairments_and_send (pkt : Packet) (queue : QueueRef) (l : t)
  : t :=
  let sent := u64 (packets_sent_ l + 1) in
  let (loss_value, rng1) := uniform_real_distribution (rng_ l) in
  let (delay_ms, rng2) :=
    normal_distribution (latency_ms (config_ l)) (jitter_ms (config_ l)) rng1 in
  if double_lt loss_value (loss_prob (config_ l)) then
    mk (config_ l) rng2 (sat_to_gs_ l) (gs_to_sat_ l)
      (u64 (packets_dropped_ l + 1)) sent
  else
    set_queue queue (ThreadSafeQueue.push pkt (queue_of queue l))
      (mk (config_ l) rng2 (sat_to_gs_ l) (gs_to_sat_ l) (packets_dropped_ l)
         sent).

Definition send_sat_to_gs (pkt : Packet) (l : t) : t :=
  apply_impairments_and_send pkt sat_to_gs l.

Definition send_gs_to_sat (pkt : Packet) (l : t) : t :=
  apply_impairments_and_send pkt gs_to_sat l.

(** [recv_*(out, timeout)]: [Some pkt] for [true] with [out = pkt]. *)
Definition recv_sat_to_gs (timeout : Z) (l : t) : option Packet * t :=
  let (opt, q) := ThreadSafeQueue.try_pop (sat_to_gs_ l) in
  (opt, set_queue sat_to_gs q l).

Definition recv_gs_to_sat (timeout : Z) (l : t) : option Packet * t :=
  let (opt, q) := ThreadSafeQueue.try_pop (gs_to_sat_ l) in
  (opt, set_queue gs_to_sat q l).

(** A send call as a value, and a sequence of send calls. *)
Definition send_call : Type := (QueueRef * Packet)%type.

Definition run_sends (calls : list send_call) (l : t) : t :=
  fold_left (fun l c => apply_impairments_and_send (snd c) (fst c) l) calls l.

End WithStd.
End Link.

(** ** commands.hpp *)

Inductive CommandType : Type :=
| AdjustOrientation
| ThrustBurn
| EnterSafeMode
| Reboot.

Fixpoint bytes_eqb (a b : list Z) : bool :=
  match a, b with
  | [], [] => true
  | x :: a', y :: b' => (x =? y) && bytes_eqb a' b'
  | _, _ => false
  end.

(** [std::getline(iss, out, delim)] on a fresh stream over [s]: fails when
    nothing at all can be extracted; otherwise yields the text before the
    first delimiter and leaves the text after it in the stream. *)
Fixpoint until_delim (delim : Z) (s : list Z) : list Z * list Z :=
  match s with
  | [] => ([], [])
  | c :: rest =>
      if c =? delim then ([], rest)
      else let (a, b) := until_delim delim rest in (c :: a, b)
  end.

Definition getline (s : list Z) (delim : Z) : option (list Z * list Z) :=
  match s with
  | [] => None
  | _ :: _ => Some (until_delim delim s)
  end.

Module Command.
Section WithStd.
Context {std : Std}.

(** [Command::deserialize]: the command type parsed, [None] when it throws.
    The numeric parameters are not kept. *)
Definition deserialize (s : list Z) : option CommandType :=
  match getline s 124 with
  | None => None
  | Some (type_str, rest) =>
      if bytes_eqb type_str (str "ADJUST_ORIENTATION") then
        if orientation_parameters_parse rest then Some AdjustOrientation
        else None
      else if bytes_eqb type_str (str "THRUST_BURN") then
        if burn_parameter_parses rest then Some ThrustBurn else None
      else if bytes_eqb type_str (str "ENTER_SAFE_MODE") then Some EnterSafeMode
      else if bytes_eqb type_str (str "REBOOT") then Some Reboot
      else None
  end.

End WithStd.
End Command.

(** The reply both endpoints build: [Packet r; r.type = ...; r.seq = seq;
    r.payload = ""; r.payload_size = 0; r.compute_crc();] with the default
    version 1. *)
Definition reply (ty seq : Z) : Packet :=
  Packet.compute_crc (mkPacket 1 ty seq 0 [] 0).

(** The data packet both senders build around a payload. *)
Definition data_packet (ty seq : Z) (body : list Z) : Packet :=
  Packet.compute_crc
    (mkPacket 1 ty seq (u32 (Z.of_nat (length body))) body 0).

(** ** satellite.hpp, satellite.cpp

    The physical state (temperature, battery, altitude, attitude) and
    [telemetry_rate_hz], which only times the loop of [run], are left out:
    no protocol decision reads them.  [executed_] is a ghost field: the
    packets whose command reached the [switch] that executes it, most
    recent first.  The other threads act on the shared [Link] only; what
    they do while a sender is inside attempt [retry] is the argument
    [peer retry].  [running_] is read from the record: a [stop()] issued by
    another thread in the middle of a send operation is not modelled. *)

Module Satellite.
Section WithStd.
Context {std : Std}.

Record Config : Type := mkConfig {
  ack_timeout_ms : Z;
  max_retries : Z;          (* int *)
  verbose : bool;
  seed : Z
}.

Record t : Type := mk {
  config_ : Config;
  running_ : bool;
  tx_seq_ : Z;              (* uint32_t *)
  rx_seq_expected_ : Z;     (* uint32_t *)
  safe_mode_ : bool;
  telemetry_sent_ : Z;      (* std::atomic<uint64_t> *)
  commands_received_ : Z;
  retries_ : Z;
  naks_received_ : Z;
  executed_ : list Packet
}.

Definition new (config : Config) : t :=
  mk config false 0 0 false 0 0 0 0 [].

Definition set_running (b : bool) (s : t) : t :=
  mk (config_ s) b (tx_seq_ s) (rx_seq_expected_ s) (safe_mode_ s)
    (telemetry_sent_ s) (commands_received_ s) (retries_ s) (naks_received_ s)
    (executed_ s).

Definition set_tx_seq (v : Z) (s : t) : t :=
  mk (config_ s) (running_ s) v (rx_seq_expected_ s) (safe_mode_ s)
    (telemetry_sent_ s) (commands_received_ s) (retries_ s) (naks_received_ s)
    (executed_ s).

Definition set_rx_seq_expected (v : Z) (s : t) : t :=
  mk (config_ s) (running_ s) (tx_seq_ s) v (safe_mode_ s)
    (telemetry_sent_ s) (commands_received_ s) (retries_ s) (naks_received_ s)
    (executed_ s).

Definition set_telemetry_sent (v : Z) (s : t) : t :=
  mk (config_ s) (running_ s) (tx_seq_ s) (rx_seq_expected_ s) (safe_mode_ s)
    v (commands_received_ s) (retries_ s) (naks_received_ s) (executed_ s).

Definition set_retries (v : Z) (s : t) : t :=
  mk (config_ s) (running_ s) (tx_seq_ s) (rx_seq_expected_ s) (safe_mode_ s)
    (telemetry_sent_ s) (commands_received_ s) v (naks_received_ s)
    (executed_ s).

Definition set_naks_received (v : Z) (s : t) : t :=
  mk (config_ s) (running_ s) (tx_seq_ s) (rx_seq_expected_ s) (safe_mode_ s)
    (telemetry_sent_ s) (commands_received_ s) (retries_ s) v (executed_ s).

(** [commands_received_++] followed by the [switch (cmd.type)]. *)
Definition execute (pkt : Packet) (cmd : CommandType) (s : t) : t :=
  let safe :=
    match cmd with
    | AdjustOrientation => safe_mode_ s
    | ThrustBurn => safe_mode_ s
    | EnterSafeMode => true
    | Reboot => false
    end in
  mk (config_ s) (running_ s) (tx_seq_ s) (rx_seq_expected_ s) safe
    (telemetry_sent_ s) (u64 (commands_received_ s + 1)) (retries_ s)
    (naks_received_ s) (pkt :: executed_ s).

Definition start (s : t) : t := set_running true s.
Definition stop (s : t) : t := set_running false s.

Definition wait_for_ack (seq_awaited : Z) (timeout : Z) (s : t) (l : Link.t)
  : bool * t * Link.t :=
  match Link.recv_gs_to_sat timeout l with
  | (Some pkt, l') =>
      if (type pkt =? AckPkt) && (seq pkt =? seq_awaited) then (true, s, l')
      else if (type pkt =? NakPkt) && (seq pkt =? seq_awaited) then
        (false, set_naks_received (u64 (naks_received_ s + 1)) s, l')
      else (false, s, l')
  | (None, l') => (false, s, l')
  end.

(** The retry loop of [send_telemetry].  [fuel] bounds the iterations; the
    second component lists, per attempt made, what [wait_for_ack] returned. *)
Fixpoint send_loop (fuel : nat) (retry : Z) (pkt : Packet)
    (peer : Z -> Link.t -> Link.t) (s : t) (l : Link.t)
  : bool * list bool * t * Link.t :=
  match fuel with
  | O => (false, [], s, l)
  | S fuel' =>
      if (retry <=? max_retries (config_ s)) && running_ s then
        let s1 := if 0 <? retry then set_retries (u64 (retries_ s + 1)) s
                  else s in
        let l1 := Link.send_sat_to_gs pkt l in
        let l2 := peer retry l1 in
        match wait_for_ack (seq pkt) (ack_timeout_ms (config_ s1)) s1 l2 with
        | (true, s2, l3) => (true, [true], s2, l3)
        | (false, s2, l3) =>
            match send_loop fuel' (retry + 1) pkt peer s2 l3 with
            | (success, attempts, s3, l4) => (success, false :: attempts, s3, l4)
            end
        end
      else (false, [], s, l)
  end.

(** [send_telemetry], for the payload [body] that [telem.to_json()] gives. *)
Definition send_telemetry (body : list Z) (peer : Z -> Link.t -> Link.t)
    (s : t) (l : Link.t) : list bool * t * Link.t :=
  let pkt := data_packet TelemetryPkt (tx_seq_ s) body in
  let s := set_tx_seq (u32 (tx_seq_ s + 1)) s in
  match send_loop (Z.to_nat (max_retries (config_ s) + 1)) 0 pkt peer s l with
  | (success, attempts, s', l') =>
      if success
      then (attempts, set_telemetry_sent (u64 (telemetry_sent_ s' + 1)) s', l')
      else (attempts, s', l')
  end.

(** Body of the loop of [process_commands] for the packet just received. *)
Definition process_command (pkt : Packet) (s : t) (l : Link.t) : t * Link.t :=
  if negb (Packet.verify_crc pkt) then
    (s, Link.send_sat_to_gs (reply NakPkt (seq pkt)) l)
  else if type pkt =? CommandPkt then
    if seq pkt <? rx_seq_expected_ s then
      (s, Link.send_sat_to_gs (reply AckPkt (seq pkt)) l)
    else
      let s := set_rx_seq_expected (u32 (seq pkt + 1)) s in
      match Command.deserialize (payload pkt) with
      | Some cmd =>
          (execute pkt cmd s, Link.send_sat_to_gs (reply AckPkt (seq pkt)) l)
      | None => (s, Link.send_sat_to_gs (reply NakPkt (seq pkt)) l)
      end
  else (s, l).

(** [while (link_.recv_gs_to_sat(pkt, 0ms)) { ... }] *)
Fixpoint process_commands_loop (fuel : nat) (s : t) (l : Link.t) : t * Link.t :=
  match fuel with
  | O => (s, l)
  | S fuel' =>
      match Link.recv_gs_to_sat 0 l with
      | (Some pkt, l') =>
          let (s', l'') := process_command pkt s l' in
          process_commands_loop fuel' s' l''
      | (None, l') => (s, l')
      end
  end.

Definition process_commands (s : t) (l : Link.t) : t * Link.t :=
  process_commands_loop (S (length (Link.gs_to_sat_ l))) s l.

End WithStd.
End Satellite.

(** ** ground_station.hpp, ground_station.cpp

    The clock fields and the log stream are left out.  [logged_] is a ghost
    field: the packets whose telemetry was handed to [log_telemetry], most
    recent first. *)

Module GroundStation.
Section WithStd.
Context {std : Std}.

Record Config : Type := mkConfig {
  ack_timeout_ms : Z;
  max_retries : Z;          (* int *)
  verbose : bool;
  seed : Z
}.

Record t : Type := mk {
  config_ : Config;
  running_ : bool;
  tx_seq_ : Z;              (* uint32_t *)
  rx_seq_expected_ : Z;     (* uint32_t *)
  telemetry_received_ : Z;  (* std::atomic<uint64_t> *)
  commands_sent_ : Z;
  retries_ : Z;
  naks_sent_ : Z;
  logged_ : list Packet
}.

Definition new (config : Config) : t :=
  mk config false 0 0 0 0 0 0 [].

Definition set_running (b : bool) (g : t) : t :=
  mk (config_ g) b (tx_seq_ g) (rx_seq_expected_ g) (telemetry_received_ g)
    (commands_sent_ g) (retries_ g) (naks_sent_ g) (logged_ g).

Definition set_tx_seq (v : Z) (g : t) : t :=
  mk (config_ g) (running_ g) v (rx_seq_expected_ g) (telemetry_received_ g)
    (commands_sent_ g) (retries_ g) (naks_sent_ g) (logged_ g).

Definition set_rx_seq_expected (v : Z) (g : t) : t :=
  mk (config_ g) (running_ g) (tx_seq_ g) v (telemetry_received_ g)
    (commands_sent_ g) (retries_ g) (naks_sent_ g) (logged_ g).

Definition set_commands_sent (v : Z) (g : t) : t :=
  mk (config_ g) (running_ g) (tx_seq_ g) (rx_seq_expected_ g)
    (telemetry_received_ g) v (retries_ g) (naks_sent_ g) (logged_ g).

Definition set_retries (v : Z) (g : t) : t :=
  mk (config_ g) (running_ g) (tx_seq_ g) (rx_seq_expected_ g)
    (telemetry_received_ g) (commands_sent_ g) v (naks_sent_ g) (logged_ g).

Definition set_naks_sent (v : Z) (g : t) : t :=
  mk (config_ g) (running_ g) (tx_seq_ g) (rx_seq_expected_ g)
    (telemetry_received_ g) (commands_sent_ g) (retries_ g) v (logged_ g).

(** [telemetry_received_++; log_telemetry(telem);] *)
Definition log_telemetry (pkt : Packet) (g : t) : t :=
  mk (config_ g) (running_ g) (tx_seq_ g) (rx_seq_expected_ g)
    (u64 (telemetry_received_ g + 1)) (commands_sent_ g) (retries_ g)
    (naks_sent_ g) (pkt :: logged_ g).

Definition start (g : t) : t := set_running true g.
Definition stop (g : t) : t := set_running false g.

Definition wait_for_ack (seq_awaited : Z) (timeout : Z) (g : t) (l : Link.t)
  : bool * t * Link.t :=
  match Link.recv_sat_to_gs timeout l with
  | (Some pkt, l') =>
      if (type pkt =? AckPkt) && (seq pkt =? seq_awaited) then (true, g, l')
      else if (type pkt =? NakPkt) && (seq pkt =? seq_awaited) then (false, g, l')
      else (false, g, l')
  | (None, l') => (false, g, l')
  end.

(** The retry loop of [send_command_with_retry]. *)
Fixpoint send_loop (fuel : nat) (retry : Z) (pkt : Packet)
    (peer : Z -> Link.t -> Link.t) (g : t) (l : Link.t)
  : bool * list bool * t * Link.t :=
  match fuel with
  | O => (false, [], g, l)
  | S fuel' =>
      if (retry <=? max_retries (config_ g)) && running_ g then
        let g1 := if 0 <? retry then set_retries (u64 (retries_ g + 1)) g
                  else g in
        let l1 := Link.send_gs_to_sat pkt l in
        let l2 := peer retry l1 in
        match wait_for_ack (seq pkt) (ack_timeout_ms (config_ g1)) g1 l2 with
        | (true, g2, l3) => (true, [true], g2, l3)
        | (false, g2, l3) =>
            match send_loop fuel' (retry + 1) pkt peer g2 l3 with
            | (success, attempts, g3, l4) => (success, false :: attempts, g3, l4)
            end
        end
      else (false, [], g, l)
  end.

(** [send_command_with_retry], for the payload [body] that
    [cmd.serialize()] gives. *)
Definition send_command_with_retry (body : list Z)
    (peer : Z -> Link.t -> Link.t) (g : t) (l : Link.t)
  : list bool * t * Link.t :=
  let pkt := data_packet CommandPkt (tx_seq_ g) body in
  let g := set_tx_seq (u32 (tx_seq_ g + 1)) g in
  match send_loop (Z.to_nat (max_retries (config_ g) + 1)) 0 pkt peer g l with
  | (success, attempts, g', l') =>
      if success
      then (attempts, set_commands_sent (u64 (commands_sent_ g' + 1)) g', l')
      else (attempts, g', l')
  end.

(** Body of the loop of [receive_telemetry] for the packet just received. *)
Definition receive_packet (pkt : Packet) (g : t) (l : Link.t) : t * Link.t :=
  if negb (Packet.verify_crc pkt) then
    (set_naks_sent (u64 (naks_sent_ g + 1)) g,
     Link.send_gs_to_sat (reply NakPkt (seq pkt)) l)
  else if type pkt =? TelemetryPkt then
    if seq pkt <? rx_seq_expected_ g then
      (g, Link.send_gs_to_sat (reply AckPkt (seq pkt)) l)
    else
      let g := set_rx_seq_expected (u32 (seq pkt + 1)) g in
      if telemetry_parses (payload pkt) then
        (log_telemetry pkt g, Link.send_gs_to_sat (reply AckPkt (seq pkt)) l)
      else
        (set_naks_sent (u64 (naks_sent_ g + 1)) g,
         Link.send_gs_to_sat (reply NakPkt (seq pkt)) l)
  else (g, l).

(** [while (link_.recv_sat_to_gs(pkt, 0ms)) { ... }] *)
Fixpoint receive_telemetry_loop (fuel : nat) (g : t) (l : Link.t) : t * Link.t :=
  match fuel with
  | O => (g, l)
  | S fuel' =>
      match Link.recv_sat_to_gs 0 l with
      | (Some pkt, l') =>
          let (g', l'') := receive_packet pkt g l' in
          receive_telemetry_loop fuel' g' l''
      | (None, l') => (g, l')
      end
  end.

Definition receive_telemetry (g : t) (l : Link.t) : t * Link.t :=
  receive_telemetry_loop (S (length (Link.sat_to_gs_ l))) g l.

End WithStd.
End GroundStation.

(** ** Notions used to state the channel and endpoint properties *)

(** The two outcomes of one send call, from the link before to the link
    after: the packet is counted as dropped and no queue changes, or it is
    appended to the target queue and the dropped counter does not change. *)
Definition send_dropped {std : Std} (l l' : Link.t) : Prop :=
  Link.packets_dropped_ l' = u64 (Link.packets_dropped_ l + 1) /\
  Link.sat_to_gs_ l' = Link.sat_to_gs_ l /\
  Link.gs_to_sat_ l' = Link.gs_to_sat_ l.

Definition send_enqueued {std : Std} (pkt : Packet) (queue : Link.QueueRef)
    (l l' : Link.t) : Prop :=
  Link.packets_dropped_ l' = Link.packets_dropped_ l /\
  match queue with
  | Link.sat_to_gs =>
      Link.sat_to_gs_ l' = Link.sat_to_gs_ l ++ [pkt] /\
      Link.gs_to_sat_ l' = Link.gs_to_sat_ l
  | Link.gs_to_sat =>
      Link.gs_to_sat_ l' = Link.gs_to_sat_ l ++ [pkt] /\
      Link.sat_to_gs_ l' = Link.sat_to_gs_ l
  end.

(** A stand-in for the library, to evaluate the code on concrete inputs:
    doubles in thousandths, a linear congruential engine, a normal
    distribution without spread, no numeric text accepted.  With
    [loss_prob = 0] no draw is below [loss_prob], as in the library. *)
Definition toy_std : Std := {|
  double := Z;
  double_lt := Z.ltb;
  mt19937 := Z;
  mt19937_seed := fun seed => seed;
  uniform_real_distribution := fun rng =>
    let next := (1103515245 * rng + 12345) mod 2 ^ 31 in (next mod 1000, next);
  normal_distribution := fun mean stddev rng => (1000 * mean, rng);
  telemetry_parses := fun s => negb (bytes_eqb s (str "temp="));
  orientation_parameters_parse := fun _ => false;
  burn_parameter_parses := fun _ => false
|}.

(** A lossless and a fully lossy channel over [toy_std]. *)
Definition lossless_link : @Link.t toy_std :=
  @Link.new toy_std (@Link.mkConfig toy_std 10 0 0 42).
Definition lossy_link : @Link.t toy_std :=
  @Link.new toy_std (@Link.mkConfig toy_std 10 0 1000 42).

(** What one outbound send operation may do, given the answers of
    [wait_for_ack] per attempt made and the type-specific sent counter before
    and after: at most [max_retries + 1] attempts; either some failed
    attempts followed by one successful attempt, the last, with the counter
    incremented, or [max_retries + 1] failed attempts with the counter
    unchanged. *)
Definition stop_and_wait_outcome (max_retries : Z) (attempts : list bool)
    (sent_before sent_after : Z) : Prop :=
  Z.of_nat (length attempts) <= max_retries + 1 /\
  ((exists k : nat, attempts = repeat false k ++ [true]) /\
   sent_after = u64 (sent_before + 1)
   \/
   attempts = repeat false (Z.to_nat (max_retries + 1)) /\
   sent_after = sent_before).

(** The other threads do not send while the operation runs. *)
Definition peer_is_silent {std : Std} (peer : Z -> Link.t -> Link.t) : Prop :=
  forall (k : Z) (l : Link.t),
    Link.packets_sent_ (peer k l) = Link.packets_sent_ l.

(** A running satellite and a running ground station, three retries, over
    [toy_std]. *)
Definition running_satellite : Satellite.t :=
  Satellite.start (Satellite.new (Satellite.mkConfig 150 3 false 42)).
Definition running_ground_station : GroundStation.t :=
  GroundStation.start (GroundStation.new (GroundStation.mkConfig 150 3 false 42)).

(** A peer whose acknowledgement of seq 0 arrives during the second attempt
    only: the first one was lost. *)
Definition late_ack_peer (retry : Z) (l : @Link.t toy_std) : @Link.t toy_std :=
  if retry =? 1
  then Link.set_queue Link.gs_to_sat
         (ThreadSafeQueue.push (reply AckPkt 0) (Link.gs_to_sat_ l)) l
  else l.

(** The receiver invariant behind duplicate suppression, on the expected
    seq and the packets delivered so far (most recent first): the delivered
    seqs strictly decrease towards the past and all lie below the expected
    seq. *)
Definition delivered_once (rx_seq_expected : Z) (delivered : list Packet)
  : Prop :=
  0 <= rx_seq_expected /\
  StronglySorted Z.gt (map seq delivered) /\
  Forall (fun p => seq p < rx_seq_expected) delivered.

(** A seq whose successor does not wrap around in [uint32_t]. *)
Definition no_wrap (pkt : Packet) : Prop := 0 <= seq pkt < 2 ^ 32 - 1.

(** The stamped test packet with its first payload byte overwritten. *)
Definition corrupted_packet : Packet := write_byte (PayloadByte 0) 88 test_packet.

(** Command frames with a valid CRC: an unknown command name, and REBOOT. *)
Definition bogus_command : Packet := data_packet CommandPkt 0 (str "BOGUS").
Definition reboot_command (seq : Z) : Packet :=
  data_packet CommandPkt seq (str "REBOOT").

(** REBOOT with seq 7, its first payload byte overwritten after stamping. *)
Definition corrupted_command : Packet :=
  write_byte (PayloadByte 0) 88 (reboot_command 7).

(** The inbound queue of the satellite holding the given packets. *)
Definition commands_queued (q : list Packet) : @Link.t toy_std :=
  Link.set_queue Link.gs_to_sat q lossless_link.
Definition telemetry_queued (q : list Packet) : @Link.t toy_std :=
  Link.set_queue Link.sat_to_gs q lossless_link.

(** ** Notions used to state the further properties *)

(** [l1] is [l2] with some elements left out, the order kept. *)
Inductive subsequence {A : Type} : list A -> list A -> Prop :=
| subsequence_nil : subsequence [] []
| subsequence_take x l1 l2 : subsequence l1 l2 -> subsequence (x :: l1) (x :: l2)
| subsequence_skip x l1 l2 : subsequence l1 l2 -> subsequence l1 (x :: l2).

Definition queue_ref_eqb (a b : Link.QueueRef) : bool :=
  match a, b with
  | Link.sat_to_gs, Link.sat_to_gs => true
  | Link.gs_to_sat, Link.gs_to_sat => true
  | _, _ => false
  end.

(** The packets of the send calls for one direction, in call order. *)
Definition packets_to (queue : Link.QueueRef) (calls : list Link.send_call)
  : list Packet :=
  map snd (filter (fun c => queue_ref_eqb (fst c) queue) calls).

(** No value the uniform distribution can draw is below [loss_prob]. *)
Definition never_lost {std : Std} (config : Link.Config) : Prop :=
  forall rng : mt19937,
    double_lt (fst (uniform_real_distribution rng)) (Link.loss_prob config)
    = false.

(** The packets an inbound loop answers with an ACK or a NAK: those that
    fail the CRC check, whatever their type, and the data packets. *)
Definition answered_by_satellite (pkt : Packet) : bool :=
  negb (Packet.verify_crc pkt) || (type pkt =? CommandPkt).
Definition answered_by_ground_station (pkt : Packet) : bool :=
  negb (Packet.verify_crc pkt) || (type pkt =? TelemetryPkt).

(** The states an endpoint can be in during a session: it is constructed,
    started and stopped, and its thread alternates the inbound loop and send
    operations, on whatever the other threads have made of the link; no
    packet of an inbound queue carries the seq 2^32 - 1. *)
Inductive gs_session {std : Std} : GroundStation.t -> Prop :=
| gs_session_new config : gs_session (GroundStation.new config)
| gs_session_start g : gs_session g -> gs_session (GroundStation.start g)
| gs_session_stop g : gs_session g -> gs_session (GroundStation.stop g)
| gs_session_receive g l :
    gs_session g -> Forall no_wrap (Link.sat_to_gs_ l) ->
    gs_session (fst (GroundStation.receive_telemetry g l))
| gs_session_send g l body peer :
    gs_session g ->
    gs_session (snd (fst (GroundStation.send_command_with_retry body peer g l))).

Inductive sat_session {std : Std} : Satellite.t -> Prop :=
| sat_session_new config : sat_session (Satellite.new config)
| sat_session_start s : sat_session s -> sat_session (Satellite.start s)
| sat_session_stop s : sat_session s -> sat_session (Satellite.stop s)
| sat_session_process s l :
    sat_session s -> Forall no_wrap (Link.gs_to_sat_ l) ->
    sat_session (fst (Satellite.process_commands s l))
| sat_session_send s l body peer :
    sat_session s ->
    sat_session (snd (fst (Satellite.send_telemetry body peer s l))).

(** What holds of every delivered packet. *)
Definition telemetry_accepted {std : Std} (pkt : Packet) : Prop :=
  Packet.verify_crc pkt = true /\ type pkt = TelemetryPkt /\
  telemetry_parses (payload pkt) = true.
Definition command_accepted {std : Std} (pkt : Packet) : Prop :=
  Packet.verify_crc pkt = true /\ type pkt = CommandPkt /\
  Command.deserialize (payload pkt) <> None.

(** What holds of an endpoint throughout a session. *)

Definition gs_session_invariant {std : Std} (g : GroundStation.t) : Prop :=
  delivered_once (GroundStation.rx_seq_expected_ g) (GroundStation.logged_ g) /\
  GroundStation.telemetry_received_ g
  = u64 (Z.of_nat (length (GroundStation.logged_ g))) /\
  Forall telemetry_accepted (GroundStation.logged_ g) /\
  is_u32 (GroundStation.tx_seq_ g) /\
  is_u32 (GroundStation.rx_seq_expected_ g).

Definition sat_session_invariant {std : Std} (s : Satellite.t) : Prop :=
  delivered_once (Satellite.rx_seq_expected_ s) (Satellite.executed_ s) /\
  Satellite.commands_received_ s
  = u64 (Z.of_nat (length (Satellite.executed_ s))) /\
  Forall command_accepted (Satellite.executed_ s) /\
  is_u32 (Satellite.tx_seq_ s) /\
  is_u32 (Satellite.rx_seq_expected_ s).

(** A satellite in safe mode, and ENTER_SAFE_MODE as a command frame. *)
Definition safe_mode_satellite : Satellite.t :=
  Satellite.mk (Satellite.mkConfig 150 3 false 42) true 0 0 true 0 0 0 0 [].
Definition enter_safe_mode_command (seq : Z) : Packet :=
  data_packet CommandPkt seq (str "ENTER_SAFE_MODE").

(** The satellite thread as the peer of a sending ground station: while the
    ground station is in attempt [retry], the satellite, in the state
    [states retry], runs [process_commands] once. *)
Definition satellite_peer {std : Std} (states : Z -> Satellite.t)
    (retry : Z) (l : Link.t) : Link.t :=
  snd (Satellite.process_commands (states retry) l).

(** The satellite after it has seen, and not executed, the packet [seq]. *)
Definition satellite_after_rejecting (seq : Z) (s : Satellite.t) : Satellite.t :=
  Satellite.set_rx_seq_expected (u32 (seq + 1)) s.

(** The type of the reply of the satellite to a command frame with a valid
    CRC: an ACK for a duplicate and for a payload that parses, else a NAK. *)
Definition command_reply {std : Std} (pkt : Packet) (s : Satellite.t) : Z :=
  if seq pkt <? Satellite.rx_seq_expected_ s then AckPkt
  else match Command.deserialize (payload pkt) with
       | Some _ => AckPkt
       | None => NakPkt
       end.

(* ================================================================= *)
(** * Properties *)

(** ** Bit-level facts *)

Lemma u16_range x : is_u16 (u16 x).
Proof. unfold is_u16, u16. apply Z.mod_pos_bound. lia. Qed.

Lemma u16_small x : is_u16 x -> u16 x = x.
Proof. unfold is_u16, u16. intros H. apply Z.mod_small. exact H. Qed.

Lemma lxor_u16 a b : is_u16 a -> is_u16 b -> is_u16 (Z.lxor a b).
Proof.
  unfold is_u16. intros [Ha Ha'] [Hb Hb']. split.
  - apply Z.lxor_nonneg. lia.
  - destruct (Z.eq_dec (Z.lxor a b) 0) as [->|Hn]; [lia|].
    apply Z.log2_lt_pow2; [pose proof (proj2 (Z.lxor_nonneg a b)); lia|].
    eapply Z.le_lt_trans; [apply Z.log2_lxor; lia|].
    apply Z.max_lub_lt.
    + destruct (Z.eq_dec a 0) as [->|]; [simpl; lia|apply Z.log2_lt_pow2; lia].
    + destruct (Z.eq_dec b 0) as [->|]; [simpl; lia|apply Z.log2_lt_pow2; lia].
Qed.

Lemma top_bit_land crc :
  negb (Z.land crc 0x8000 =? 0) = Z.testbit crc 15.
Proof.
  destruct (Z.testbit crc 15) eqn:Hb.
  - apply negb_true_iff, Z.eqb_neq. intros H0.
    assert (Ht : Z.testbit (Z.land crc 0x8000) 15 = true).
    { rewrite Z.land_spec, Hb. reflexivity. }
    rewrite H0 in Ht. rewrite Z.bits_0 in Ht. discriminate.
  - apply negb_false_iff, Z.eqb_eq. apply Z.bits_inj'. intros n Hn.
    rewrite Z.land_spec, Z.bits_0.
    destruct (Z.eq_dec n 15) as [->|Hne].
    + rewrite Hb. reflexivity.
    + change 0x8000 with (2 ^ 15). rewrite (Z.pow2_bits_false 15 n) by lia.
      apply andb_false_r.
Qed.

Lemma u16_lxor_small x p : is_u16 p -> u16 (Z.lxor x p) = Z.lxor (u16 x) p.
Proof.
  intros Hp. unfold u16. apply Z.bits_inj'. intros n Hn.
  rewrite Z.lxor_spec, !Z.testbit_mod_pow2, Z.lxor_spec by lia.
  destruct (n <? 16) eqn:Hlt; simpl; [reflexivity|].
  apply Z.ltb_ge in Hlt.
  assert (Hpn : Z.testbit p n = false).
  { rewrite <- (Z.mod_small p (2 ^ 16)) by exact Hp.
    apply Z.mod_pow2_bits_high. lia. }
  rewrite Hpn. reflexivity.
Qed.

Lemma crc_bit_spec crc : crc.crc_bit crc = crc.spec_step crc.
Proof.
  unfold crc.crc_bit, crc.spec_step, crc.top_bit, crc.shift_left_one,
    crc.polynomial.
  rewrite top_bit_land, Z.shiftl_mul_pow2 by lia.
  replace (crc * 2 ^ 1) with (2 * crc) by lia.
  destruct (Z.testbit crc 15); [|reflexivity].
  apply u16_lxor_small. unfold is_u16. lia.
Qed.

Lemma crc_bits_spec j crc : crc.crc_bits j crc = Nat.iter j crc.spec_step crc.
Proof.
  revert crc. induction j as [|j IH]; intros crc; [reflexivity|].
  cbn [crc.crc_bits]. rewrite IH, crc_bit_spec.
  symmetry. apply Nat.iter_succ_r.
Qed.

Lemma crc_bit_range crc : is_u16 (crc.crc_bit crc).
Proof. unfold crc.crc_bit. destruct (negb _); apply u16_range. Qed.

Lemma crc_bits_range j crc : is_u16 crc -> is_u16 (crc.crc_bits j crc).
Proof.
  revert crc. induction j as [|j IH]; intros crc H; [exact H|].
  cbn [crc.crc_bits]. apply IH, crc_bit_range.
Qed.

Lemma crc_byte_range crc b : is_u16 (crc.crc_byte crc b).
Proof. unfold crc.crc_byte. apply crc_bits_range, u16_range. Qed.

Lemma shiftl8_u16 b : is_u8 b -> is_u16 (Z.shiftl b 8).
Proof.
  unfold is_u8, is_u16. intros H. rewrite Z.shiftl_mul_pow2 by lia. lia.
Qed.

Lemma crc_byte_spec crc b :
  is_u16 crc -> is_u8 b -> crc.crc_byte crc b = crc.spec_byte crc b.
Proof.
  intros Hc Hb. unfold crc.crc_byte, crc.spec_byte, crc.xor_high_byte.
  rewrite crc_bits_spec. f_equal.
  assert (Hb16 : is_u16 b) by (unfold is_u8, is_u16 in *; lia).
  rewrite (u16_small b Hb16), u16_small.
  - rewrite Z.shiftl_mul_pow2 by lia. reflexivity.
  - apply lxor_u16; [exact Hc|apply shiftl8_u16, Hb].
Qed.

Lemma fold_crc_byte_spec data crc :
  is_u16 crc -> Forall is_u8 data ->
  fold_left crc.crc_byte data crc = crc.spec_from crc data.
Proof.
  intros Hc Hd. revert crc Hc.
  induction Hd as [|b data Hb Hd IH]; intros crc Hc; [reflexivity|].
  cbn [fold_left crc.spec_from].
  rewrite <- (crc_byte_spec crc b Hc Hb). apply IH, crc_byte_range.
Qed.

(** C3. [crc16_ccitt] is a function of the bytes and the length alone: on
    the first [len] bytes of any buffer it computes CRC-16/CCITT-FALSE as the specification words it: register
    0xFFFF, each byte XORed into the high byte, eight shift-and-conditional-XOR
    steps with polynomial 0x1021 modulo 2^16, no reflection and no final XOR;
    over "123456789" it gives 0x29B1 and over the empty input 0xFFFF. *)
Theorem crc16_ccitt_is_ccitt_false :
  (forall (data : list Z) (len : nat),
     Forall is_u8 data -> (len <= length data)%nat ->
     crc.crc16_ccitt data len = crc.crc16_spec (firstn len data)) /\
  crc.crc16_ccitt (str "123456789") 9 = 0x29B1 /\
  crc.crc16_ccitt [] 0 = 0xFFFF.
Proof.
  split; [|split; reflexivity].
  intros data len Hd _. unfold crc.crc16_ccitt, crc.crc16_spec.
  apply fold_crc_byte_spec.
  - unfold is_u16, crc.initial_register. lia.
  - rewrite <- (firstn_skipn len data) in Hd.
    apply Forall_app in Hd. apply Hd.
Qed.

Lemma crc16_ccitt_is_ccitt_false_witness :
  crc.crc16_ccitt [1; 2; 255; 7] 3 = crc.crc16_spec [1; 2; 255].
Proof.
  apply (proj1 crc16_ccitt_is_ccitt_false [1; 2; 255; 7] 3%nat).
  - repeat constructor; unfold is_u8; lia.
  - cbn [length]. lia.
Defined.

(** ** Big-endian fields *)

Lemma lor_shiftl_add hi lo k :
  0 <= k -> 0 <= lo < 2 ^ k -> Z.lor (Z.shiftl hi k) lo = hi * 2 ^ k + lo.
Proof.
  intros Hk Hlo.
  assert (Hland : Z.land (Z.shiftl hi k) lo = 0).
  { apply Z.bits_inj'. intros n Hn. rewrite Z.land_spec, Z.bits_0.
    destruct (Z.lt_ge_cases n k) as [Hlt|Hge].
    - rewrite Z.shiftl_spec_low by exact Hlt. reflexivity.
    - rewrite <- (Z.mod_small lo (2 ^ k)) by exact Hlo.
      rewrite Z.mod_pow2_bits_high by lia. apply andb_false_r. }
  rewrite <- Z.lxor_lor, <- Z.add_nocarry_lxor by exact Hland.
  rewrite Z.shiftl_mul_pow2 by exact Hk. reflexivity.
Qed.

Lemma land_255 x : Z.land x 0xFF = x mod 2 ^ 8.
Proof. change 0xFF with (Z.ones 8). apply Z.land_ones. lia. Qed.

Lemma u8_range x : is_u8 (u8 x).
Proof. unfold is_u8, u8. apply Z.mod_pos_bound. lia. Qed.

Lemma to_char_range x : is_u8 (to_char x).
Proof. apply u8_range. Qed.

Lemma u32_small_id x : is_u32 x -> u32 x = x.
Proof. unfold is_u32, u32. intros H. apply Z.mod_small. exact H. Qed.

Lemma u8_small x : is_u8 x -> u8 x = x.
Proof. unfold is_u8, u8. intros H. apply Z.mod_small. exact H. Qed.

(** Reassembling a 16-bit field from the two bytes [to_bytes] emits. *)
Lemma be16_roundtrip x :
  is_u16 x ->
  u16 (Z.lor (Z.shiftl (to_char (Z.shiftr x 8)) 8) (to_char (Z.land x 0xFF))) = x.
Proof.
  unfold is_u16, u16, to_char. intros Hx.
  rewrite land_255, Z.shiftr_div_pow2 by lia.
  rewrite lor_shiftl_add by (try apply Z.mod_pos_bound; lia).
  change (2 ^ 8) with 256 in *. change (2 ^ 16) with 65536 in *.
  Z.div_mod_to_equations. lia.
Qed.

Lemma lor_disjoint_add a b k :
  0 <= k -> a mod 2 ^ k = 0 -> 0 <= b < 2 ^ k -> Z.lor a b = a + b.
Proof.
  intros Hk Ha Hb.
  assert (Hp : 0 < 2 ^ k) by (apply Z.pow_pos_nonneg; lia).
  assert (Hq : a = Z.shiftl (a / 2 ^ k) k).
  { rewrite Z.shiftl_mul_pow2 by exact Hk.
    pose proof (Z.div_mod a (2 ^ k)). lia. }
  rewrite Hq at 1. rewrite lor_shiftl_add by assumption.
  pose proof (Z.div_mod a (2 ^ k)). lia.
Qed.

Lemma be32_value b3 b2 b1 b0 :
  is_u8 b3 -> is_u8 b2 -> is_u8 b1 -> is_u8 b0 ->
  Z.lor (Z.lor (Z.lor (Z.shiftl b3 24) (Z.shiftl b2 16)) (Z.shiftl b1 8)) b0
  = b3 * 2 ^ 24 + b2 * 2 ^ 16 + b1 * 2 ^ 8 + b0.
Proof.
  unfold is_u8. intros H3 H2 H1 H0.
  rewrite !Z.shiftl_mul_pow2 by lia.
  rewrite (lor_disjoint_add (b3 * 2 ^ 24) (b2 * 2 ^ 16) 24); [|lia| |lia].
  2:{ apply Z.mod_mul. lia. }
  rewrite (lor_disjoint_add _ (b1 * 2 ^ 8) 16); [|lia| |lia].
  2:{ replace (b3 * 2 ^ 24 + b2 * 2 ^ 16) with ((b3 * 2 ^ 8 + b2) * 2 ^ 16) by lia.
      apply Z.mod_mul. lia. }
  rewrite (lor_disjoint_add _ b0 8); [reflexivity|lia| |lia].
  replace (b3 * 2 ^ 24 + b2 * 2 ^ 16 + b1 * 2 ^ 8)
    with ((b3 * 2 ^ 16 + b2 * 2 ^ 8 + b1) * 2 ^ 8) by lia.
  apply Z.mod_mul. lia.
Qed.

Lemma be32_range b3 b2 b1 b0 :
  is_u8 b3 -> is_u8 b2 -> is_u8 b1 -> is_u8 b0 ->
  is_u32 (Z.lor (Z.lor (Z.lor (Z.shiftl b3 24) (Z.shiftl b2 16)) (Z.shiftl b1 8)) b0).
Proof.
  intros H3 H2 H1 H0. rewrite be32_value by assumption.
  unfold is_u8, is_u32 in *. lia.
Qed.

(** Reassembling a 32-bit field from the four bytes [to_bytes] emits. *)
Lemma be32_roundtrip x :
  is_u32 x ->
  u32 (Z.lor (Z.lor (Z.lor (Z.shiftl (to_char (Z.shiftr x 24)) 24)
                           (Z.shiftl (to_char (Z.land (Z.shiftr x 16) 0xFF)) 16))
                    (Z.shiftl (to_char (Z.land (Z.shiftr x 8) 0xFF)) 8))
             (to_char (Z.land x 0xFF))) = x.
Proof.
  intros Hx. rewrite be32_value by apply to_char_range.
  unfold is_u32, u32, to_char in *.
  rewrite !land_255, !Z.shiftr_div_pow2 by lia.
  change (2 ^ 8) with 256. change (2 ^ 16) with 65536.
  change (2 ^ 24) with 16777216. change (2 ^ 32) with 4294967296 in *.
  Z.div_mod_to_equations. lia.
Qed.

(** ** Decoding *)

Lemma wire_payload_size_range bytes : is_u32 (wire_payload_size bytes).
Proof.
  unfold wire_payload_size, u32, is_u32. apply Z.mod_pos_bound. lia.
Qed.

(** [from_bytes] with its positions evaluated: two length checks, then the
    fields at their fixed offsets. *)
Lemma from_bytes_unfold bytes :
  Packet.from_bytes bytes =
  let size := Z.of_nat (length bytes) in
  let n := wire_payload_size bytes in
  if size <? 13 then None
  else if size <? 13 + n then None
  else Some (mkPacket
    (u16 (Z.lor (Z.shiftl (Packet.byte_at bytes 0) 8) (Packet.byte_at bytes 1)))
    (Packet.byte_at bytes 2)
    (u32 (Z.lor (Z.lor (Z.lor (Z.shiftl (Packet.byte_at bytes 3) 24)
                              (Z.shiftl (Packet.byte_at bytes 4) 16))
                       (Z.shiftl (Packet.byte_at bytes 5) 8))
                (Packet.byte_at bytes 6)))
    n
    (Packet.substr bytes 11 n)
    (u16 (Z.lor (Z.shiftl (Packet.byte_at bytes (11 + n)) 8)
                (Packet.byte_at bytes (11 + n + 1))))).
Proof.
  unfold Packet.from_bytes. cbv zeta.
  change (0 + 1) with 1. change (0 + 2) with 2. change (2 + 1) with 3.
  change (3 + 1) with 4. change (3 + 2) with 5. change (3 + 3) with 6.
  change (3 + 4) with 7. change (7 + 1) with 8. change (7 + 2) with 9.
  change (7 + 3) with 10. change (7 + 4) with 11.
  fold (wire_payload_size bytes).
  pose proof (wire_payload_size_range bytes) as Hn. unfold is_u32 in Hn.
  replace (u64 (11 + wire_payload_size bytes + 2))
    with (13 + wire_payload_size bytes).
  - reflexivity.
  - unfold u64. rewrite Z.mod_small; lia.
Qed.

Lemma header_bytes_length v t s n : length (Packet.header_bytes v t s n) = 11%nat.
Proof. reflexivity. Qed.

Lemma to_bytes_length p :
  length (Packet.to_bytes p) = (13 + length (payload p))%nat.
Proof.
  unfold Packet.to_bytes. cbv zeta.
  rewrite !length_app, header_bytes_length. simpl. lia.
Qed.

Lemma byte_at_header v t s n rest i :
  (i < 11)%nat ->
  Packet.byte_at (Packet.header_bytes v t s n ++ rest) (Z.of_nat i)
  = nth i (Packet.header_bytes v t s n) 0.
Proof.
  intros Hi. unfold Packet.byte_at. rewrite Nat2Z.id.
  rewrite app_nth1 by (rewrite header_bytes_length; exact Hi).
  apply u8_small.
  do 11 (destruct i as [|i]; [apply to_char_range|]). lia.
Qed.

Lemma byte_at_footer hdr pl c0 c1 :
  length hdr = 11%nat -> is_u8 c0 -> is_u8 c1 ->
  Packet.byte_at (hdr ++ pl ++ [c0; c1]) (11 + Z.of_nat (length pl)) = c0 /\
  Packet.byte_at (hdr ++ pl ++ [c0; c1]) (11 + Z.of_nat (length pl) + 1) = c1 /\
  Packet.substr (hdr ++ pl ++ [c0; c1]) 11 (Z.of_nat (length pl)) = pl.
Proof.
  intros Hh H0 H1. unfold Packet.byte_at, Packet.substr.
  replace (Z.to_nat (11 + Z.of_nat (length pl))) with (11 + length pl)%nat by lia.
  replace (Z.to_nat (11 + Z.of_nat (length pl) + 1))
    with (11 + length pl + 1)%nat by lia.
  change (Z.to_nat 11) with 11%nat. rewrite Nat2Z.id.
  repeat split.
  - rewrite app_nth2 by lia. rewrite Hh.
    replace (11 + length pl - 11)%nat with (length pl + 0)%nat by lia.
    rewrite app_nth2_plus. simpl. apply u8_small, H0.
  - rewrite app_nth2 by lia. rewrite Hh.
    replace (11 + length pl + 1 - 11)%nat with (length pl + 1)%nat by lia.
    rewrite app_nth2_plus. simpl. apply u8_small, H1.
  - rewrite <- Hh, skipn_app, skipn_all, Nat.sub_diag. simpl.
    rewrite firstn_app, firstn_all, Nat.sub_diag. simpl. apply app_nil_r.
Qed.

(** What decoding an encoded packet returns: every field of [p] except
    [payload_size], which is read back as the payload length. *)
Lemma from_bytes_to_bytes p :
  packet_wf p -> Z.of_nat (length (payload p)) < 2 ^ 32 ->
  Packet.from_bytes (Packet.to_bytes p)
  = Some (mkPacket (version p) (type p) (seq p)
            (Z.of_nat (length (payload p))) (payload p) (crc16 p)).
Proof.
  intros (Hv & Ht & Hs & Hps & Hpl & Hc) Hlen.
  assert (Hsz : is_u32 (Z.of_nat (length (payload p)))) by (unfold is_u32; lia).
  assert (Hwire : wire_payload_size (Packet.to_bytes p)
                  = Z.of_nat (length (payload p))).
  { unfold wire_payload_size, Packet.to_bytes. cbv zeta.
    rewrite (byte_at_header _ _ _ _ _ 7), (byte_at_header _ _ _ _ _ 8),
      (byte_at_header _ _ _ _ _ 9), (byte_at_header _ _ _ _ _ 10) by lia.
    cbn [nth Packet.header_bytes].
    rewrite (u32_small_id _ Hsz). apply be32_roundtrip, Hsz. }
  rewrite from_bytes_unfold. cbv zeta. rewrite Hwire, to_bytes_length.
  destruct (Z.ltb_spec (Z.of_nat (13 + length (payload p))) 13) as [Hlt|_]; [lia|].
  destruct (Z.ltb_spec (Z.of_nat (13 + length (payload p)))
              (13 + Z.of_nat (length (payload p)))) as [Hlt|_]; [lia|].
  unfold Packet.to_bytes. cbv zeta.
  rewrite (byte_at_header _ _ _ _ _ 0), (byte_at_header _ _ _ _ _ 1),
    (byte_at_header _ _ _ _ _ 2), (byte_at_header _ _ _ _ _ 3),
    (byte_at_header _ _ _ _ _ 4), (byte_at_header _ _ _ _ _ 5),
    (byte_at_header _ _ _ _ _ 6) by lia.
  cbn [nth Packet.header_bytes].
  destruct (byte_at_footer
              (Packet.header_bytes (version p) (type p) (seq p)
                 (u32 (Z.of_nat (length (payload p)))))
              (payload p) (to_char (Z.shiftr (crc16 p) 8))
              (to_char (Z.land (crc16 p) 0xFF))
              (header_bytes_length _ _ _ _) (to_char_range _) (to_char_range _))
    as (E0 & E1 & E2).
  rewrite E0, E1, E2.
  rewrite (be16_roundtrip _ Hv), (be16_roundtrip _ Hc), (be32_roundtrip _ Hs).
  unfold to_char. fold (u8 (type p)). rewrite (u8_small _ Ht). reflexivity.
Qed.

(** Replace a closed term by its value. *)
Ltac evaluate t :=
  let v := eval vm_compute in t in
  replace t with v by (vm_compute; reflexivity).

Ltac solve_packet_wf :=
  unfold packet_wf, is_u8, is_u16, is_u32;
  cbn [version type seq payload_size payload crc16];
  repeat split; try lia; repeat constructor; lia.

Lemma test_packet_wf : packet_wf test_packet.
Proof. evaluate test_packet. solve_packet_wf. Qed.

(** C1 (amended). For every packet whose payload length fits in 32 bits and
    whose [payload_size] field equals its payload length, decoding the
    encoding succeeds and returns the packet itself: version, type, seq,
    payload_size, payload and crc16 all agree. *)
Theorem from_bytes_to_bytes_roundtrip :
  forall p : Packet,
    packet_wf p ->
    Z.of_nat (length (payload p)) < 2 ^ 32 ->
    payload_size p = Z.of_nat (length (payload p)) ->
    Packet.from_bytes (Packet.to_bytes p) = Some p.
Proof.
  intros p Hwf Hlen Hps. rewrite from_bytes_to_bytes by assumption.
  rewrite <- Hps. destruct p; reflexivity.
Qed.

Lemma from_bytes_to_bytes_roundtrip_witness :
  Packet.from_bytes (Packet.to_bytes test_packet) = Some test_packet.
Proof.
  apply (from_bytes_to_bytes_roundtrip test_packet).
  - exact test_packet_wf.
  - vm_compute. reflexivity.
  - vm_compute. reflexivity.
Defined.

(** C1, as stated, fails: a packet whose payload fits in 32 bits but whose
    [payload_size] field disagrees with the payload length is decoded with
    the payload length in [payload_size]. *)
Lemma roundtrip_rewrites_payload_size :
  packet_wf stale_size_packet /\
  Z.of_nat (length (payload stale_size_packet)) < 2 ^ 32 /\
  Packet.from_bytes (Packet.to_bytes stale_size_packet) <> Some stale_size_packet /\
  option_map payload_size (Packet.from_bytes (Packet.to_bytes stale_size_packet))
  = Some 0.
Proof.
  split; [|split; [|split]].
  - unfold stale_size_packet, AckPkt. solve_packet_wf.
  - vm_compute. reflexivity.
  - vm_compute. discriminate.
  - vm_compute. reflexivity.
Qed.

(** Bytes after the frame are not looked at. *)
Lemma byte_at_app bytes extra i :
  0 <= i < Z.of_nat (length bytes) ->
  Packet.byte_at (bytes ++ extra) i = Packet.byte_at bytes i.
Proof.
  intros Hi. unfold Packet.byte_at. rewrite app_nth1 by lia. reflexivity.
Qed.

Lemma from_bytes_app bytes extra p :
  Packet.from_bytes bytes = Some p ->
  Packet.from_bytes (bytes ++ extra) = Some p.
Proof.
  rewrite !from_bytes_unfold. cbv zeta.
  destruct (Z.ltb_spec (Z.of_nat (length bytes)) 13) as [|H13]; [discriminate|].
  assert (Hw : wire_payload_size (bytes ++ extra) = wire_payload_size bytes).
  { unfold wire_payload_size. rewrite !byte_at_app by lia. reflexivity. }
  rewrite Hw.
  pose proof (wire_payload_size_range bytes) as Hr. unfold is_u32 in Hr.
  destruct (Z.ltb_spec (Z.of_nat (length bytes)) (13 + wire_payload_size bytes))
    as [|Hn]; [discriminate|].
  intros Hp. rewrite length_app.
  destruct (Z.ltb_spec (Z.of_nat (length bytes + length extra)) 13); [lia|].
  destruct (Z.ltb_spec (Z.of_nat (length bytes + length extra))
              (13 + wire_payload_size bytes)); [lia|].
  rewrite <- Hp. rewrite !byte_at_app by lia.
  do 2 f_equal. unfold Packet.substr.
  rewrite skipn_app, firstn_app.
  replace (Z.to_nat (wire_payload_size bytes)
           - length (skipn (Z.to_nat 11) bytes))%nat with 0%nat
    by (rewrite length_skipn; lia).
  rewrite firstn_0. apply app_nil_r.
Qed.

(** C4 (amended). [from_bytes] fails exactly when the input is shorter than
    13 bytes or shorter than 11 + payload_size + 2, payload_size being the
    big-endian value of bytes 7..10; bytes after the CRC footer are ignored,
    so a frame followed by excess bytes decodes to the same packet. *)
Theorem from_bytes_fails_iff_too_short :
  forall bytes : list Z,
    (Packet.from_bytes bytes = None <->
       Z.of_nat (length bytes) < 13 \/
       Z.of_nat (length bytes) < 11 + wire_payload_size bytes + 2) /\
    (forall (extra : list Z) (p : Packet),
       Packet.from_bytes bytes = Some p ->
       Packet.from_bytes (bytes ++ extra) = Some p).
Proof.
  intros bytes. split; [|intros extra p; apply from_bytes_app].
  rewrite from_bytes_unfold. cbv zeta.
  destruct (Z.ltb_spec (Z.of_nat (length bytes)) 13) as [H13|H13].
  - split; [intros _; left; exact H13|reflexivity].
  - destruct (Z.ltb_spec (Z.of_nat (length bytes)) (13 + wire_payload_size bytes))
      as [Hn|Hn].
    + split; [intros _; right; lia|reflexivity].
    + split; [discriminate|intros [H|H]; lia].
Qed.

Lemma from_bytes_fails_iff_too_short_witness :
  Packet.from_bytes [0; 1; 3; 0; 0; 0; 5; 0; 0; 0; 9; 0; 0] = None.
Proof.
  apply (proj1 (from_bytes_fails_iff_too_short
                  [0; 1; 3; 0; 0; 0; 5; 0; 0; 0; 9; 0; 0])).
  right. vm_compute. reflexivity.
Defined.

(** C4, as stated, fails: a frame with an excess trailing byte is longer
    than 13 + payload_size and is decoded without error. *)
Lemma trailing_byte_is_accepted :
  Z.of_nat (length frame_with_trailing_byte)
    > 13 + wire_payload_size frame_with_trailing_byte /\
  Packet.from_bytes frame_with_trailing_byte <> None.
Proof.
  split.
  - vm_compute. reflexivity.
  - vm_compute. discriminate.
Qed.

(** ** CRC of a packet *)

Lemma fold_crc_byte_range data crc :
  is_u16 crc -> is_u16 (fold_left crc.crc_byte data crc).
Proof.
  revert crc. induction data as [|b data IH]; intros crc Hc; [exact Hc|].
  cbn [fold_left]. apply IH, crc_byte_range.
Qed.

Lemma crc16_ccitt_range data len : is_u16 (crc.crc16_ccitt data len).
Proof.
  unfold crc.crc16_ccitt. apply fold_crc_byte_range. unfold is_u16. lia.
Qed.

Lemma crc_data_set_crc16 c p :
  Packet.crc_data (set_crc16 c p) = Packet.crc_data p.
Proof. reflexivity. Qed.

Lemma crc_data_set_payload_size n p :
  Packet.crc_data (set_payload_size n p) = Packet.crc_data p.
Proof. reflexivity. Qed.

Lemma verify_compute_crc p : Packet.verify_crc (Packet.compute_crc p) = true.
Proof.
  unfold Packet.verify_crc, Packet.compute_crc. cbv zeta.
  rewrite crc_data_set_crc16. cbn [crc16 set_crc16]. apply Z.eqb_refl.
Qed.

Lemma compute_crc_wf p : packet_wf p -> packet_wf (Packet.compute_crc p).
Proof.
  intros (Hv & Ht & Hs & Hps & Hpl & Hc).
  unfold packet_wf, Packet.compute_crc, set_crc16.
  cbn [version type seq payload_size payload crc16].
  repeat split; try apply Hv; try apply Ht; try apply Hs; try apply Hps;
    try exact Hpl; apply crc16_ccitt_range.
Qed.

Lemma crc_data_ext p q :
  differ_only_in_payload_size p q -> Packet.crc_data p = Packet.crc_data q.
Proof.
  intros (Hv & Ht & Hs & Hpl & _). unfold Packet.crc_data.
  rewrite Hv, Ht, Hs, Hpl. reflexivity.
Qed.

(** C9. Two packets that differ only in [payload_size] have the same
    encoding, get the same CRC from [compute_crc] and the same answer from
    [verify_crc]; whatever the field holds, the stamped packet passes
    verification and its frame decodes to a packet whose [payload_size] is
    the payload length and which passes verification too. *)
Theorem payload_size_field_is_ignored :
  forall p q : Packet,
    differ_only_in_payload_size p q ->
    Packet.to_bytes p = Packet.to_bytes q /\
    crc16 (Packet.compute_crc p) = crc16 (Packet.compute_crc q) /\
    differ_only_in_payload_size (Packet.compute_crc p) (Packet.compute_crc q) /\
    Packet.verify_crc p = Packet.verify_crc q /\
    Packet.verify_crc (Packet.compute_crc p) = true /\
    (packet_wf p -> Z.of_nat (length (payload p)) < 2 ^ 32 ->
     exists d : Packet,
       Packet.from_bytes (Packet.to_bytes (Packet.compute_crc p)) = Some d /\
       payload_size d = Z.of_nat (length (payload d)) /\
       payload d = payload p /\
       Packet.verify_crc d = true).
Proof.
  intros p q Hpq. pose proof (crc_data_ext p q Hpq) as Hd.
  destruct Hpq as (Hv & Ht & Hs & Hpl & Hc).
  assert (Hcrc : crc16 (Packet.compute_crc p) = crc16 (Packet.compute_crc q)).
  { unfold Packet.compute_crc, set_crc16. cbn [crc16]. rewrite Hd. reflexivity. }
  split; [|split; [exact Hcrc|split; [|split; [|split]]]].
  - unfold Packet.to_bytes. rewrite Hv, Ht, Hs, Hpl, Hc. reflexivity.
  - unfold differ_only_in_payload_size, Packet.compute_crc, set_crc16 in *.
    cbn [version type seq payload crc16] in *. tauto.
  - unfold Packet.verify_crc. rewrite Hd, Hc. reflexivity.
  - apply verify_compute_crc.
  - intros Hwf Hlen.
    pose proof (compute_crc_wf p Hwf) as Hwf'.
    eexists. split; [apply from_bytes_to_bytes; [exact Hwf'|exact Hlen]|].
    cbn [payload_size payload]. split; [reflexivity|split; [reflexivity|]].
    pose proof (verify_compute_crc p) as Hok.
    unfold Packet.verify_crc in *. exact Hok.
Qed.

Lemma payload_size_field_is_ignored_witness :
  Packet.to_bytes stale_size_packet
  = Packet.to_bytes (set_payload_size 0 stale_size_packet) /\
  Packet.verify_crc (Packet.compute_crc stale_size_packet) = true.
Proof.
  destruct (payload_size_field_is_ignored stale_size_packet
              (set_payload_size 0 stale_size_packet)) as (H1 & _ & _ & _ & H5 & _).
  - unfold differ_only_in_payload_size. repeat split; reflexivity.
  - split; [exact H1|exact H5].
Defined.

(** ** The CRC register is updated injectively *)

Lemma top_bit_ge c : is_u16 c -> (crc.top_bit c = true <-> 2 ^ 15 <= c).
Proof.
  unfold is_u16, crc.top_bit. intros Hc.
  rewrite Z.testbit_true by lia.
  change (2 ^ 15) with 32768. change (2 ^ 16) with 65536 in Hc.
  split; intros H; Z.div_mod_to_equations; lia.
Qed.

Lemma shift_left_one_even c : Z.testbit (crc.shift_left_one c) 0 = false.
Proof.
  unfold crc.shift_left_one. rewrite Z.testbit_mod_pow2 by lia.
  rewrite Z.testbit_even_0. reflexivity.
Qed.

Lemma spec_step_low_bit c : Z.testbit (crc.spec_step c) 0 = crc.top_bit c.
Proof.
  unfold crc.spec_step. destruct (crc.top_bit c).
  - rewrite Z.lxor_spec, shift_left_one_even. reflexivity.
  - apply shift_left_one_even.
Qed.

Lemma spec_step_inj c c' :
  is_u16 c -> is_u16 c' -> crc.spec_step c = crc.spec_step c' -> c = c'.
Proof.
  intros Hc Hc' H.
  assert (Hb : crc.top_bit c = crc.top_bit c').
  { rewrite <- !spec_step_low_bit, H. reflexivity. }
  pose proof (top_bit_ge c Hc) as Tc. pose proof (top_bit_ge c' Hc') as Tc'.
  unfold crc.spec_step in H. rewrite <- Hb in H, Tc'.
  assert (Hs : crc.shift_left_one c = crc.shift_left_one c').
  { destruct (crc.top_bit c); [|exact H].
    apply (f_equal (fun x => Z.lxor x crc.polynomial)) in H.
    rewrite !Z.lxor_assoc, !Z.lxor_nilpotent, !Z.lxor_0_r in H. exact H. }
  unfold crc.shift_left_one, is_u16 in *.
  change (2 ^ 16) with 65536 in *. change (2 ^ 15) with 32768 in *.
  destruct (crc.top_bit c).
  - assert (32768 <= c) by (apply Tc; reflexivity).
    assert (32768 <= c') by (apply Tc'; reflexivity).
    Z.div_mod_to_equations. lia.
  - assert (~ 32768 <= c) by (intros G; apply Tc in G; discriminate).
    assert (~ 32768 <= c') by (intros G; apply Tc' in G; discriminate).
    Z.div_mod_to_equations. lia.
Qed.

Lemma crc_bits_inj j c c' :
  is_u16 c -> is_u16 c' -> crc.crc_bits j c = crc.crc_bits j c' -> c = c'.
Proof.
  revert c c'. induction j as [|j IH]; intros c c' Hc Hc' H; [exact H|].
  cbn [crc.crc_bits] in H.
  apply IH in H; try apply crc_bit_range.
  rewrite !crc_bit_spec in H. apply spec_step_inj; assumption.
Qed.

Lemma xor_in_byte c b :
  is_u16 c -> is_u8 b ->
  u16 (Z.lxor c (Z.shiftl (u16 b) 8)) = Z.lxor c (Z.shiftl b 8) /\
  is_u16 (Z.lxor c (Z.shiftl b 8)).
Proof.
  intros Hc Hb.
  assert (Hb16 : is_u16 b) by (unfold is_u8, is_u16 in *; lia).
  assert (Hr : is_u16 (Z.lxor c (Z.shiftl b 8)))
    by (apply lxor_u16; [exact Hc|apply shiftl8_u16, Hb]).
  rewrite (u16_small b Hb16), (u16_small _ Hr). split; [reflexivity|exact Hr].
Qed.

Lemma crc_byte_inj_state c c' b :
  is_u16 c -> is_u16 c' -> is_u8 b ->
  crc.crc_byte c b = crc.crc_byte c' b -> c = c'.
Proof.
  intros Hc Hc' Hb H. unfold crc.crc_byte in H.
  destruct (xor_in_byte c b Hc Hb) as [E R].
  destruct (xor_in_byte c' b Hc' Hb) as [E' R'].
  rewrite E, E' in H. apply crc_bits_inj in H; [|exact R|exact R'].
  apply (f_equal (fun x => Z.lxor x (Z.shiftl b 8))) in H.
  rewrite !Z.lxor_assoc, !Z.lxor_nilpotent, !Z.lxor_0_r in H. exact H.
Qed.

Lemma crc_byte_inj_byte c b b' :
  is_u16 c -> is_u8 b -> is_u8 b' ->
  crc.crc_byte c b = crc.crc_byte c b' -> b = b'.
Proof.
  intros Hc Hb Hb' H. unfold crc.crc_byte in H.
  destruct (xor_in_byte c b Hc Hb) as [E R].
  destruct (xor_in_byte c b' Hc Hb') as [E' R'].
  rewrite E, E' in H. apply crc_bits_inj in H; [|exact R|exact R'].
  apply (f_equal (Z.lxor c)) in H.
  rewrite <- !Z.lxor_assoc, !Z.lxor_nilpotent, !Z.lxor_0_l in H.
  rewrite !Z.shiftl_mul_pow2 in H by lia. lia.
Qed.

Lemma fold_crc_byte_inj data c c' :
  Forall is_u8 data -> is_u16 c -> is_u16 c' ->
  fold_left crc.crc_byte data c = fold_left crc.crc_byte data c' -> c = c'.
Proof.
  intros Hd. revert c c'.
  induction Hd as [|b data Hb Hd IH]; intros c c' Hc Hc' H; [exact H|].
  cbn [fold_left] in H. apply IH in H; try apply crc_byte_range.
  eapply crc_byte_inj_state; eassumption.
Qed.

(** Replacing one byte of the input, whatever its position and whatever the
    length of the input, changes the checksum. *)
Lemma crc16_single_byte pre post b b' :
  Forall is_u8 post -> is_u8 b -> is_u8 b' -> b <> b' ->
  crc.crc16_ccitt (pre ++ b :: post) (length (pre ++ b :: post))
  <> crc.crc16_ccitt (pre ++ b' :: post) (length (pre ++ b' :: post)).
Proof.
  intros Hpost Hb Hb' Hne. unfold crc.crc16_ccitt.
  rewrite !firstn_all, !fold_left_app. cbn [fold_left]. intros H.
  assert (H0 : is_u16 (fold_left crc.crc_byte pre 65535))
    by (apply fold_crc_byte_range; unfold is_u16; lia).
  apply fold_crc_byte_inj in H;
    [|exact Hpost|apply crc_byte_range|apply crc_byte_range].
  apply crc_byte_inj_byte in H; [|exact H0|exact Hb|exact Hb'].
  exact (Hne H).
Qed.

(** ** Changing one byte of a stamped packet *)

Lemma get_byte_range x k : is_u8 (get_byte x k).
Proof. unfold is_u8, get_byte. change (2 ^ 8) with 256. apply Z.mod_pos_bound. lia. Qed.

Lemma header_bytes_get_byte v t s n :
  Packet.header_bytes v t s n =
  [ get_byte v 1; get_byte v 0; u8 t;
    get_byte s 3; get_byte s 2; get_byte s 1; get_byte s 0;
    get_byte n 3; get_byte n 2; get_byte n 1; get_byte n 0 ].
Proof.
  unfold Packet.header_bytes, to_char, get_byte, u8.
  rewrite !land_255, !Z.shiftr_div_pow2 by lia.
  change (256 ^ Z.of_nat 0) with 1. change (256 ^ Z.of_nat 1) with (2 ^ 8).
  change (256 ^ Z.of_nat 2) with (2 ^ 16). change (256 ^ Z.of_nat 3) with (2 ^ 24).
  change 256 with (2 ^ 8).
  rewrite !Z.div_1_r, !Z.mod_mod by lia. reflexivity.
Qed.

Ltac byte_arith :=
  unfold set_byte, get_byte, is_u8 in *;
  change (256 ^ Z.of_nat 0) with 1 in *;
  change (256 ^ Z.of_nat 1) with 256 in *;
  change (256 ^ Z.of_nat 2) with 65536 in *;
  change (256 ^ Z.of_nat 3) with 16777216 in *;
  change (2 ^ 8) with 256 in *;
  Z.div_mod_to_equations; lia.

Lemma get_set_byte x k j v :
  (k < 4)%nat -> (j < 4)%nat -> is_u8 v ->
  get_byte (set_byte x k v) j = if Nat.eqb j k then v else get_byte x j.
Proof.
  intros Hk Hj Hv.
  destruct k as [|[|[|[|k]]]]; [| | | |lia];
    (destruct j as [|[|[|[|j]]]]; [| | | |lia]);
    cbn [Nat.eqb]; byte_arith.
Qed.

Lemma set_nth_split i v l :
  (i < length l)%nat ->
  exists pre post,
    l = pre ++ nth i l 0 :: post /\ set_nth i v l = pre ++ v :: post.
Proof.
  revert i. induction l as [|x l IH]; intros i Hi; [cbn in Hi; lia|].
  destruct i as [|i].
  - exists [], l. split; reflexivity.
  - cbn [length] in Hi. destruct (IH i) as (pre & post & E1 & E2); [lia|].
    exists (x :: pre), post. cbn [nth set_nth app]. rewrite <- E1, E2.
    split; reflexivity.
Qed.

Lemma set_nth_length i v l : length (set_nth i v l) = length l.
Proof.
  revert i. induction l as [|x l IH]; intros i; [destruct i; reflexivity|].
  destruct i; cbn [set_nth length]; [reflexivity|]. rewrite IH. reflexivity.
Qed.

Lemma Forall_split_at (pre post : list Z) (b : Z) :
  Forall is_u8 (pre ++ b :: post) -> Forall is_u8 post /\ is_u8 b.
Proof.
  intros H. apply Forall_app in H. destruct H as [_ H].
  inversion H; subst. split; assumption.
Qed.

(** The checksum input of a packet and of the packet with one covered byte
    replaced differ in that one byte. *)
Lemma crc_data_write_byte pl v p :
  Forall is_u8 (payload p) ->
  place_ok pl p = true -> covered_by_crc pl = true ->
  is_u8 v -> is_u8 (type p) -> v <> read_byte pl p ->
  exists pre post b,
    Packet.crc_data p = pre ++ b :: post /\
    Packet.crc_data (write_byte pl v p) = pre ++ v :: post /\
    Forall is_u8 post /\ is_u8 b /\ b <> v.
Proof.
  intros Hpl Hok Hcov Hv Ht Hne.
  unfold Packet.crc_data. cbv zeta.
  set (n := u32 (Z.of_nat (length (payload p)))).
  assert (Hrest : forall l, Forall is_u8 l -> Forall is_u8 (l ++ payload p)).
  { intros l Hl. apply Forall_app. split; assumption. }
  destruct pl as [k| |k|k|i]; cbn [write_byte version type seq payload] in *;
    try discriminate Hcov.
  - (* version *)
    fold n. rewrite !header_bytes_get_byte.
    cbn [place_ok] in Hok. apply Nat.ltb_lt in Hok.
    assert (K4 : (k < 4)%nat) by lia.
    rewrite !(get_set_byte (version p) k) by (assumption || lia).
    destruct k as [|[|k]]; [| |lia]; cbn [Nat.eqb read_byte] in *.
    + exists [get_byte (version p) 1],
        ([u8 (type p); get_byte (seq p) 3; get_byte (seq p) 2;
          get_byte (seq p) 1; get_byte (seq p) 0; get_byte n 3;
          get_byte n 2; get_byte n 1; get_byte n 0] ++ payload p),
        (get_byte (version p) 0).
      repeat split; try reflexivity; try apply get_byte_range; try congruence.
      apply Hrest. repeat constructor; try apply get_byte_range; apply u8_range.
    + exists [],
        ([get_byte (version p) 0; u8 (type p); get_byte (seq p) 3;
          get_byte (seq p) 2; get_byte (seq p) 1; get_byte (seq p) 0;
          get_byte n 3; get_byte n 2; get_byte n 1; get_byte n 0] ++ payload p),
        (get_byte (version p) 1).
      repeat split; try reflexivity; try apply get_byte_range; try congruence.
      apply Hrest. repeat constructor; try apply get_byte_range; apply u8_range.
  - (* type *)
    fold n. rewrite !header_bytes_get_byte. cbn [read_byte] in Hne.
    rewrite (u8_small v Hv), (u8_small _ Ht).
    exists [get_byte (version p) 1; get_byte (version p) 0],
      ([get_byte (seq p) 3; get_byte (seq p) 2; get_byte (seq p) 1;
        get_byte (seq p) 0; get_byte n 3; get_byte n 2; get_byte n 1;
        get_byte n 0] ++ payload p),
      (type p).
    repeat split; try reflexivity; try apply Ht; try congruence.
    apply Hrest. repeat constructor; apply get_byte_range.
  - (* seq *)
    fold n. rewrite !header_bytes_get_byte.
    cbn [place_ok] in Hok. apply Nat.ltb_lt in Hok.
    rewrite !(get_set_byte (seq p) k) by (assumption || lia).
    destruct k as [|[|[|[|k]]]]; [| | | |lia]; cbn [Nat.eqb read_byte] in *.
    + exists [get_byte (version p) 1; get_byte (version p) 0; u8 (type p);
              get_byte (seq p) 3; get_byte (seq p) 2; get_byte (seq p) 1],
        ([get_byte n 3; get_byte n 2; get_byte n 1; get_byte n 0] ++ payload p),
        (get_byte (seq p) 0).
      repeat split; try reflexivity; try apply get_byte_range; try congruence.
      apply Hrest. repeat constructor; apply get_byte_range.
    + exists [get_byte (version p) 1; get_byte (version p) 0; u8 (type p);
              get_byte (seq p) 3; get_byte (seq p) 2],
        ([get_byte (seq p) 0; get_byte n 3; get_byte n 2; get_byte n 1;
          get_byte n 0] ++ payload p),
        (get_byte (seq p) 1).
      repeat split; try reflexivity; try apply get_byte_range; try congruence.
      apply Hrest. repeat constructor; apply get_byte_range.
    + exists [get_byte (version p) 1; get_byte (version p) 0; u8 (type p);
              get_byte (seq p) 3],
        ([get_byte (seq p) 1; get_byte (seq p) 0; get_byte n 3; get_byte n 2;
          get_byte n 1; get_byte n 0] ++ payload p),
        (get_byte (seq p) 2).
      repeat split; try reflexivity; try apply get_byte_range; try congruence.
      apply Hrest. repeat constructor; apply get_byte_range.
    + exists [get_byte (version p) 1; get_byte (version p) 0; u8 (type p)],
        ([get_byte (seq p) 2; get_byte (seq p) 1; get_byte (seq p) 0;
          get_byte n 3; get_byte n 2; get_byte n 1; get_byte n 0] ++ payload p),
        (get_byte (seq p) 3).
      repeat split; try reflexivity; try apply get_byte_range; try congruence.
      apply Hrest. repeat constructor; apply get_byte_range.
  - (* payload *)
    cbn [place_ok] in Hok. apply Nat.ltb_lt in Hok. cbn [read_byte] in Hne.
    rewrite set_nth_length. fold n.
    destruct (set_nth_split i v (payload p) Hok) as (pre & post & E1 & E2).
    rewrite E2. rewrite E1 in Hpl. apply Forall_split_at in Hpl.
    exists (Packet.header_bytes (version p) (type p) (seq p) n ++ pre), post,
      (nth i (payload p) 0).
    rewrite <- !app_assoc. rewrite <- E1.
    destruct Hpl as [Hpost Hb].
    repeat split; try assumption; try apply Hb. congruence.
Qed.

Lemma crc16_write_byte pl v p : crc16 (write_byte pl v p) = crc16 p.
Proof. destruct pl; reflexivity. Qed.

Lemma verify_crc_false_iff p :
  Packet.verify_crc p = false <->
  crc.crc16_ccitt (Packet.crc_data p) (length (Packet.crc_data p)) <> crc16 p.
Proof. unfold Packet.verify_crc. cbv zeta. apply Z.eqb_neq. Qed.

Lemma test_fields_wf : packet_wf test_fields.
Proof. unfold test_fields, TelemetryPkt. solve_packet_wf. Qed.

(** C2 (amended). After [compute_crc], [verify_crc] returns true; replacing
    any single byte of version, type, seq or payload by a different value,
    or changing crc16, without recomputing the CRC makes [verify_crc] return
    false; replacing a byte of the [payload_size] field leaves [verify_crc]
    true, because the size that is checked is the payload length. *)
Theorem verify_crc_after_single_byte_change :
  forall p : Packet,
    packet_wf p ->
    Packet.verify_crc (Packet.compute_crc p) = true /\
    (forall (pl : Place) (v : Z),
       place_ok pl p = true -> is_u8 v -> v <> read_byte pl p ->
       Packet.verify_crc (write_byte pl v (Packet.compute_crc p))
       = negb (covered_by_crc pl)) /\
    (forall c : Z,
       c <> crc16 (Packet.compute_crc p) ->
       Packet.verify_crc (set_crc16 c (Packet.compute_crc p)) = false).
Proof.
  intros p Hwf. split; [apply verify_compute_crc|split].
  - intros pl v Hok Hv Hne.
    destruct (covered_by_crc pl) eqn:Hcov; cbn [negb].
    + destruct Hwf as (_ & Ht & _ & _ & Hpl & _).
      destruct (crc_data_write_byte pl v (Packet.compute_crc p))
        as (pre & post & b & E1 & E2 & Hpost & Hb & Hbv).
      * exact Hpl.
      * destruct pl; exact Hok.
      * exact Hcov.
      * exact Hv.
      * exact Ht.
      * destruct pl; exact Hne.
      * apply verify_crc_false_iff. rewrite crc16_write_byte, E2.
        replace (crc16 (Packet.compute_crc p))
          with (crc.crc16_ccitt (pre ++ b :: post) (length (pre ++ b :: post)))
          by (rewrite <- E1; reflexivity).
        apply crc16_single_byte; try assumption. congruence.
    + destruct pl; try discriminate Hcov.
      exact (verify_compute_crc p).
  - intros c Hc. apply verify_crc_false_iff.
    rewrite crc_data_set_crc16. cbn [crc16 set_crc16].
    intros E. apply Hc. rewrite <- E. reflexivity.
Qed.

(** The scenario of the CRC test: the first payload byte overwritten by 'X'. *)
Lemma verify_crc_after_single_byte_change_witness :
  Packet.verify_crc (write_byte (PayloadByte 0) 88 test_packet) = false.
Proof.
  destruct (verify_crc_after_single_byte_change test_fields test_fields_wf)
    as (_ & H & _).
  apply (H (PayloadByte 0) 88).
  - reflexivity.
  - unfold is_u8. lia.
  - vm_compute. discriminate.
Defined.

(** C2, as stated, fails: a changed byte of [payload_size] is not noticed. *)
Lemma payload_size_change_passes_verify_crc :
  Packet.verify_crc test_packet = true /\
  read_byte (PayloadSizeByte 0) test_packet <> 0 /\
  Packet.verify_crc (write_byte (PayloadSizeByte 0) 0 test_packet) = true.
Proof.
  split; [|split].
  - vm_compute. reflexivity.
  - vm_compute. discriminate.
  - vm_compute. reflexivity.
Qed.

(* ----------------------------------------------------------------- *)
(** ** The channel *)

Section LinkProperties.
Context {std : Std}.

Lemma send_outcome pkt queue (l : Link.t) :
  let l' := Link.apply_impairments_and_send pkt queue l in
  Link.packets_sent_ l' = u64 (Link.packets_sent_ l + 1) /\
  Link.config_ l' = Link.config_ l /\
  (send_dropped l l' \/ send_enqueued pkt queue l l').
Proof.
  unfold Link.apply_impairments_and_send.
  destruct (uniform_real_distribution (Link.rng_ l)) as [loss_value rng1].
  destruct (normal_distribution _ _ rng1) as [delay_ms rng2].
  destruct (double_lt loss_value (Link.loss_prob (Link.config_ l))).
  - cbn. split; [reflexivity|split; [reflexivity|left]].
    unfold send_dropped. cbn. auto.
  - destruct queue; cbn; (split; [reflexivity|split; [reflexivity|right]]);
      unfold send_enqueued, ThreadSafeQueue.push; cbn; auto.
Qed.

(** The two outcomes exclude each other. *)
Lemma send_outcomes_exclusive pkt queue (l l' : Link.t) :
  is_u64 (Link.packets_dropped_ l) ->
  ~ (send_dropped l l' /\ send_enqueued pkt queue l l').
Proof.
  unfold is_u64, send_dropped, send_enqueued, u64.
  intros Hd [[H1 _] [H2 _]]. rewrite H2 in H1.
  change (2 ^ 64) with 18446744073709551616 in *.
  Z.div_mod_to_equations. lia.
Qed.

Lemma run_sends_counts calls (l : Link.t) :
  0 <= Link.packets_dropped_ l <= Link.packets_sent_ l ->
  Link.packets_sent_ l + Z.of_nat (length calls) < 2 ^ 64 ->
  let l' := Link.run_sends calls l in
  Link.packets_sent_ l' = Link.packets_sent_ l + Z.of_nat (length calls) /\
  Link.packets_dropped_ l <= Link.packets_dropped_ l' <= Link.packets_sent_ l' /\
  Link.packets_sent_ l' - Link.packets_sent_ l =
    (Z.of_nat (length (Link.sat_to_gs_ l')) - Z.of_nat (length (Link.sat_to_gs_ l)))
    + (Z.of_nat (length (Link.gs_to_sat_ l')) - Z.of_nat (length (Link.gs_to_sat_ l)))
    + (Link.packets_dropped_ l' - Link.packets_dropped_ l).
Proof.
  revert l. induction calls as [|[queue pkt] calls IH]; intros l Hd Hn.
  - cbn. lia.
  - cbn [Link.run_sends fold_left fst snd length] in *.
    fold (Link.run_sends calls (Link.apply_impairments_and_send pkt queue l)).
    destruct (send_outcome pkt queue l) as (Hs & _ & Hcase).
    set (l1 := Link.apply_impairments_and_send pkt queue l) in *.
    assert (Hs1 : Link.packets_sent_ l1 = Link.packets_sent_ l + 1).
    { rewrite Hs. unfold u64. apply Z.mod_small. lia. }
    assert (Hstep :
      0 <= Link.packets_dropped_ l1 <= Link.packets_sent_ l1 /\
      Link.packets_dropped_ l <= Link.packets_dropped_ l1 /\
      1 = (Z.of_nat (length (Link.sat_to_gs_ l1)) - Z.of_nat (length (Link.sat_to_gs_ l)))
          + (Z.of_nat (length (Link.gs_to_sat_ l1)) - Z.of_nat (length (Link.gs_to_sat_ l)))
          + (Link.packets_dropped_ l1 - Link.packets_dropped_ l)).
    { destruct Hcase as [(D & Q1 & Q2)|(D & Q)].
      - rewrite Q1, Q2, D. unfold u64. rewrite Z.mod_small by lia. lia.
      - rewrite D. destruct queue; destruct Q as [Q1 Q2]; rewrite Q1, Q2;
          rewrite length_app; cbn [length]; lia. }
    destruct Hstep as (B1 & B2 & B3).
    destruct (IH l1) as (I1 & I2 & I3); [exact B1|lia|].
    cbv zeta in *. split; [lia|split; lia].
Qed.

(** C8. Every send call increments [packets_sent_] by one, lost or not, and
    either counts the packet as dropped or appends it to the target queue,
    never both and never neither; after any sequence of send calls on a new
    channel, [packets_sent_] is the number of calls and equals the number of
    packets in the two queues plus [packets_dropped_]. *)
Theorem channel_counters_are_consistent :
  forall (config : Link.Config) (calls : list Link.send_call),
    Z.of_nat (length calls) < 2 ^ 64 ->
    let l := Link.run_sends calls (Link.new config) in
    Link.packets_sent_ l = Z.of_nat (length calls) /\
    Link.packets_sent_ l =
      Z.of_nat (length (Link.sat_to_gs_ l))
      + Z.of_nat (length (Link.gs_to_sat_ l)) + Link.packets_dropped_ l /\
    (forall (pkt : Packet) (queue : Link.QueueRef) (l0 : Link.t),
       is_u64 (Link.packets_dropped_ l0) ->
       let l1 := Link.apply_impairments_and_send pkt queue l0 in
       Link.packets_sent_ l1 = u64 (Link.packets_sent_ l0 + 1) /\
       (send_dropped l0 l1 \/ send_enqueued pkt queue l0 l1) /\
       ~ (send_dropped l0 l1 /\ send_enqueued pkt queue l0 l1)).
Proof.
  intros config calls Hn. cbv zeta.
  destruct (run_sends_counts calls (Link.new config)) as (H1 & H2 & H3).
  - cbn. lia.
  - cbn. lia.
  - cbv zeta in *. cbn [Link.new Link.packets_sent_ Link.packets_dropped_
      Link.sat_to_gs_ Link.gs_to_sat_ length] in *.
    split; [lia|split; [lia|]].
    intros pkt queue l0 Hd.
    destruct (send_outcome pkt queue l0) as (Hs & _ & Hcase).
    split; [exact Hs|split; [exact Hcase|]].
    apply send_outcomes_exclusive. exact Hd.
Qed.

End LinkProperties.

(** Two sends on a lossless channel, one in each direction. *)
Lemma channel_counters_are_consistent_witness :
  let l := Link.run_sends
             [(Link.sat_to_gs, test_packet); (Link.gs_to_sat, reply AckPkt 12345)]
             lossless_link in
  Link.packets_sent_ l = 2 /\
  Link.packets_sent_ l =
    Z.of_nat (length (Link.sat_to_gs_ l))
    + Z.of_nat (length (Link.gs_to_sat_ l)) + Link.packets_dropped_ l.
Proof.
  destruct (@channel_counters_are_consistent toy_std
              (@Link.mkConfig toy_std 10 0 0 42)
              [(Link.sat_to_gs, test_packet); (Link.gs_to_sat, reply AckPkt 12345)])
    as (H1 & H2 & _).
  - cbn [length]. lia.
  - cbv zeta. split; [exact H1|exact H2].
Defined.

(* ----------------------------------------------------------------- *)
(** ** Waiting for an acknowledgement *)

Section AckWait.
Context {std : Std}.

Lemma set_queue_same queue (l : Link.t) :
  Link.set_queue queue (Link.queue_of queue l) l = l.
Proof. destruct l, queue; reflexivity. Qed.

Lemma set_queue_twice queue q q' (l : Link.t) :
  Link.set_queue queue q (Link.set_queue queue q' l) = Link.set_queue queue q l.
Proof. destruct l, queue; reflexivity. Qed.

Lemma recv_gs_to_sat_cons timeout pkt rest (l : Link.t) :
  Link.recv_gs_to_sat timeout (Link.set_queue Link.gs_to_sat (pkt :: rest) l)
  = (Some pkt, Link.set_queue Link.gs_to_sat rest l).
Proof. destruct l; reflexivity. Qed.

Lemma recv_gs_to_sat_nil timeout (l : Link.t) :
  Link.recv_gs_to_sat timeout (Link.set_queue Link.gs_to_sat [] l)
  = (None, Link.set_queue Link.gs_to_sat [] l).
Proof. destruct l; reflexivity. Qed.

Lemma recv_sat_to_gs_cons timeout pkt rest (l : Link.t) :
  Link.recv_sat_to_gs timeout (Link.set_queue Link.sat_to_gs (pkt :: rest) l)
  = (Some pkt, Link.set_queue Link.sat_to_gs rest l).
Proof. destruct l; reflexivity. Qed.

Lemma recv_sat_to_gs_nil timeout (l : Link.t) :
  Link.recv_sat_to_gs timeout (Link.set_queue Link.sat_to_gs [] l)
  = (None, Link.set_queue Link.sat_to_gs [] l).
Proof. destruct l; reflexivity. Qed.

(** C10. One call of [wait_for_ack] takes at most one packet from the
    inbound queue: on an empty queue it returns false; otherwise it removes
    the oldest packet, returns true exactly when that packet is an ACK with
    the awaited seq, and for any other packet (data, a reply for another
    seq, a NAK for this seq) returns false with the packet discarded and the
    packets behind it left in the queue, none of them inspected. *)
Theorem wait_for_ack_takes_one_packet :
  forall (seq_awaited timeout : Z) (l : Link.t),
    (forall s : Satellite.t,
       Satellite.wait_for_ack seq_awaited timeout s
         (Link.set_queue Link.gs_to_sat [] l)
       = (false, s, Link.set_queue Link.gs_to_sat [] l)) /\
    (forall (s : Satellite.t) (pkt : Packet) (rest : list Packet),
       exists s' : Satellite.t,
         Satellite.wait_for_ack seq_awaited timeout s
           (Link.set_queue Link.gs_to_sat (pkt :: rest) l)
         = ((type pkt =? AckPkt) && (seq pkt =? seq_awaited), s',
            Link.set_queue Link.gs_to_sat rest l) /\
         Satellite.rx_seq_expected_ s' = Satellite.rx_seq_expected_ s /\
         Satellite.executed_ s' = Satellite.executed_ s /\
         Satellite.naks_received_ s' =
           (if negb (type pkt =? AckPkt) && (type pkt =? NakPkt)
               && (seq pkt =? seq_awaited)
            then u64 (Satellite.naks_received_ s + 1)
            else Satellite.naks_received_ s)) /\
    (forall g : GroundStation.t,
       GroundStation.wait_for_ack seq_awaited timeout g
         (Link.set_queue Link.sat_to_gs [] l)
       = (false, g, Link.set_queue Link.sat_to_gs [] l)) /\
    (forall (g : GroundStation.t) (pkt : Packet) (rest : list Packet),
       GroundStation.wait_for_ack seq_awaited timeout g
         (Link.set_queue Link.sat_to_gs (pkt :: rest) l)
       = ((type pkt =? AckPkt) && (seq pkt =? seq_awaited), g,
          Link.set_queue Link.sat_to_gs rest l)).
Proof.
  intros seq_awaited timeout l. split; [|split; [|split]].
  - intros s. unfold Satellite.wait_for_ack. rewrite recv_gs_to_sat_nil.
    reflexivity.
  - intros s pkt rest. unfold Satellite.wait_for_ack.
    rewrite recv_gs_to_sat_cons.
    destruct ((type pkt =? AckPkt) && (seq pkt =? seq_awaited)) eqn:Hack.
    + exists s. apply andb_true_iff in Hack. destruct Hack as [Ht _].
      rewrite Ht. cbn [negb andb]. repeat split; reflexivity.
    + destruct ((type pkt =? NakPkt) && (seq pkt =? seq_awaited)) eqn:Hnak.
      * eexists. split; [reflexivity|].
        apply andb_true_iff in Hnak. destruct Hnak as [Ht Hs].
        assert (Hna : (type pkt =? AckPkt) = false).
        { apply Z.eqb_eq in Ht. rewrite Ht. reflexivity. }
        rewrite Hna, Ht, Hs. cbn. repeat split; reflexivity.
      * exists s. split; [reflexivity|].
        repeat split; try reflexivity.
        destruct (type pkt =? AckPkt); cbn [negb andb]; [reflexivity|].
        rewrite Hnak. reflexivity.
  - intros g. unfold GroundStation.wait_for_ack. rewrite recv_sat_to_gs_nil.
    reflexivity.
  - intros g pkt rest. unfold GroundStation.wait_for_ack.
    rewrite recv_sat_to_gs_cons.
    destruct ((type pkt =? AckPkt) && (seq pkt =? seq_awaited));
      [reflexivity|].
    destruct ((type pkt =? NakPkt) && (seq pkt =? seq_awaited)); reflexivity.
Qed.

End AckWait.

(* ----------------------------------------------------------------- *)
(** ** Outbound transmission: Satellite *)

Section SatelliteSend.
Context {std : Std}.

Lemma sat_wait_for_ack_keeps seq_awaited timeout (s : Satellite.t) (l : Link.t) :
  let '(ok, s', l') := Satellite.wait_for_ack seq_awaited timeout s l in
  Satellite.running_ s' = Satellite.running_ s /\
  Satellite.config_ s' = Satellite.config_ s /\
  Satellite.telemetry_sent_ s' = Satellite.telemetry_sent_ s /\
  Link.packets_sent_ l' = Link.packets_sent_ l.
Proof.
  unfold Satellite.wait_for_ack, Link.recv_gs_to_sat.
  destruct (ThreadSafeQueue.try_pop (Link.gs_to_sat_ l)) as [[pkt|] q].
  - destruct ((type pkt =? AckPkt) && (seq pkt =? seq_awaited)).
    + destruct l; repeat split; reflexivity.
    + destruct ((type pkt =? NakPkt) && (seq pkt =? seq_awaited));
        destruct l; repeat split; reflexivity.
  - destruct l; repeat split; reflexivity.
Qed.

Lemma sat_send_packets_sent pkt (l : Link.t) :
  Link.packets_sent_ (Link.send_sat_to_gs pkt l) = u64 (Link.packets_sent_ l + 1).
Proof. exact (proj1 (send_outcome pkt Link.sat_to_gs l)). Qed.

Lemma u64_range x : is_u64 (u64 x).
Proof. unfold is_u64, u64. apply Z.mod_pos_bound. lia. Qed.

Lemma u64_small x : is_u64 x -> u64 x = x.
Proof. unfold is_u64, u64. intros H. apply Z.mod_small. exact H. Qed.

Lemma u64_succ_add x n : u64 (u64 (x + 1) + n) = u64 (x + (1 + n)).
Proof.
  unfold u64. rewrite Zplus_mod_idemp_l. f_equal. lia.
Qed.

Lemma sat_send_loop_spec fuel : forall retry pkt peer (s : Satellite.t) (l : Link.t),
  Satellite.running_ s = true ->
  Z.of_nat fuel = Satellite.max_retries (Satellite.config_ s) + 1 - retry ->
  exists success attempts s' l',
    Satellite.send_loop fuel retry pkt peer s l = (success, attempts, s', l') /\
    Satellite.running_ s' = true /\
    Satellite.config_ s' = Satellite.config_ s /\
    Satellite.telemetry_sent_ s' = Satellite.telemetry_sent_ s /\
    (length attempts <= fuel)%nat /\
    (success = true /\ (exists k : nat, attempts = repeat false k ++ [true])
     \/ success = false /\ attempts = repeat false fuel) /\
    (peer_is_silent peer -> is_u64 (Link.packets_sent_ l) ->
     Link.packets_sent_ l' =
       u64 (Link.packets_sent_ l + Z.of_nat (length attempts))).
Proof.
  induction fuel as [|fuel IH]; intros retry pkt peer s l Hrun Hfuel.
  - exists false, [], s, l. cbn [Satellite.send_loop length repeat].
    repeat split; try assumption; try lia.
    + right. split; reflexivity.
    + intros _ HU. rewrite Z.add_0_r. symmetry. apply u64_small, HU.
  - cbn [Satellite.send_loop]. rewrite Hrun.
    destruct (Z.leb_spec retry (Satellite.max_retries (Satellite.config_ s)))
      as [_|Hgt]; [|lia].
    cbn [andb].
    set (s1 := if 0 <? retry
               then Satellite.set_retries (u64 (Satellite.retries_ s + 1)) s
               else s).
    assert (Hs1 : Satellite.running_ s1 = true /\
                  Satellite.config_ s1 = Satellite.config_ s /\
                  Satellite.telemetry_sent_ s1 = Satellite.telemetry_sent_ s).
    { subst s1. destruct (0 <? retry); repeat split; assumption || reflexivity. }
    destruct Hs1 as (R1 & C1 & T1).
    set (l2 := peer retry (Link.send_sat_to_gs pkt l)).
    pose proof (sat_wait_for_ack_keeps (seq pkt)
                  (Satellite.ack_timeout_ms (Satellite.config_ s1)) s1 l2) as Hw.
    destruct (Satellite.wait_for_ack (seq pkt)
                (Satellite.ack_timeout_ms (Satellite.config_ s1)) s1 l2)
      as [[ok s2] l3].
    destruct Hw as (R2 & C2 & T2 & P2).
    assert (Hl3 : peer_is_silent peer ->
                  Link.packets_sent_ l3 = u64 (Link.packets_sent_ l + 1)).
    { intros Hsil. rewrite P2. subst l2. rewrite Hsil.
      apply sat_send_packets_sent. }
    destruct ok.
    + exists true, [true], s2, l3. cbn [length].
      repeat split; try congruence; try lia.
      * left. split; [reflexivity|]. exists 0%nat. reflexivity.
      * intros Hsil _. exact (Hl3 Hsil).
    + destruct (IH (retry + 1) pkt peer s2 l3) as
        (success & attempts & s3 & l4 & E & R3 & C3 & T3 & Hlen & Hcase & Hps).
      * congruence.
      * rewrite C2, C1. lia.
      * rewrite E. exists success, (false :: attempts), s3, l4.
        cbn [length]. repeat split; try congruence; try lia.
        -- destruct Hcase as [[Hsucc [k Hk]]|[Hsucc Hk]].
           ++ left. split; [exact Hsucc|]. exists (S k). rewrite Hk. reflexivity.
           ++ right. split; [exact Hsucc|]. rewrite Hk. reflexivity.
        -- intros Hsil _. rewrite (Hps Hsil); rewrite (Hl3 Hsil).
           ++ rewrite u64_succ_add. f_equal. lia.
           ++ apply u64_range.
Qed.

Lemma sat_send_spec body peer (s : Satellite.t) (l : Link.t) :
  Satellite.running_ s = true ->
  0 <= Satellite.max_retries (Satellite.config_ s) ->
  let '(attempts, s', l') := Satellite.send_telemetry body peer s l in
  stop_and_wait_outcome (Satellite.max_retries (Satellite.config_ s)) attempts
    (Satellite.telemetry_sent_ s) (Satellite.telemetry_sent_ s') /\
  Satellite.running_ s' = true /\
  (peer_is_silent peer -> is_u64 (Link.packets_sent_ l) ->
   Link.packets_sent_ l' =
     u64 (Link.packets_sent_ l + Z.of_nat (length attempts))).
Proof.
  intros Hrun Hmax. unfold Satellite.send_telemetry. cbv zeta.
  set (s0 := Satellite.set_tx_seq (u32 (Satellite.tx_seq_ s + 1)) s).
  set (pkt := data_packet TelemetryPkt (Satellite.tx_seq_ s) body).
  destruct (sat_send_loop_spec
              (Z.to_nat (Satellite.max_retries (Satellite.config_ s0) + 1))
              0 pkt peer s0 l) as
    (success & attempts & s' & l' & E & R & C & T & Hlen & Hcase & Hps).
  - exact Hrun.
  - subst s0. cbn [Satellite.config_ Satellite.set_tx_seq]. lia.
  - rewrite E.
    assert (Hcfg : Satellite.config_ s0 = Satellite.config_ s) by reflexivity.
    assert (Hsent : Satellite.telemetry_sent_ s0 = Satellite.telemetry_sent_ s) by reflexivity.
    rewrite Hcfg in *. rewrite Hsent in T.
    destruct Hcase as [[Hsucc Hk]|[Hsucc Hk]]; subst success.
    + split; [|split; [exact R|exact Hps]].
      split; [lia|]. left. split; [exact Hk|].
      cbn [Satellite.telemetry_sent_ Satellite.set_telemetry_sent]. rewrite T. reflexivity.
    + split; [|split; [exact R|exact Hps]].
      split; [lia|]. right. split; [exact Hk|exact T].
Qed.

(** The bound on the iterations is never what ends the loop. *)
Lemma sat_send_loop_fuel fuel : forall fuel' retry pkt peer (s : Satellite.t) (l : Link.t),
  Satellite.max_retries (Satellite.config_ s) + 1 - retry <= Z.of_nat fuel ->
  Satellite.max_retries (Satellite.config_ s) + 1 - retry <= Z.of_nat fuel' ->
  Satellite.send_loop fuel retry pkt peer s l
  = Satellite.send_loop fuel' retry pkt peer s l.
Proof.
  induction fuel as [|fuel IH]; intros fuel' retry pkt peer s l H1 H2.
  - destruct fuel' as [|fuel']; [reflexivity|]. cbn [Satellite.send_loop].
    destruct (Z.leb_spec retry (Satellite.max_retries (Satellite.config_ s)));
      [lia|reflexivity].
  - destruct fuel' as [|fuel'].
    + cbn [Satellite.send_loop].
      destruct (Z.leb_spec retry (Satellite.max_retries (Satellite.config_ s)));
        [lia|reflexivity].
    + cbn [Satellite.send_loop].
      destruct (Z.leb_spec retry (Satellite.max_retries (Satellite.config_ s)));
        [|reflexivity].
      destruct (Satellite.running_ s) eqn:Hrun; [|reflexivity]. cbn [andb].
      set (s1 := if 0 <? retry
                 then Satellite.set_retries (u64 (Satellite.retries_ s + 1)) s
                 else s).
      assert (C1 : Satellite.config_ s1 = Satellite.config_ s)
        by (subst s1; destruct (0 <? retry); reflexivity).
      set (l2 := peer retry (Link.send_sat_to_gs pkt l)).
      pose proof (sat_wait_for_ack_keeps (seq pkt)
                    (Satellite.ack_timeout_ms (Satellite.config_ s1)) s1 l2) as Hw.
      destruct (Satellite.wait_for_ack (seq pkt)
                  (Satellite.ack_timeout_ms (Satellite.config_ s1)) s1 l2)
        as [[ok s2] l3].
      destruct Hw as (_ & C2 & _ & _).
      destruct ok; [reflexivity|].
      rewrite (IH fuel' (retry + 1) pkt peer s2 l3); [reflexivity| |];
        rewrite C2, C1; lia.
Qed.

End SatelliteSend.

(* ----------------------------------------------------------------- *)
(** ** Outbound transmission: GroundStation *)

Section GroundStationSend.
Context {std : Std}.

Lemma gs_wait_for_ack_keeps seq_awaited timeout (s : GroundStation.t) (l : Link.t) :
  let '(ok, s', l') := GroundStation.wait_for_ack seq_awaited timeout s l in
  GroundStation.running_ s' = GroundStation.running_ s /\
  GroundStation.config_ s' = GroundStation.config_ s /\
  GroundStation.commands_sent_ s' = GroundStation.commands_sent_ s /\
  Link.packets_sent_ l' = Link.packets_sent_ l.
Proof.
  unfold GroundStation.wait_for_ack, Link.recv_sat_to_gs.
  destruct (ThreadSafeQueue.try_pop (Link.sat_to_gs_ l)) as [[pkt|] q].
  - destruct ((type pkt =? AckPkt) && (seq pkt =? seq_awaited)).
    + destruct l; repeat split; reflexivity.
    + destruct ((type pkt =? NakPkt) && (seq pkt =? seq_awaited));
        destruct l; repeat split; reflexivity.
  - destruct l; repeat split; reflexivity.
Qed.

Lemma gs_send_packets_sent pkt (l : Link.t) :
  Link.packets_sent_ (Link.send_gs_to_sat pkt l) = u64 (Link.packets_sent_ l + 1).
Proof. exact (proj1 (send_outcome pkt Link.gs_to_sat l)). Qed.

Lemma gs_send_loop_spec fuel : forall retry pkt peer (s : GroundStation.t) (l : Link.t),
  GroundStation.running_ s = true ->
  Z.of_nat fuel = GroundStation.max_retries (GroundStation.config_ s) + 1 - retry ->
  exists success attempts s' l',
    GroundStation.send_loop fuel retry pkt peer s l = (success, attempts, s', l') /\
    GroundStation.running_ s' = true /\
    GroundStation.config_ s' = GroundStation.config_ s /\
    GroundStation.commands_sent_ s' = GroundStation.commands_sent_ s /\
    (length attempts <= fuel)%nat /\
    (success = true /\ (exists k : nat, attempts = repeat false k ++ [true])
     \/ success = false /\ attempts = repeat false fuel) /\
    (peer_is_silent peer -> is_u64 (Link.packets_sent_ l) ->
     Link.packets_sent_ l' =
       u64 (Link.packets_sent_ l + Z.of_nat (length attempts))).
Proof.
  induction fuel as [|fuel IH]; intros retry pkt peer s l Hrun Hfuel.
  - exists false, [], s, l. cbn [GroundStation.send_loop length repeat].
    repeat split; try assumption; try lia.
    + right. split; reflexivity.
    + intros _ HU. rewrite Z.add_0_r. symmetry. apply u64_small, HU.
  - cbn [GroundStation.send_loop]. rewrite Hrun.
    destruct (Z.leb_spec retry (GroundStation.max_retries (GroundStation.config_ s)))
      as [_|Hgt]; [|lia].
    cbn [andb].
    set (s1 := if 0 <? retry
               then GroundStation.set_retries (u64 (GroundStation.retries_ s + 1)) s
               else s).
    assert (Hs1 : GroundStation.running_ s1 = true /\
                  GroundStation.config_ s1 = GroundStation.config_ s /\
                  GroundStation.commands_sent_ s1 = GroundStation.commands_sent_ s).
    { subst s1. destruct (0 <? retry); repeat split; assumption || reflexivity. }
    destruct Hs1 as (R1 & C1 & T1).
    set (l2 := peer retry (Link.send_gs_to_sat pkt l)).
    pose proof (gs_wait_for_ack_keeps (seq pkt)
                  (GroundStation.ack_timeout_ms (GroundStation.config_ s1)) s1 l2) as Hw.
    destruct (GroundStation.wait_for_ack (seq pkt)
                (GroundStation.ack_timeout_ms (GroundStation.config_ s1)) s1 l2)
      as [[ok s2] l3].
    destruct Hw as (R2 & C2 & T2 & P2).
    assert (Hl3 : peer_is_silent peer ->
                  Link.packets_sent_ l3 = u64 (Link.packets_sent_ l + 1)).
    { intros Hsil. rewrite P2. subst l2. rewrite Hsil.
      apply gs_send_packets_sent. }
    destruct ok.
    + exists true, [true], s2, l3. cbn [length].
      repeat split; try congruence; try lia.
      * left. split; [reflexivity|]. exists 0%nat. reflexivity.
      * intros Hsil _. exact (Hl3 Hsil).
    + destruct (IH (retry + 1) pkt peer s2 l3) as
        (success & attempts & s3 & l4 & E & R3 & C3 & T3 & Hlen & Hcase & Hps).
      * congruence.
      * rewrite C2, C1. lia.
      * rewrite E. exists success, (false :: attempts), s3, l4.
        cbn [length]. repeat split; try congruence; try lia.
        -- destruct Hcase as [[Hsucc [k Hk]]|[Hsucc Hk]].
           ++ left. split; [exact Hsucc|]. exists (S k). rewrite Hk. reflexivity.
           ++ right. split; [exact Hsucc|]. rewrite Hk. reflexivity.
        -- intros Hsil _. rewrite (Hps Hsil); rewrite (Hl3 Hsil).
           ++ rewrite u64_succ_add. f_equal. lia.
           ++ apply u64_range.
Qed.

Lemma gs_send_spec body peer (s : GroundStation.t) (l : Link.t) :
  GroundStation.running_ s = true ->
  0 <= GroundStation.max_retries (GroundStation.config_ s) ->
  let '(attempts, s', l') := GroundStation.send_command_with_retry body peer s l in
  stop_and_wait_outcome (GroundStation.max_retries (GroundStation.config_ s)) attempts
    (GroundStation.commands_sent_ s) (GroundStation.commands_sent_ s') /\
  GroundStation.running_ s' = true /\
  (peer_is_silent peer -> is_u64 (Link.packets_sent_ l) ->
   Link.packets_sent_ l' =
     u64 (Link.packets_sent_ l + Z.of_nat (length attempts))).
Proof.
  intros Hrun Hmax. unfold GroundStation.send_command_with_retry. cbv zeta.
  set (s0 := GroundStation.set_tx_seq (u32 (GroundStation.tx_seq_ s + 1)) s).
  set (pkt := data_packet CommandPkt (GroundStation.tx_seq_ s) body).
  destruct (gs_send_loop_spec
              (Z.to_nat (GroundStation.max_retries (GroundStation.config_ s0) + 1))
              0 pkt peer s0 l) as
    (success & attempts & s' & l' & E & R & C & T & Hlen & Hcase & Hps).
  - exact Hrun.
  - subst s0. cbn [GroundStation.config_ GroundStation.set_tx_seq]. lia.
  - rewrite E.
    assert (Hcfg : GroundStation.config_ s0 = GroundStation.config_ s) by reflexivity.
    assert (Hsent : GroundStation.commands_sent_ s0 = GroundStation.commands_sent_ s) by reflexivity.
    rewrite Hcfg in *. rewrite Hsent in T.
    destruct Hcase as [[Hsucc Hk]|[Hsucc Hk]]; subst success.
    + split; [|split; [exact R|exact Hps]].
      split; [lia|]. left. split; [exact Hk|].
      cbn [GroundStation.commands_sent_ GroundStation.set_commands_sent]. rewrite T. reflexivity.
    + split; [|split; [exact R|exact Hps]].
      split; [lia|]. right. split; [exact Hk|exact T].
Qed.

(** The bound on the iterations is never what ends the loop. *)
Lemma gs_send_loop_fuel fuel : forall fuel' retry pkt peer (s : GroundStation.t) (l : Link.t),
  GroundStation.max_retries (GroundStation.config_ s) + 1 - retry <= Z.of_nat fuel ->
  GroundStation.max_retries (GroundStation.config_ s) + 1 - retry <= Z.of_nat fuel' ->
  GroundStation.send_loop fuel retry pkt peer s l
  = GroundStation.send_loop fuel' retry pkt peer s l.
Proof.
  induction fuel as [|fuel IH]; intros fuel' retry pkt peer s l H1 H2.
  - destruct fuel' as [|fuel']; [reflexivity|]. cbn [GroundStation.send_loop].
    destruct (Z.leb_spec retry (GroundStation.max_retries (GroundStation.config_ s)));
      [lia|reflexivity].
  - destruct fuel' as [|fuel'].
    + cbn [GroundStation.send_loop].
      destruct (Z.leb_spec retry (GroundStation.max_retries (GroundStation.config_ s)));
        [lia|reflexivity].
    + cbn [GroundStation.send_loop].
      destruct (Z.leb_spec retry (GroundStation.max_retries (GroundStation.config_ s)));
        [|reflexivity].
      destruct (GroundStation.running_ s) eqn:Hrun; [|reflexivity]. cbn [andb].
      set (s1 := if 0 <? retry
                 then GroundStation.set_retries (u64 (GroundStation.retries_ s + 1)) s
                 else s).
      assert (C1 : GroundStation.config_ s1 = GroundStation.config_ s)
        by (subst s1; destruct (0 <? retry); reflexivity).
      set (l2 := peer retry (Link.send_gs_to_sat pkt l)).
      pose proof (gs_wait_for_ack_keeps (seq pkt)
                    (GroundStation.ack_timeout_ms (GroundStation.config_ s1)) s1 l2) as Hw.
      destruct (GroundStation.wait_for_ack (seq pkt)
                  (GroundStation.ack_timeout_ms (GroundStation.config_ s1)) s1 l2)
        as [[ok s2] l3].
      destruct Hw as (_ & C2 & _ & _).
      destruct ok; [reflexivity|].
      rewrite (IH fuel' (retry + 1) pkt peer s2 l3); [reflexivity| |];
        rewrite C2, C1; lia.
Qed.

End GroundStationSend.

Section OutboundTransmission.
Context {std : Std}.

(** C6. While the endpoint is running (and [max_retries] is a non-negative
    [int] below [INT_MAX], so that [++retry] is defined), one outbound
    send operation makes at most [max_retries + 1] send attempts, makes no
    further attempt once an attempt has seen the matching ACK, increments
    [telemetry_sent_] (satellite) or [commands_sent_] (ground station)
    exactly when an attempt succeeded, and after [max_retries + 1] failed
    attempts returns with the counter unchanged and the endpoint still
    running.  When no other thread sends meanwhile, the channel has counted
    one send per attempt. *)
Theorem send_attempts_are_bounded :
  forall (body : list Z) (peer : Z -> Link.t -> Link.t) (l : Link.t),
    (forall s : Satellite.t,
       Satellite.running_ s = true ->
       0 <= Satellite.max_retries (Satellite.config_ s) < 2 ^ 31 - 1 ->
       let '(attempts, s', l') := Satellite.send_telemetry body peer s l in
       stop_and_wait_outcome (Satellite.max_retries (Satellite.config_ s))
         attempts (Satellite.telemetry_sent_ s) (Satellite.telemetry_sent_ s') /\
       Satellite.running_ s' = true /\
       (peer_is_silent peer -> is_u64 (Link.packets_sent_ l) ->
        Link.packets_sent_ l' =
          u64 (Link.packets_sent_ l + Z.of_nat (length attempts)))) /\
    (forall g : GroundStation.t,
       GroundStation.running_ g = true ->
       0 <= GroundStation.max_retries (GroundStation.config_ g) < 2 ^ 31 - 1 ->
       let '(attempts, g', l') :=
         GroundStation.send_command_with_retry body peer g l in
       stop_and_wait_outcome (GroundStation.max_retries (GroundStation.config_ g))
         attempts (GroundStation.commands_sent_ g)
         (GroundStation.commands_sent_ g') /\
       GroundStation.running_ g' = true /\
       (peer_is_silent peer -> is_u64 (Link.packets_sent_ l) ->
        Link.packets_sent_ l' =
          u64 (Link.packets_sent_ l + Z.of_nat (length attempts)))).
Proof.
  intros body peer l. split.
  - intros s Hrun Hmax. exact (sat_send_spec body peer s l Hrun (proj1 Hmax)).
  - intros g Hrun Hmax. exact (gs_send_spec body peer g l Hrun (proj1 Hmax)).
Qed.

End OutboundTransmission.

(** Retry on ACK loss: the second attempt succeeds. *)
Lemma send_attempts_are_bounded_witness :
  let '(attempts, s', l') :=
    Satellite.send_telemetry (str "ts=1000") late_ack_peer running_satellite
      lossless_link in
  attempts = [false; true] /\
  stop_and_wait_outcome 3 attempts 0 (Satellite.telemetry_sent_ s').
Proof.
  pose proof (proj1 (@send_attempts_are_bounded toy_std (str "ts=1000")
                       late_ack_peer lossless_link) running_satellite
                eq_refl) as H.
  assert (H3 : 0 <= Satellite.max_retries (Satellite.config_ running_satellite)
                  < 2 ^ 31 - 1)
    by (cbn; lia).
  specialize (H H3).
  destruct (Satellite.send_telemetry (str "ts=1000") late_ack_peer
              running_satellite lossless_link) as [[attempts s'] l'] eqn:E.
  split; [|exact (proj1 H)].
  assert (E' : fst (fst (Satellite.send_telemetry (str "ts=1000") late_ack_peer
                          running_satellite lossless_link)) = attempts)
    by (rewrite E; reflexivity).
  rewrite <- E'. vm_compute. reflexivity.
Defined.

(* ----------------------------------------------------------------- *)
(** ** Duplicate suppression *)

Lemma delivered_once_init : delivered_once 0 [].
Proof.
  unfold delivered_once. split; [lia|split; constructor].
Qed.

Lemma delivered_once_step rx delivered pkt :
  delivered_once rx delivered -> rx <= seq pkt -> no_wrap pkt ->
  rx <= u32 (seq pkt + 1) /\
  delivered_once (u32 (seq pkt + 1)) (pkt :: delivered) /\
  delivered_once (u32 (seq pkt + 1)) delivered.
Proof.
  unfold delivered_once, no_wrap. intros (H0 & Hs & Hb) Hle Hnw.
  assert (E : u32 (seq pkt + 1) = seq pkt + 1)
    by (unfold u32; apply Z.mod_small; lia).
  rewrite E.
  assert (Hb' : Forall (fun p => seq p < seq pkt + 1) delivered).
  { eapply Forall_impl; [|exact Hb]. cbn. intros p Hp. lia. }
  split; [lia|split; split; try lia].
  - split.
    + cbn [map]. constructor; [exact Hs|].
      apply Forall_map. eapply Forall_impl; [|exact Hb]. cbn. intros p Hp. lia.
    + constructor; [lia|exact Hb'].
  - split; assumption.
Qed.

Lemma StronglySorted_gt_NoDup l : StronglySorted Z.gt l -> NoDup l.
Proof.
  induction 1 as [|x l Hs IH Hx]; constructor; [|exact IH].
  intros Hin. rewrite Forall_forall in Hx. specialize (Hx x Hin). lia.
Qed.

Lemma delivered_once_NoDup rx delivered :
  delivered_once rx delivered -> NoDup (map seq delivered).
Proof. intros (_ & Hs & _). apply StronglySorted_gt_NoDup, Hs. Qed.

(* ----------------------------------------------------------------- *)
(** ** Inbound processing: Satellite *)

Section SatelliteInbound.
Context {std : Std}.

Lemma sat_process_command_keeps_queue pkt (s : Satellite.t) (l : Link.t) :
  Link.gs_to_sat_ (snd (Satellite.process_command pkt s l)) = Link.gs_to_sat_ l.
Proof.
  assert (Hsend : forall p, Link.gs_to_sat_ (Link.send_sat_to_gs p l) = Link.gs_to_sat_ l).
  { intros p. unfold Link.send_sat_to_gs, Link.apply_impairments_and_send.
    destruct (uniform_real_distribution (Link.rng_ l)) as [loss_value rng1].
    destruct (normal_distribution _ _ rng1) as [delay_ms rng2].
    destruct (double_lt loss_value _); reflexivity. }
  unfold Satellite.process_command.
  destruct (negb (Packet.verify_crc pkt)); [apply Hsend|].
  destruct (type pkt =? CommandPkt); [|reflexivity].
  destruct (seq pkt <? Satellite.rx_seq_expected_ s); [apply Hsend|].
  destruct (Command.deserialize (payload pkt)); apply Hsend.
Qed.

(** One iteration of the loop: the oldest packet is taken and handled. *)
Lemma sat_process_commands_cons pkt rest (s : Satellite.t) (l : Link.t) :
  Satellite.process_commands s (Link.set_queue Link.gs_to_sat (pkt :: rest) l)
  = Satellite.process_commands
      (fst (Satellite.process_command pkt s (Link.set_queue Link.gs_to_sat rest l)))
      (snd (Satellite.process_command pkt s (Link.set_queue Link.gs_to_sat rest l))).
Proof.
  unfold Satellite.process_commands at 1.
  replace (Link.gs_to_sat_ (Link.set_queue Link.gs_to_sat (pkt :: rest) l))
    with (pkt :: rest) by (destruct l; reflexivity).
  cbn [length Satellite.process_commands_loop]. rewrite recv_gs_to_sat_cons.
  destruct (Satellite.process_command pkt s (Link.set_queue Link.gs_to_sat rest l))
    as [s' l'] eqn:E.
  cbn [fst snd]. unfold Satellite.process_commands.
  replace (Link.gs_to_sat_ l') with rest; [reflexivity|].
  pose proof (sat_process_command_keeps_queue pkt s (Link.set_queue Link.gs_to_sat rest l))
    as Hq.
  rewrite E in Hq. cbn [snd] in Hq. rewrite Hq. destruct l; reflexivity.
Qed.

(** The loop ends when the queue is empty. *)
Lemma sat_process_commands_nil (s : Satellite.t) (l : Link.t) :
  Satellite.process_commands s (Link.set_queue Link.gs_to_sat [] l)
  = (s, Link.set_queue Link.gs_to_sat [] l).
Proof.
  unfold Satellite.process_commands.
  replace (Link.gs_to_sat_ (Link.set_queue Link.gs_to_sat [] l))
    with (@nil Packet) by (destruct l; reflexivity).
  cbn [length Satellite.process_commands_loop]. rewrite recv_gs_to_sat_nil. reflexivity.
Qed.

Lemma sat_process_command_step pkt (s : Satellite.t) (l : Link.t) :
  no_wrap pkt ->
  delivered_once (Satellite.rx_seq_expected_ s) (Satellite.executed_ s) ->
  let s' := fst (Satellite.process_command pkt s l) in
  Satellite.rx_seq_expected_ s <= Satellite.rx_seq_expected_ s' /\
  delivered_once (Satellite.rx_seq_expected_ s') (Satellite.executed_ s').
Proof.
  intros Hnw Hinv. cbv zeta. unfold Satellite.process_command.
  destruct (negb (Packet.verify_crc pkt)); [split; [cbn; lia|exact Hinv]|].
  destruct (type pkt =? CommandPkt); [|split; [cbn; lia|exact Hinv]].
  destruct (Z.ltb_spec (seq pkt) (Satellite.rx_seq_expected_ s)) as [Hdup|Hnew];
    [split; [cbn; lia|exact Hinv]|].
  destruct (delivered_once_step _ _ pkt Hinv Hnew Hnw) as (H1 & H2 & H3).
  destruct (Command.deserialize (payload pkt)); cbn [fst]; split; assumption.
Qed.

Lemma sat_process_commands_invariant q : forall (s : Satellite.t) (l : Link.t),
  Forall no_wrap q ->
  delivered_once (Satellite.rx_seq_expected_ s) (Satellite.executed_ s) ->
  let s' := fst (Satellite.process_commands s (Link.set_queue Link.gs_to_sat q l)) in
  Satellite.rx_seq_expected_ s <= Satellite.rx_seq_expected_ s' /\
  delivered_once (Satellite.rx_seq_expected_ s') (Satellite.executed_ s').
Proof.
  induction q as [|pkt rest IH]; intros s l Hq Hinv; cbv zeta.
  - rewrite sat_process_commands_nil. cbn [fst]. split; [lia|exact Hinv].
  - rewrite sat_process_commands_cons. inversion Hq as [|? ? Hp Hrest]; subst.
    destruct (sat_process_command_step pkt s (Link.set_queue Link.gs_to_sat rest l) Hp Hinv)
      as [Hle Hinv'].
    pose proof (sat_process_command_keeps_queue pkt s (Link.set_queue Link.gs_to_sat rest l))
      as Hk.
    destruct (Satellite.process_command pkt s (Link.set_queue Link.gs_to_sat rest l))
      as [s1 l1].
    cbn [fst snd] in *.
    replace l1 with (Link.set_queue Link.gs_to_sat rest l1).
    + destruct (IH s1 l1 Hrest Hinv') as [Hle' Hinv'']. cbv zeta in *.
      split; [lia|exact Hinv''].
    + replace rest with (Link.gs_to_sat_ l1)
        by (rewrite Hk; destruct l; reflexivity).
      apply (set_queue_same Link.gs_to_sat l1).
Qed.

End SatelliteInbound.

(* ----------------------------------------------------------------- *)
(** ** Inbound processing: GroundStation *)

Section GroundStationInbound.
Context {std : Std}.

Lemma gs_receive_packet_keeps_queue pkt (s : GroundStation.t) (l : Link.t) :
  Link.sat_to_gs_ (snd (GroundStation.receive_packet pkt s l)) = Link.sat_to_gs_ l.
Proof.
  assert (Hsend : forall p, Link.sat_to_gs_ (Link.send_gs_to_sat p l) = Link.sat_to_gs_ l).
  { intros p. unfold Link.send_gs_to_sat, Link.apply_impairments_and_send.
    destruct (uniform_real_distribution (Link.rng_ l)) as [loss_value rng1].
    destruct (normal_distribution _ _ rng1) as [delay_ms rng2].
    destruct (double_lt loss_value _); reflexivity. }
  unfold GroundStation.receive_packet.
  destruct (negb (Packet.verify_crc pkt)); [apply Hsend|].
  destruct (type pkt =? TelemetryPkt); [|reflexivity].
  destruct (seq pkt <? GroundStation.rx_seq_expected_ s); [apply Hsend|].
  destruct (telemetry_parses (payload pkt)); apply Hsend.
Qed.

(** One iteration of the loop: the oldest packet is taken and handled. *)
Lemma gs_receive_telemetry_cons pkt rest (s : GroundStation.t) (l : Link.t) :
  GroundStation.receive_telemetry s (Link.set_queue Link.sat_to_gs (pkt :: rest) l)
  = GroundStation.receive_telemetry
      (fst (GroundStation.receive_packet pkt s (Link.set_queue Link.sat_to_gs rest l)))
      (snd (GroundStation.receive_packet pkt s (Link.set_queue Link.sat_to_gs rest l))).
Proof.
  unfold GroundStation.receive_telemetry at 1.
  replace (Link.sat_to_gs_ (Link.set_queue Link.sat_to_gs (pkt :: rest) l))
    with (pkt :: rest) by (destruct l; reflexivity).
  cbn [length GroundStation.receive_telemetry_loop]. rewrite recv_sat_to_gs_cons.
  destruct (GroundStation.receive_packet pkt s (Link.set_queue Link.sat_to_gs rest l))
    as [s' l'] eqn:E.
  cbn [fst snd]. unfold GroundStation.receive_telemetry.
  replace (Link.sat_to_gs_ l') with rest; [reflexivity|].
  pose proof (gs_receive_packet_keeps_queue pkt s (Link.set_queue Link.sat_to_gs rest l))
    as Hq.
  rewrite E in Hq. cbn [snd] in Hq. rewrite Hq. destruct l; reflexivity.
Qed.

(** The loop ends when the queue is empty. *)
Lemma gs_receive_telemetry_nil (s : GroundStation.t) (l : Link.t) :
  GroundStation.receive_telemetry s (Link.set_queue Link.sat_to_gs [] l)
  = (s, Link.set_queue Link.sat_to_gs [] l).
Proof.
  unfold GroundStation.receive_telemetry.
  replace (Link.sat_to_gs_ (Link.set_queue Link.sat_to_gs [] l))
    with (@nil Packet) by (destruct l; reflexivity).
  cbn [length GroundStation.receive_telemetry_loop]. rewrite recv_sat_to_gs_nil. reflexivity.
Qed.

Lemma gs_receive_packet_step pkt (s : GroundStation.t) (l : Link.t) :
  no_wrap pkt ->
  delivered_once (GroundStation.rx_seq_expected_ s) (GroundStation.logged_ s) ->
  let s' := fst (GroundStation.receive_packet pkt s l) in
  GroundStation.rx_seq_expected_ s <= GroundStation.rx_seq_expected_ s' /\
  delivered_once (GroundStation.rx_seq_expected_ s') (GroundStation.logged_ s').
Proof.
  intros Hnw Hinv. cbv zeta. unfold GroundStation.receive_packet.
  destruct (negb (Packet.verify_crc pkt)); [split; [cbn; lia|exact Hinv]|].
  destruct (type pkt =? TelemetryPkt); [|split; [cbn; lia|exact Hinv]].
  destruct (Z.ltb_spec (seq pkt) (GroundStation.rx_seq_expected_ s)) as [Hdup|Hnew];
    [split; [cbn; lia|exact Hinv]|].
  destruct (delivered_once_step _ _ pkt Hinv Hnew Hnw) as (H1 & H2 & H3).
  destruct (telemetry_parses (payload pkt)); cbn [fst]; split; assumption.
Qed.

Lemma gs_receive_telemetry_invariant q : forall (s : GroundStation.t) (l : Link.t),
  Forall no_wrap q ->
  delivered_once (GroundStation.rx_seq_expected_ s) (GroundStation.logged_ s) ->
  let s' := fst (GroundStation.receive_telemetry s (Link.set_queue Link.sat_to_gs q l)) in
  GroundStation.rx_seq_expected_ s <= GroundStation.rx_seq_expected_ s' /\
  delivered_once (GroundStation.rx_seq_expected_ s') (GroundStation.logged_ s').
Proof.
  induction q as [|pkt rest IH]; intros s l Hq Hinv; cbv zeta.
  - rewrite gs_receive_telemetry_nil. cbn [fst]. split; [lia|exact Hinv].
  - rewrite gs_receive_telemetry_cons. inversion Hq as [|? ? Hp Hrest]; subst.
    destruct (gs_receive_packet_step pkt s (Link.set_queue Link.sat_to_gs rest l) Hp Hinv)
      as [Hle Hinv'].
    pose proof (gs_receive_packet_keeps_queue pkt s (Link.set_queue Link.sat_to_gs rest l))
      as Hk.
    destruct (GroundStation.receive_packet pkt s (Link.set_queue Link.sat_to_gs rest l))
      as [s1 l1].
    cbn [fst snd] in *.
    replace l1 with (Link.set_queue Link.sat_to_gs rest l1).
    + destruct (IH s1 l1 Hrest Hinv') as [Hle' Hinv'']. cbv zeta in *.
      split; [lia|exact Hinv''].
    + replace rest with (Link.sat_to_gs_ l1)
        by (rewrite Hk; destruct l; reflexivity).
      apply (set_queue_same Link.sat_to_gs l1).
Qed.

End GroundStationInbound.

Section SatelliteSendKeepsReceiver.
Context {std : Std}.

Lemma sat_send_loop_keeps_receiver fuel :
  forall retry pkt peer (s : Satellite.t) (l : Link.t),
    let s' := snd (fst (Satellite.send_loop fuel retry pkt peer s l)) in
    Satellite.rx_seq_expected_ s' = Satellite.rx_seq_expected_ s /\
    Satellite.executed_ s' = Satellite.executed_ s.
Proof.
  induction fuel as [|fuel IH]; intros retry pkt peer s l; cbv zeta.
  - split; reflexivity.
  - cbn [Satellite.send_loop].
    destruct ((retry <=? Satellite.max_retries (Satellite.config_ s))
              && Satellite.running_ s); [|split; reflexivity].
    set (s1 := if 0 <? retry
               then Satellite.set_retries (u64 (Satellite.retries_ s + 1)) s
               else s).
    assert (H1 : Satellite.rx_seq_expected_ s1 = Satellite.rx_seq_expected_ s /\
                 Satellite.executed_ s1 = Satellite.executed_ s)
      by (subst s1; destruct (0 <? retry); split; reflexivity).
    set (l2 := peer retry (Link.send_sat_to_gs pkt l)).
    assert (H2 : forall t,
      let s2 := snd (fst (Satellite.wait_for_ack (seq pkt) t s1 l2)) in
      Satellite.rx_seq_expected_ s2 = Satellite.rx_seq_expected_ s1 /\
      Satellite.executed_ s2 = Satellite.executed_ s1).
    { intros t. unfold Satellite.wait_for_ack.
      destruct (Link.recv_gs_to_sat t l2) as [[p|] l3]; [|split; reflexivity].
      destruct ((type p =? AckPkt) && (seq p =? seq pkt)); [split; reflexivity|].
      destruct ((type p =? NakPkt) && (seq p =? seq pkt)); split; reflexivity. }
    specialize (H2 (Satellite.ack_timeout_ms (Satellite.config_ s1))).
    destruct (Satellite.wait_for_ack (seq pkt)
                (Satellite.ack_timeout_ms (Satellite.config_ s1)) s1 l2)
      as [[ok s2] l3].
    cbn [fst snd] in H2. destruct H2 as [R2 D2]. destruct H1 as [R1 D1].
    destruct ok; [cbn [fst snd]; split; congruence|].
    specialize (IH (retry + 1) pkt peer s2 l3). cbv zeta in IH.
    destruct (Satellite.send_loop fuel (retry + 1) pkt peer s2 l3)
      as [[[success attempts] s3] l4].
    cbn [fst snd] in *. destruct IH as [R3 D3]. split; congruence.
Qed.

Lemma sat_send_keeps_receiver body peer (s : Satellite.t) (l : Link.t) :
  let s' := snd (fst (Satellite.send_telemetry body peer s l)) in
  Satellite.rx_seq_expected_ s' = Satellite.rx_seq_expected_ s /\
  Satellite.executed_ s' = Satellite.executed_ s.
Proof.
  cbv zeta. unfold Satellite.send_telemetry. cbv zeta.
  set (s0 := Satellite.set_tx_seq (u32 (Satellite.tx_seq_ s + 1)) s).
  set (pkt := data_packet TelemetryPkt (Satellite.tx_seq_ s) body).
  pose proof (sat_send_loop_keeps_receiver
                (Z.to_nat (Satellite.max_retries (Satellite.config_ s0) + 1))
                0 pkt peer s0 l) as H.
  cbv zeta in H.
  destruct (Satellite.send_loop _ 0 pkt peer s0 l) as [[[success attempts] s1] l1].
  cbn [fst snd] in H. destruct success; cbn [fst snd]; exact H.
Qed.

End SatelliteSendKeepsReceiver.

Section GroundStationSendKeepsReceiver.
Context {std : Std}.

Lemma gs_send_loop_keeps_receiver fuel :
  forall retry pkt peer (s : GroundStation.t) (l : Link.t),
    let s' := snd (fst (GroundStation.send_loop fuel retry pkt peer s l)) in
    GroundStation.rx_seq_expected_ s' = GroundStation.rx_seq_expected_ s /\
    GroundStation.logged_ s' = GroundStation.logged_ s.
Proof.
  induction fuel as [|fuel IH]; intros retry pkt peer s l; cbv zeta.
  - split; reflexivity.
  - cbn [GroundStation.send_loop].
    destruct ((retry <=? GroundStation.max_retries (GroundStation.config_ s))
              && GroundStation.running_ s); [|split; reflexivity].
    set (s1 := if 0 <? retry
               then GroundStation.set_retries (u64 (GroundStation.retries_ s + 1)) s
               else s).
    assert (H1 : GroundStation.rx_seq_expected_ s1 = GroundStation.rx_seq_expected_ s /\
                 GroundStation.logged_ s1 = GroundStation.logged_ s)
      by (subst s1; destruct (0 <? retry); split; reflexivity).
    set (l2 := peer retry (Link.send_gs_to_sat pkt l)).
    assert (H2 : forall t,
      let s2 := snd (fst (GroundStation.wait_for_ack (seq pkt) t s1 l2)) in
      GroundStation.rx_seq_expected_ s2 = GroundStation.rx_seq_expected_ s1 /\
      GroundStation.logged_ s2 = GroundStation.logged_ s1).
    { intros t. unfold GroundStation.wait_for_ack.
      destruct (Link.recv_sat_to_gs t l2) as [[p|] l3]; [|split; reflexivity].
      destruct ((type p =? AckPkt) && (seq p =? seq pkt)); [split; reflexivity|].
      destruct ((type p =? NakPkt) && (seq p =? seq pkt)); split; reflexivity. }
    specialize (H2 (GroundStation.ack_timeout_ms (GroundStation.config_ s1))).
    destruct (GroundStation.wait_for_ack (seq pkt)
                (GroundStation.ack_timeout_ms (GroundStation.config_ s1)) s1 l2)
      as [[ok s2] l3].
    cbn [fst snd] in H2. destruct H2 as [R2 D2]. destruct H1 as [R1 D1].
    destruct ok; [cbn [fst snd]; split; congruence|].
    specialize (IH (retry + 1) pkt peer s2 l3). cbv zeta in IH.
    destruct (GroundStation.send_loop fuel (retry + 1) pkt peer s2 l3)
      as [[[success attempts] s3] l4].
    cbn [fst snd] in *. destruct IH as [R3 D3]. split; congruence.
Qed.

Lemma gs_send_keeps_receiver body peer (s : GroundStation.t) (l : Link.t) :
  let s' := snd (fst (GroundStation.send_command_with_retry body peer s l)) in
  GroundStation.rx_seq_expected_ s' = GroundStation.rx_seq_expected_ s /\
  GroundStation.logged_ s' = GroundStation.logged_ s.
Proof.
  cbv zeta. unfold GroundStation.send_command_with_retry. cbv zeta.
  set (s0 := GroundStation.set_tx_seq (u32 (GroundStation.tx_seq_ s + 1)) s).
  set (pkt := data_packet CommandPkt (GroundStation.tx_seq_ s) body).
  pose proof (gs_send_loop_keeps_receiver
                (Z.to_nat (GroundStation.max_retries (GroundStation.config_ s0) + 1))
                0 pkt peer s0 l) as H.
  cbv zeta in H.
  destruct (GroundStation.send_loop _ 0 pkt peer s0 l) as [[[success attempts] s1] l1].
  cbn [fst snd] in H. destruct success; cbn [fst snd]; exact H.
Qed.

End GroundStationSendKeepsReceiver.

(* ----------------------------------------------------------------- *)
(** ** Inbound processing: the properties *)

Lemma reply_fields ty s :
  version (reply ty s) = 1 /\ type (reply ty s) = ty /\ seq (reply ty s) = s /\
  payload_size (reply ty s) = 0 /\ payload (reply ty s) = [] /\
  Packet.verify_crc (reply ty s) = true.
Proof.
  unfold reply. repeat split; try reflexivity. apply verify_compute_crc.
Qed.

Section InboundProperties.
Context {std : Std}.

(** C7 (amended). For a received packet whose [verify_crc] fails, either
    endpoint hands a NAK to the reverse direction of the channel, with the
    same seq, an empty payload and a CRC that verifies, drops the packet and
    leaves [rx_seq_expected_] and the deliveries as they were.  The ground
    station increments [naks_sent_]; the satellite, which has no NAK-sent
    counter, changes none of its state. *)
Theorem bad_crc_is_answered_with_nak :
  forall (pkt : Packet) (rest : list Packet) (l : Link.t),
    Packet.verify_crc pkt = false ->
    let nak := reply NakPkt (seq pkt) in
    (type nak = NakPkt /\ seq nak = seq pkt /\ payload nak = [] /\
     payload_size nak = 0 /\ Packet.verify_crc nak = true) /\
    (forall g : GroundStation.t,
       let g' := GroundStation.set_naks_sent
                   (u64 (GroundStation.naks_sent_ g + 1)) g in
       GroundStation.receive_packet pkt g l = (g', Link.send_gs_to_sat nak l) /\
       GroundStation.receive_telemetry g
         (Link.set_queue Link.sat_to_gs (pkt :: rest) l)
       = GroundStation.receive_telemetry g'
           (Link.send_gs_to_sat nak (Link.set_queue Link.sat_to_gs rest l)) /\
       GroundStation.naks_sent_ g' = u64 (GroundStation.naks_sent_ g + 1) /\
       GroundStation.rx_seq_expected_ g' = GroundStation.rx_seq_expected_ g /\
       GroundStation.logged_ g' = GroundStation.logged_ g /\
       GroundStation.telemetry_received_ g' = GroundStation.telemetry_received_ g) /\
    (forall s : Satellite.t,
       Satellite.process_command pkt s l = (s, Link.send_sat_to_gs nak l) /\
       Satellite.process_commands s
         (Link.set_queue Link.gs_to_sat (pkt :: rest) l)
       = Satellite.process_commands s
           (Link.send_sat_to_gs nak (Link.set_queue Link.gs_to_sat rest l))).
Proof.
  intros pkt rest l Hbad. cbv zeta.
  destruct (reply_fields NakPkt (seq pkt)) as (_ & Ht & Hs & Hps & Hpl & Hv).
  split; [repeat split; assumption|split].
  - intros g.
    assert (Hbody : forall l0,
      GroundStation.receive_packet pkt g l0
      = (GroundStation.set_naks_sent (u64 (GroundStation.naks_sent_ g + 1)) g,
         Link.send_gs_to_sat (reply NakPkt (seq pkt)) l0)).
    { intros l0. unfold GroundStation.receive_packet. rewrite Hbad. reflexivity. }
    split; [apply Hbody|split; [|repeat split; reflexivity]].
    rewrite gs_receive_telemetry_cons, Hbody. reflexivity.
  - intros s.
    assert (Hbody : forall l0,
      Satellite.process_command pkt s l0
      = (s, Link.send_sat_to_gs (reply NakPkt (seq pkt)) l0)).
    { intros l0. unfold Satellite.process_command. rewrite Hbad. reflexivity. }
    split; [apply Hbody|].
    rewrite sat_process_commands_cons, Hbody. reflexivity.
Qed.

(** C5 (amended). For a data packet with a valid CRC: when
    [seq < rx_seq_expected_] it is ACKed with its own seq, nothing is
    delivered and the endpoint state, [rx_seq_expected_] included, does not
    change; when [seq >= rx_seq_expected_], [rx_seq_expected_] becomes
    [seq + 1] (in [uint32_t]) and the packet is delivered exactly when its
    payload parses.  As long as no processed packet carries the seq
    2^32 - 1, [rx_seq_expected_] never decreases and no seq is delivered
    twice: the invariant [delivered_once] holds initially and is kept by the
    inbound loops and by the send operations. *)
Theorem duplicates_are_suppressed :
  (forall (pkt : Packet) (g : GroundStation.t) (l : Link.t),
     Packet.verify_crc pkt = true -> type pkt = TelemetryPkt ->
     (seq pkt < GroundStation.rx_seq_expected_ g ->
      GroundStation.receive_packet pkt g l
      = (g, Link.send_gs_to_sat (reply AckPkt (seq pkt)) l)) /\
     (GroundStation.rx_seq_expected_ g <= seq pkt ->
      let g' := fst (GroundStation.receive_packet pkt g l) in
      GroundStation.rx_seq_expected_ g' = u32 (seq pkt + 1) /\
      GroundStation.logged_ g' =
        (if telemetry_parses (payload pkt) then pkt :: GroundStation.logged_ g
         else GroundStation.logged_ g))) /\
  (forall (pkt : Packet) (s : Satellite.t) (l : Link.t),
     Packet.verify_crc pkt = true -> type pkt = CommandPkt ->
     (seq pkt < Satellite.rx_seq_expected_ s ->
      Satellite.process_command pkt s l
      = (s, Link.send_sat_to_gs (reply AckPkt (seq pkt)) l)) /\
     (Satellite.rx_seq_expected_ s <= seq pkt ->
      let s' := fst (Satellite.process_command pkt s l) in
      Satellite.rx_seq_expected_ s' = u32 (seq pkt + 1) /\
      Satellite.executed_ s' =
        (match Command.deserialize (payload pkt) with
         | Some _ => pkt :: Satellite.executed_ s
         | None => Satellite.executed_ s
         end))) /\
  (forall (q : list Packet) (g : GroundStation.t) (l : Link.t),
     Forall no_wrap q ->
     delivered_once (GroundStation.rx_seq_expected_ g) (GroundStation.logged_ g) ->
     let g' := fst (GroundStation.receive_telemetry g
                      (Link.set_queue Link.sat_to_gs q l)) in
     GroundStation.rx_seq_expected_ g <= GroundStation.rx_seq_expected_ g' /\
     delivered_once (GroundStation.rx_seq_expected_ g')
       (GroundStation.logged_ g') /\
     NoDup (map seq (GroundStation.logged_ g'))) /\
  (forall (q : list Packet) (s : Satellite.t) (l : Link.t),
     Forall no_wrap q ->
     delivered_once (Satellite.rx_seq_expected_ s) (Satellite.executed_ s) ->
     let s' := fst (Satellite.process_commands s
                      (Link.set_queue Link.gs_to_sat q l)) in
     Satellite.rx_seq_expected_ s <= Satellite.rx_seq_expected_ s' /\
     delivered_once (Satellite.rx_seq_expected_ s') (Satellite.executed_ s') /\
     NoDup (map seq (Satellite.executed_ s'))) /\
  (forall (cg : GroundStation.Config) (cs : Satellite.Config),
     delivered_once (GroundStation.rx_seq_expected_ (GroundStation.new cg))
       (GroundStation.logged_ (GroundStation.new cg)) /\
     delivered_once (Satellite.rx_seq_expected_ (Satellite.new cs))
       (Satellite.executed_ (Satellite.new cs))) /\
  (forall (body : list Z) (peer : Z -> Link.t -> Link.t) (l : Link.t)
          (g : GroundStation.t) (s : Satellite.t),
     let g' := snd (fst (GroundStation.send_command_with_retry body peer g l)) in
     let s' := snd (fst (Satellite.send_telemetry body peer s l)) in
     (GroundStation.rx_seq_expected_ g' = GroundStation.rx_seq_expected_ g /\
      GroundStation.logged_ g' = GroundStation.logged_ g) /\
     (Satellite.rx_seq_expected_ s' = Satellite.rx_seq_expected_ s /\
      Satellite.executed_ s' = Satellite.executed_ s)).
Proof.
  split; [|split; [|split; [|split; [|split]]]].
  - intros pkt g l Hok Hty. unfold GroundStation.receive_packet.
    rewrite Hok, Hty. cbn [negb]. rewrite Z.eqb_refl. split.
    + intros Hdup. apply Z.ltb_lt in Hdup. rewrite Hdup. reflexivity.
    + intros Hnew. apply Z.ltb_ge in Hnew. rewrite Hnew. cbv zeta.
      destruct (telemetry_parses (payload pkt)); split; reflexivity.
  - intros pkt s l Hok Hty. unfold Satellite.process_command.
    rewrite Hok, Hty. cbn [negb]. rewrite Z.eqb_refl. split.
    + intros Hdup. apply Z.ltb_lt in Hdup. rewrite Hdup. reflexivity.
    + intros Hnew. apply Z.ltb_ge in Hnew. rewrite Hnew. cbv zeta.
      destruct (Command.deserialize (payload pkt)); split; reflexivity.
  - intros q g l Hq Hinv.
    destruct (gs_receive_telemetry_invariant q g l Hq Hinv) as [Hle Hinv'].
    cbv zeta in *. split; [exact Hle|split; [exact Hinv'|]].
    eapply delivered_once_NoDup, Hinv'.
  - intros q s l Hq Hinv.
    destruct (sat_process_commands_invariant q s l Hq Hinv) as [Hle Hinv'].
    cbv zeta in *. split; [exact Hle|split; [exact Hinv'|]].
    eapply delivered_once_NoDup, Hinv'.
  - intros cg cs. split; exact delivered_once_init.
  - intros body peer l g s. cbv zeta. split.
    + apply gs_send_keeps_receiver.
    + apply sat_send_keeps_receiver.
Qed.

End InboundProperties.

Lemma corrupted_packet_fails : Packet.verify_crc corrupted_packet = false.
Proof. vm_compute. reflexivity. Qed.

(** The corrupted-frame scenario at the ground station. *)
Lemma bad_crc_is_answered_with_nak_witness :
  GroundStation.naks_sent_
    (fst (GroundStation.receive_packet corrupted_packet running_ground_station
            lossless_link)) = 1 /\
  seq (reply NakPkt (seq corrupted_packet)) = 12345.
Proof.
  destruct (@bad_crc_is_answered_with_nak toy_std corrupted_packet []
              lossless_link) as ((_ & Hseq & _) & Hgs & _).
  - vm_compute. reflexivity.
  - destruct (Hgs running_ground_station) as (Hbody & _).
    rewrite Hbody. split; [reflexivity|]. rewrite Hseq. reflexivity.
Defined.

(** C7, as stated, fails at the satellite: the NAK for a packet with a bad
    CRC is handed to the channel, and no counter of the satellite (it has
    none for NAKs sent) is incremented. *)
Lemma satellite_counts_no_nak_sent :
  Packet.verify_crc corrupted_command = false /\
  fst (Satellite.process_commands running_satellite
         (commands_queued [corrupted_command])) = running_satellite /\
  Link.sat_to_gs_
    (snd (Satellite.process_commands running_satellite
            (commands_queued [corrupted_command])))
  = [reply NakPkt 7].
Proof.
  split; [|split]; vm_compute; reflexivity.
Qed.

(** Duplicate suppression: the same command frame twice is executed once. *)
Lemma duplicates_are_suppressed_witness :
  NoDup (map seq (Satellite.executed_
                    (fst (Satellite.process_commands running_satellite
                            (commands_queued
                               [reboot_command 5; reboot_command 5]))))) /\
  map seq (Satellite.executed_
             (fst (Satellite.process_commands running_satellite
                     (commands_queued [reboot_command 5; reboot_command 5]))))
  = [5].
Proof.
  destruct (@duplicates_are_suppressed toy_std) as (_ & _ & _ & Hsat & _).
  destruct (Hsat [reboot_command 5; reboot_command 5] running_satellite
              lossless_link) as (_ & _ & Hnd).
  - repeat constructor; vm_compute; intros H; discriminate H.
  - exact delivered_once_init.
  - split; [exact Hnd|]. vm_compute. reflexivity.
Defined.

(** C5, as stated, fails.  A command frame with a valid CRC, the expected
    seq and an unknown command name advances [rx_seq_expected_] and is not
    delivered.  And after a frame with seq 2^32 - 1 the expected seq is 0
    again, lower than before, so that seq 0 is delivered a second time. *)
Lemma fresh_packet_not_delivered_and_seq_wraps :
  (Packet.verify_crc bogus_command = true /\
   type bogus_command = CommandPkt /\
   Satellite.rx_seq_expected_ running_satellite <= seq bogus_command /\
   Satellite.rx_seq_expected_
     (fst (Satellite.process_commands running_satellite
             (commands_queued [bogus_command]))) = 1 /\
   Satellite.executed_
     (fst (Satellite.process_commands running_satellite
             (commands_queued [bogus_command]))) = []) /\
  (Satellite.rx_seq_expected_
     (fst (Satellite.process_commands running_satellite
             (commands_queued [reboot_command 0]))) = 1 /\
   Satellite.rx_seq_expected_
     (fst (Satellite.process_commands running_satellite
             (commands_queued [reboot_command 0; reboot_command 4294967295])))
   = 0 /\
   map seq
     (Satellite.executed_
        (fst (Satellite.process_commands running_satellite
                (commands_queued
                   [reboot_command 0; reboot_command 4294967295;
                    reboot_command 0]))))
   = [0; 4294967295; 0]).
Proof.
  split; [split; [|split; [|split; [|split]]]|split; [|split]];
    vm_compute; try reflexivity.
  intros H; discriminate H.
Qed.

(* ================================================================= *)
(** * Further properties of the code *)

(** ** The CRC of a frame with its footer *)

Lemma lxor_shiftl_add hi lo k :
  0 <= k -> 0 <= lo < 2 ^ k -> Z.lxor (Z.shiftl hi k) lo = hi * 2 ^ k + lo.
Proof.
  intros Hk Hlo.
  assert (Hland : Z.land (Z.shiftl hi k) lo = 0).
  { apply Z.bits_inj'. intros n Hn. rewrite Z.land_spec, Z.bits_0.
    destruct (Z.lt_ge_cases n k) as [Hlt|Hge].
    - rewrite Z.shiftl_spec_low by exact Hlt. reflexivity.
    - rewrite <- (Z.mod_small lo (2 ^ k)) by exact Hlo.
      rewrite Z.mod_pow2_bits_high by lia. apply andb_false_r. }
  rewrite <- Z.add_nocarry_lxor by exact Hland.
  rewrite Z.shiftl_mul_pow2 by exact Hk. reflexivity.
Qed.

(** While the register is small enough, the bit steps only shift. *)
Lemma crc_bits_shift j : forall v,
  0 <= v -> v * 2 ^ Z.of_nat j < 2 ^ 16 -> crc.crc_bits j v = v * 2 ^ Z.of_nat j.
Proof.
  induction j as [|j IH]; intros v Hv Hb.
  - cbn [crc.crc_bits]. change (2 ^ Z.of_nat 0) with 1. lia.
  - cbn [crc.crc_bits].
    assert (Hp : 2 ^ Z.of_nat (S j) = 2 * 2 ^ Z.of_nat j).
    { rewrite Nat2Z.inj_succ, Z.pow_succ_r by lia. reflexivity. }
    assert (Hpos : 0 < 2 ^ Z.of_nat j) by (apply Z.pow_pos_nonneg; lia).
    rewrite Hp in Hb |- *.
    assert (Hv16 : is_u16 v) by (unfold is_u16; nia).
    assert (Hstep : crc.crc_bit v = 2 * v).
    { rewrite crc_bit_spec. unfold crc.spec_step.
      destruct (crc.top_bit v) eqn:Ht.
      - apply (top_bit_ge v Hv16) in Ht.
        change (2 ^ 15) with 32768 in Ht. change (2 ^ 16) with 65536 in Hb.
        destruct j as [|j]; [change (2 ^ Z.of_nat 0) with 1 in *; lia|].
        assert (2 <= 2 ^ Z.of_nat (S j)).
        { rewrite Nat2Z.inj_succ, Z.pow_succ_r by lia.
          assert (0 < 2 ^ Z.of_nat j) by (apply Z.pow_pos_nonneg; lia). lia. }
        nia.
      - unfold crc.shift_left_one. apply Z.mod_small.
        change (2 ^ 16) with 65536 in *. nia. }
    rewrite Hstep, IH by nia. lia.
Qed.

Lemma crc_byte_high c :
  is_u16 c -> crc.crc_byte c (to_char (Z.shiftr c 8)) = (c mod 2 ^ 8) * 2 ^ 8.
Proof.
  intros Hc. unfold crc.crc_byte.
  assert (Hhi : to_char (Z.shiftr c 8) = c / 2 ^ 8).
  { unfold to_char, is_u16 in *. rewrite Z.shiftr_div_pow2 by lia.
    apply Z.mod_small. change (2 ^ 8) with 256. change (2 ^ 16) with 65536 in Hc.
    Z.div_mod_to_equations. lia. }
  rewrite Hhi.
  assert (Hb : is_u8 (c / 2 ^ 8)).
  { unfold is_u8, is_u16 in *. change (2 ^ 8) with 256.
    change (2 ^ 16) with 65536 in Hc. Z.div_mod_to_equations. lia. }
  destruct (xor_in_byte c (c / 2 ^ 8) Hc Hb) as [E _]. rewrite E.
  assert (Hsplit : c = Z.lxor (Z.shiftl (c / 2 ^ 8) 8) (c mod 2 ^ 8)).
  { rewrite lxor_shiftl_add by (try apply Z.mod_pos_bound; lia).
    pose proof (Z.div_mod c (2 ^ 8)). lia. }
  rewrite Hsplit at 1.
  rewrite Z.lxor_comm, <- Z.lxor_assoc, Z.lxor_nilpotent, Z.lxor_0_l.
  assert (Hlo : 0 <= c mod 2 ^ 8 < 2 ^ 8) by (apply Z.mod_pos_bound; lia).
  apply (crc_bits_shift 8); [lia|].
  change (2 ^ Z.of_nat 8) with (2 ^ 8). change (2 ^ 16) with (2 ^ 8 * 2 ^ 8).
  nia.
Qed.

Lemma crc_byte_low lo :
  is_u8 lo -> crc.crc_byte (lo * 2 ^ 8) lo = 0.
Proof.
  intros Hlo. unfold crc.crc_byte.
  assert (Hc : is_u16 (lo * 2 ^ 8)) by (unfold is_u8, is_u16 in *; lia).
  destruct (xor_in_byte _ lo Hc Hlo) as [E _]. rewrite E.
  rewrite Z.shiftl_mul_pow2 by lia. rewrite Z.lxor_nilpotent.
  apply (crc_bits_shift 8 0); lia.
Qed.

(** X1. The CRC-16 of any byte string followed by its own checksum, high
    byte first, is zero; so is the CRC-16 of every frame [to_bytes] emits
    for a packet stamped by [compute_crc]. *)
Theorem crc16_of_message_and_checksum_is_zero :
  (forall data : list Z,
     let c := crc.crc16_ccitt data (length data) in
     crc.crc16_ccitt (data ++ [to_char (Z.shiftr c 8); to_char (Z.land c 0xFF)])
       (length data + 2) = 0) /\
  (forall p : Packet,
     let frame := Packet.to_bytes (Packet.compute_crc p) in
     crc.crc16_ccitt frame (length frame) = 0).
Proof.
  assert (H : forall data : list Z,
     let c := crc.crc16_ccitt data (length data) in
     crc.crc16_ccitt (data ++ [to_char (Z.shiftr c 8); to_char (Z.land c 0xFF)])
       (length data + 2) = 0).
  { intros data. cbv zeta.
    set (c := crc.crc16_ccitt data (length data)).
    assert (Hc : is_u16 c) by apply crc16_ccitt_range.
    assert (Ec : fold_left crc.crc_byte data 65535 = c).
    { subst c. unfold crc.crc16_ccitt. rewrite firstn_all. reflexivity. }
    unfold crc.crc16_ccitt.
    replace (length data + 2)%nat
      with (length (data ++ [to_char (Z.shiftr c 8); to_char (Z.land c 0xFF)]))
      by (rewrite length_app; reflexivity).
    rewrite firstn_all, fold_left_app, Ec. cbn [fold_left].
    rewrite (crc_byte_high c Hc).
    replace (to_char (Z.land c 255)) with (c mod 2 ^ 8)
      by (unfold to_char; rewrite land_255, Z.mod_mod by lia; reflexivity).
    apply crc_byte_low. apply u8_range. }
  split; [exact H|].
  intros p frame. subst frame. unfold Packet.to_bytes. cbv zeta.
  rewrite app_assoc.
  change (Packet.header_bytes (version (Packet.compute_crc p))
            (type (Packet.compute_crc p)) (seq (Packet.compute_crc p))
            (u32 (Z.of_nat (length (payload (Packet.compute_crc p)))))
          ++ payload (Packet.compute_crc p))
    with (Packet.crc_data p).
  change (crc16 (Packet.compute_crc p))
    with (crc.crc16_ccitt (Packet.crc_data p) (length (Packet.crc_data p))).
  rewrite length_app. cbn [length].
  exact (H (Packet.crc_data p)).
Qed.

(** ** Decoding wire bytes *)

Lemma be16_bytes hi lo :
  is_u8 hi -> is_u8 lo ->
  let x := u16 (Z.lor (Z.shiftl hi 8) lo) in
  x = hi * 2 ^ 8 + lo /\
  to_char (Z.shiftr x 8) = hi /\ to_char (Z.land x 0xFF) = lo.
Proof.
  intros Hhi Hlo. cbv zeta.
  rewrite lor_shiftl_add by (unfold is_u8 in Hlo; lia).
  unfold is_u8, u16, to_char in *.
  rewrite (Z.mod_small (hi * 2 ^ 8 + lo)) by lia.
  rewrite land_255, Z.shiftr_div_pow2 by lia.
  change (2 ^ 8) with 256 in *.
  repeat split; Z.div_mod_to_equations; lia.
Qed.

Lemma be32_bytes b3 b2 b1 b0 :
  is_u8 b3 -> is_u8 b2 -> is_u8 b1 -> is_u8 b0 ->
  let x := u32 (Z.lor (Z.lor (Z.lor (Z.shiftl b3 24) (Z.shiftl b2 16))
                             (Z.shiftl b1 8)) b0) in
  to_char (Z.shiftr x 24) = b3 /\ to_char (Z.land (Z.shiftr x 16) 0xFF) = b2 /\
  to_char (Z.land (Z.shiftr x 8) 0xFF) = b1 /\ to_char (Z.land x 0xFF) = b0.
Proof.
  intros H3 H2 H1 H0. cbv zeta. rewrite be32_value by assumption.
  unfold is_u8, u32, to_char in *.
  rewrite (Z.mod_small (b3 * 2 ^ 24 + b2 * 2 ^ 16 + b1 * 2 ^ 8 + b0)) by lia.
  rewrite !land_255, !Z.shiftr_div_pow2 by lia.
  change (2 ^ 8) with 256 in *. change (2 ^ 16) with 65536.
  change (2 ^ 24) with 16777216.
  repeat split; Z.div_mod_to_equations; lia.
Qed.

(** A byte string that [from_bytes] accepts is a header of 11 bytes, a
    payload of the announced length, two footer bytes and a rest. *)
Lemma from_bytes_shape bytes p :
  Packet.from_bytes bytes = Some p ->
  exists h pl c0 c1 tail,
    bytes = h ++ pl ++ c0 :: c1 :: tail /\
    length h = 11%nat /\
    Z.of_nat (length pl) = wire_payload_size bytes.
Proof.
  rewrite from_bytes_unfold. cbv zeta.
  destruct (Z.ltb_spec (Z.of_nat (length bytes)) 13) as [|H13]; [discriminate|].
  destruct (Z.ltb_spec (Z.of_nat (length bytes)) (13 + wire_payload_size bytes))
    as [|Hn]; [discriminate|].
  intros _.
  pose proof (wire_payload_size_range bytes) as Hr. unfold is_u32 in Hr.
  set (n := Z.to_nat (wire_payload_size bytes)).
  set (r := skipn 11 bytes).
  assert (Hr2 : (2 <= length (skipn n r))%nat).
  { subst r n. rewrite !length_skipn. lia. }
  destruct (skipn n r) as [|c0 [|c1 tail]] eqn:E; cbn [length] in Hr2; try lia.
  exists (firstn 11 bytes), (firstn n r), c0, c1, tail.
  split; [|split].
  - rewrite <- E, (firstn_skipn n r). subst r. symmetry. apply firstn_skipn.
  - rewrite length_firstn. lia.
  - rewrite length_firstn. subst r n. rewrite length_skipn. lia.
Qed.

Lemma wire_payload_size_header h rest :
  length h = 11%nat ->
  wire_payload_size (h ++ rest) = wire_payload_size h.
Proof.
  intros Hh. unfold wire_payload_size.
  rewrite !byte_at_app by lia. reflexivity.
Qed.

Lemma byte_at_footer_tail hdr pl c0 c1 tail :
  length hdr = 11%nat -> is_u8 c0 -> is_u8 c1 ->
  Packet.byte_at (hdr ++ pl ++ c0 :: c1 :: tail) (11 + Z.of_nat (length pl)) = c0 /\
  Packet.byte_at (hdr ++ pl ++ c0 :: c1 :: tail) (11 + Z.of_nat (length pl) + 1)
  = c1 /\
  Packet.substr (hdr ++ pl ++ c0 :: c1 :: tail) 11 (Z.of_nat (length pl)) = pl.
Proof.
  intros Hh H0 H1. unfold Packet.byte_at, Packet.substr.
  replace (Z.to_nat (11 + Z.of_nat (length pl))) with (11 + length pl)%nat by lia.
  replace (Z.to_nat (11 + Z.of_nat (length pl) + 1))
    with (11 + length pl + 1)%nat by lia.
  change (Z.to_nat 11) with 11%nat. rewrite Nat2Z.id.
  repeat split.
  - rewrite app_nth2 by lia. rewrite Hh.
    replace (11 + length pl - 11)%nat with (length pl + 0)%nat by lia.
    rewrite app_nth2_plus. cbn [nth]. apply u8_small, H0.
  - rewrite app_nth2 by lia. rewrite Hh.
    replace (11 + length pl + 1 - 11)%nat with (length pl + 1)%nat by lia.
    rewrite app_nth2_plus. cbn [nth]. apply u8_small, H1.
  - rewrite <- Hh, skipn_app, skipn_all, Nat.sub_diag. cbn [skipn app].
    rewrite firstn_app, firstn_all, Nat.sub_diag. cbn [firstn]. apply app_nil_r.
Qed.

(** Decoding such a byte string, field by field. *)
Lemma from_bytes_frame h pl c0 c1 tail :
  length h = 11%nat -> Forall is_u8 h -> is_u8 c0 -> is_u8 c1 ->
  Z.of_nat (length pl) = wire_payload_size h ->
  exists p,
    Packet.from_bytes (h ++ pl ++ c0 :: c1 :: tail) = Some p /\
    Packet.header_bytes (version p) (type p) (seq p) (payload_size p) = h /\
    is_u16 (version p) /\ is_u8 (type p) /\ is_u32 (seq p) /\
    payload_size p = Z.of_nat (length pl) /\
    payload p = pl /\
    crc16 p = c0 * 2 ^ 8 + c1.
Proof.
  intros Hh Hu H0 H1 Hn.
  assert (Hw : wire_payload_size (h ++ pl ++ c0 :: c1 :: tail)
               = Z.of_nat (length pl)).
  { rewrite wire_payload_size_header by exact Hh. symmetry. exact Hn. }
  destruct (byte_at_footer_tail h pl c0 c1 tail Hh H0 H1) as (F0 & F1 & F2).
  rewrite from_bytes_unfold. cbv zeta. rewrite Hw, F0, F1, F2.
  assert (Hlen : Z.of_nat (length (h ++ pl ++ c0 :: c1 :: tail))
                 = 13 + Z.of_nat (length pl) + Z.of_nat (length tail)).
  { rewrite !length_app. cbn [length]. lia. }
  rewrite Hlen.
  destruct (Z.ltb_spec (13 + Z.of_nat (length pl) + Z.of_nat (length tail)) 13);
    [lia|].
  destruct (Z.ltb_spec (13 + Z.of_nat (length pl) + Z.of_nat (length tail))
              (13 + Z.of_nat (length pl))); [lia|].
  eexists. split; [reflexivity|].
  cbn [version type seq payload_size payload crc16].
  unfold wire_payload_size in Hn.
  do 11 (destruct h as [|? h]; [discriminate Hh|]).
  destruct h; [|discriminate Hh]. clear Hh.
  repeat match goal with
         | H : Forall is_u8 (_ :: _) |- _ => inversion H; subst; clear H
         end.
  repeat match goal with
         | H : Forall is_u8 [] |- _ => clear H
         end.
  assert (E0 : Packet.byte_at ([z; z0; z1; z2; z3; z4; z5; z6; z7; z8; z9]
                 ++ pl ++ c0 :: c1 :: tail) 0 = z) by (apply u8_small; assumption).
  assert (E1 : Packet.byte_at ([z; z0; z1; z2; z3; z4; z5; z6; z7; z8; z9]
                 ++ pl ++ c0 :: c1 :: tail) 1 = z0) by (apply u8_small; assumption).
  assert (E2 : Packet.byte_at ([z; z0; z1; z2; z3; z4; z5; z6; z7; z8; z9]
                 ++ pl ++ c0 :: c1 :: tail) 2 = z1) by (apply u8_small; assumption).
  assert (E3 : Packet.byte_at ([z; z0; z1; z2; z3; z4; z5; z6; z7; z8; z9]
                 ++ pl ++ c0 :: c1 :: tail) 3 = z2) by (apply u8_small; assumption).
  assert (E4 : Packet.byte_at ([z; z0; z1; z2; z3; z4; z5; z6; z7; z8; z9]
                 ++ pl ++ c0 :: c1 :: tail) 4 = z3) by (apply u8_small; assumption).
  assert (E5 : Packet.byte_at ([z; z0; z1; z2; z3; z4; z5; z6; z7; z8; z9]
                 ++ pl ++ c0 :: c1 :: tail) 5 = z4) by (apply u8_small; assumption).
  assert (E6 : Packet.byte_at ([z; z0; z1; z2; z3; z4; z5; z6; z7; z8; z9]
                 ++ pl ++ c0 :: c1 :: tail) 6 = z5) by (apply u8_small; assumption).
  assert (E7 : Packet.byte_at [z; z0; z1; z2; z3; z4; z5; z6; z7; z8; z9] 7 = z6)
    by (apply u8_small; assumption).
  assert (E8 : Packet.byte_at [z; z0; z1; z2; z3; z4; z5; z6; z7; z8; z9] 8 = z7)
    by (apply u8_small; assumption).
  assert (E9 : Packet.byte_at [z; z0; z1; z2; z3; z4; z5; z6; z7; z8; z9] 9 = z8)
    by (apply u8_small; assumption).
  assert (E10 : Packet.byte_at [z; z0; z1; z2; z3; z4; z5; z6; z7; z8; z9] 10 = z9)
    by (apply u8_small; assumption).
  rewrite E0, E1, E2, E3, E4, E5, E6. rewrite E7, E8, E9, E10 in Hn.
  destruct (be16_bytes z z0) as (_ & V1 & V0); try assumption.
  destruct (be32_bytes z2 z3 z4 z5) as (S3 & S2 & S1 & S0); try assumption.
  destruct (be32_bytes z6 z7 z8 z9) as (N3 & N2 & N1 & N0); try assumption.
  destruct (be16_bytes c0 c1) as (C & _ & _); try assumption.
  cbv zeta in *. rewrite <- Hn in N3, N2, N1, N0.
  split; [|split; [apply u16_range|split; [assumption|split;
    [unfold is_u32, u32; apply Z.mod_pos_bound; lia|
     split; [reflexivity|split; [reflexivity|exact C]]]]]].
  unfold Packet.header_bytes.
  rewrite V1, V0, S3, S2, S1, S0, N3, N2, N1, N0.
  unfold to_char. fold (u8 z1). rewrite (u8_small z1) by assumption.
  reflexivity.
Qed.

Lemma Forall_frame_parts (h pl : list Z) c0 c1 tail :
  Forall is_u8 (h ++ pl ++ c0 :: c1 :: tail) ->
  Forall is_u8 h /\ Forall is_u8 pl /\ is_u8 c0 /\ is_u8 c1.
Proof.
  intros H. apply Forall_app in H. destruct H as [Hh H].
  apply Forall_app in H. destruct H as [Hpl H].
  inversion H as [|? ? H0 H']; subst. inversion H' as [|? ? H1 _]; subst.
  exact (conj Hh (conj Hpl (conj H0 H1))).
Qed.

(** Everything [from_bytes] returns, read off the accepted bytes. *)
Lemma from_bytes_facts bytes p :
  Forall is_u8 bytes -> Packet.from_bytes bytes = Some p ->
  exists h pl c0 c1 tail,
    bytes = h ++ pl ++ c0 :: c1 :: tail /\
    length h = 11%nat /\
    Packet.header_bytes (version p) (type p) (seq p) (payload_size p) = h /\
    is_u16 (version p) /\ is_u8 (type p) /\ is_u32 (seq p) /\
    is_u32 (payload_size p) /\
    payload_size p = Z.of_nat (length pl) /\
    payload p = pl /\ Forall is_u8 pl /\
    crc16 p = c0 * 2 ^ 8 + c1 /\ is_u8 c0 /\ is_u8 c1.
Proof.
  intros Hu Hp.
  destruct (from_bytes_shape bytes p Hp) as (h & pl & c0 & c1 & tail & E & Hh & Hn).
  subst bytes.
  destruct (Forall_frame_parts _ _ _ _ _ Hu) as (Uh & Upl & U0 & U1).
  rewrite wire_payload_size_header in Hn by exact Hh.
  destruct (from_bytes_frame h pl c0 c1 tail Hh Uh U0 U1 Hn)
    as (p' & Hp' & Hhdr & Hv & Ht & Hs & Hps & Hpl & Hc).
  rewrite Hp in Hp'. injection Hp' as <-.
  exists h, pl, c0, c1, tail.
  assert (Hr : is_u32 (payload_size p))
    by (rewrite Hps, Hn; apply wire_payload_size_range).
  exact (conj eq_refl (conj Hh (conj Hhdr (conj Hv (conj Ht (conj Hs (conj Hr
           (conj Hps (conj Hpl (conj Upl (conj Hc (conj U0 U1)))))))))))).
Qed.

(** X2. A packet that [from_bytes] returns for a byte string is a
    well-formed packet whose [payload_size] equals its payload length, and
    the input holds at least the 13 + payload_size bytes of its frame. *)
Theorem decoded_packet_is_consistent :
  forall (bytes : list Z) (p : Packet),
    Forall is_u8 bytes ->
    Packet.from_bytes bytes = Some p ->
    packet_wf p /\
    payload_size p = Z.of_nat (length (payload p)) /\
    13 + payload_size p <= Z.of_nat (length bytes).
Proof.
  intros bytes p Hu Hp.
  destruct (from_bytes_facts bytes p Hu Hp)
    as (h & pl & c0 & c1 & tail & E & Hh & _ & Hv & Ht & Hs & Hps & Hn & Hpl
        & Upl & Hc & U0 & U1).
  split; [|split].
  - unfold packet_wf. rewrite Hpl, Hc.
    repeat split; try apply Hv; try apply Ht; try apply Hs; try apply Hps;
      try exact Upl; unfold is_u8, is_u16 in *; lia.
  - rewrite Hpl. exact Hn.
  - rewrite E, Hn, !length_app, Hh. cbn [length]. lia.
Qed.

Lemma decoded_packet_is_consistent_witness :
  payload_size test_packet = Z.of_nat (length (payload test_packet)).
Proof.
  apply (decoded_packet_is_consistent
           (Packet.to_bytes test_packet ++ [7; 7; 7]) test_packet).
  - vm_compute. repeat constructor; intros H; discriminate H.
  - vm_compute. reflexivity.
Defined.

(** X3. Encoding a decoded packet gives back the frame it was decoded
    from: the first 13 + payload_size bytes of the input, and the whole
    input when it has no trailing bytes. *)
Theorem to_bytes_of_from_bytes :
  forall (bytes : list Z) (p : Packet),
    Forall is_u8 bytes ->
    Packet.from_bytes bytes = Some p ->
    Packet.to_bytes p = firstn (Z.to_nat (13 + payload_size p)) bytes /\
    (Z.of_nat (length bytes) = 13 + payload_size p -> Packet.to_bytes p = bytes).
Proof.
  intros bytes p Hu Hp.
  destruct (from_bytes_facts bytes p Hu Hp)
    as (h & pl & c0 & c1 & tail & E & Hh & Hhdr & Hv & Ht & Hs & Hps & Hn & Hpl
        & Upl & Hc & U0 & U1).
  assert (Hto : Packet.to_bytes p = h ++ pl ++ [c0; c1]).
  { unfold Packet.to_bytes. cbv zeta. rewrite Hpl, <- Hn.
    rewrite (u32_small_id _ Hps), Hhdr, Hc.
    destruct (be16_bytes c0 c1 U0 U1) as (C & C1 & C0). cbv zeta in *.
    rewrite <- C, <- (u16_small (u16 _) (u16_range _)).
    rewrite (u16_small (u16 _) (u16_range _)). rewrite C1, C0. reflexivity. }
  assert (Hfirst : firstn (Z.to_nat (13 + payload_size p)) bytes
                   = h ++ pl ++ [c0; c1]).
  { rewrite E, Hn.
    replace (Z.to_nat (13 + Z.of_nat (length pl)))
      with (length h + (length pl + 2))%nat by lia.
    rewrite firstn_app_2.
    replace (pl ++ c0 :: c1 :: tail) with (pl ++ [c0; c1] ++ tail) by reflexivity.
    rewrite firstn_app_2. cbn [firstn app]. reflexivity. }
  split; [congruence|].
  intros Hlen. rewrite Hto, <- Hfirst. apply firstn_all2. lia.
Qed.

Lemma to_bytes_of_from_bytes_witness :
  Packet.to_bytes test_packet
  = firstn (Z.to_nat (13 + payload_size test_packet))
      (Packet.to_bytes test_packet ++ [7; 7; 7]).
Proof.
  apply (to_bytes_of_from_bytes
           (Packet.to_bytes test_packet ++ [7; 7; 7]) test_packet).
  - vm_compute. repeat constructor; intros H; discriminate H.
  - vm_compute. reflexivity.
Defined.

(** X4. Two well-formed packets with payloads below 2^32 bytes have the
    same encoding exactly when they agree on version, type, seq, payload and
    crc16: the frame determines the packet up to the [payload_size] field,
    and determines it completely when that field is the payload length. *)
Theorem to_bytes_determines_the_packet :
  forall p q : Packet,
    packet_wf p -> packet_wf q ->
    Z.of_nat (length (payload p)) < 2 ^ 32 ->
    Z.of_nat (length (payload q)) < 2 ^ 32 ->
    (Packet.to_bytes p = Packet.to_bytes q <-> differ_only_in_payload_size p q) /\
    (Packet.to_bytes p = Packet.to_bytes q ->
     payload_size p = Z.of_nat (length (payload p)) ->
     payload_size q = Z.of_nat (length (payload q)) ->
     p = q).
Proof.
  intros p q Hp Hq Lp Lq.
  assert (Hdec : Packet.to_bytes p = Packet.to_bytes q ->
                 differ_only_in_payload_size p q).
  { intros E.
    pose proof (from_bytes_to_bytes p Hp Lp) as Dp.
    pose proof (from_bytes_to_bytes q Hq Lq) as Dq.
    rewrite E, Dq in Dp. injection Dp as Ev Et Es _ Epl Ec.
    unfold differ_only_in_payload_size. repeat split; congruence. }
  split; [split; [exact Hdec|]|].
  - intros (Ev & Et & Es & Epl & Ec). unfold Packet.to_bytes.
    rewrite Ev, Et, Es, Epl, Ec. reflexivity.
  - intros E Sp Sq. destruct (Hdec E) as (Ev & Et & Es & Epl & Ec).
    destruct p, q. cbn [version type seq payload_size payload crc16] in *.
    subst. reflexivity.
Qed.

Lemma to_bytes_determines_the_packet_witness :
  Packet.to_bytes stale_size_packet
  = Packet.to_bytes (set_payload_size 0 stale_size_packet)
  <-> differ_only_in_payload_size stale_size_packet
        (set_payload_size 0 stale_size_packet).
Proof.
  apply (to_bytes_determines_the_packet stale_size_packet
           (set_payload_size 0 stale_size_packet)).
  - unfold stale_size_packet, AckPkt. solve_packet_wf.
  - unfold stale_size_packet, set_payload_size, AckPkt. solve_packet_wf.
  - vm_compute. reflexivity.
  - vm_compute. reflexivity.
Defined.

(** X5. For a packet decoded from a byte string, [verify_crc], which
    re-serializes the header, gives the same answer as comparing the CRC-16
    of the first 11 + payload_size received bytes with the two footer bytes
    that follow them. *)
Theorem verify_crc_of_decoded_checks_the_wire :
  forall (bytes : list Z) (p : Packet),
    Forall is_u8 bytes ->
    Packet.from_bytes bytes = Some p ->
    Packet.crc_data p = firstn (Z.to_nat (11 + payload_size p)) bytes /\
    crc16 p = Packet.byte_at bytes (11 + payload_size p) * 2 ^ 8
              + Packet.byte_at bytes (11 + payload_size p + 1) /\
    Packet.verify_crc p
    = (crc.crc16_ccitt bytes (Z.to_nat (11 + payload_size p)) =? crc16 p).
Proof.
  intros bytes p Hu Hp.
  destruct (from_bytes_facts bytes p Hu Hp)
    as (h & pl & c0 & c1 & tail & E & Hh & Hhdr & Hv & Ht & Hs & Hps & Hn & Hpl
        & Upl & Hc & U0 & U1).
  assert (Hdata : Packet.crc_data p = h ++ pl).
  { unfold Packet.crc_data. cbv zeta. rewrite Hpl, <- Hn.
    rewrite (u32_small_id _ Hps), Hhdr. reflexivity. }
  assert (Hfirst : firstn (Z.to_nat (11 + payload_size p)) bytes = h ++ pl).
  { rewrite E, Hn.
    replace (Z.to_nat (11 + Z.of_nat (length pl)))
      with (length h + length pl)%nat by lia.
    rewrite firstn_app_2.
    rewrite firstn_app, firstn_all, Nat.sub_diag. cbn [firstn].
    rewrite app_nil_r. reflexivity. }
  destruct (byte_at_footer_tail h pl c0 c1 tail Hh U0 U1) as (F0 & F1 & _).
  split; [congruence|split].
  - rewrite E, Hn, F0, F1. exact Hc.
  - unfold Packet.verify_crc. cbv zeta. unfold crc.crc16_ccitt.
    rewrite firstn_all, Hfirst, Hdata. reflexivity.
Qed.

Lemma verify_crc_of_decoded_checks_the_wire_witness :
  Packet.verify_crc test_packet
  = (crc.crc16_ccitt (Packet.to_bytes test_packet)
       (Z.to_nat (11 + payload_size test_packet)) =? crc16 test_packet).
Proof.
  apply (verify_crc_of_decoded_checks_the_wire
           (Packet.to_bytes test_packet) test_packet).
  - vm_compute. repeat constructor; intros H; discriminate H.
  - vm_compute. reflexivity.
Defined.

(** ** A corrupted byte on the wire *)

Lemma set_nth_app1 i v (a b : list Z) :
  (i < length a)%nat -> set_nth i v (a ++ b) = set_nth i v a ++ b.
Proof.
  revert i. induction a as [|x a IH]; intros i Hi; [cbn in Hi; lia|].
  destruct i as [|i]; [reflexivity|].
  cbn [app set_nth]. rewrite IH by (cbn in Hi; lia). reflexivity.
Qed.

Lemma set_nth_app2 i v (a b : list Z) :
  (length a <= i)%nat -> set_nth i v (a ++ b) = a ++ set_nth (i - length a) v b.
Proof.
  revert i. induction a as [|x a IH]; intros i Hi.
  - cbn [app length]. rewrite Nat.sub_0_r. reflexivity.
  - destruct i as [|i]; [cbn in Hi; lia|].
    cbn [app set_nth length Nat.sub].
    rewrite IH by (cbn in Hi; lia). reflexivity.
Qed.

Lemma nth_set_nth_other i k v (l : list Z) :
  i <> k -> nth k (set_nth i v l) 0 = nth k l 0.
Proof.
  revert i k. induction l as [|x l IH]; intros i k Hik.
  - destruct i; reflexivity.
  - destruct i as [|i], k as [|k]; cbn [set_nth nth]; try reflexivity; try lia.
    apply IH. lia.
Qed.

Lemma Forall_set_nth i v (l : list Z) :
  Forall is_u8 l -> is_u8 v -> Forall is_u8 (set_nth i v l).
Proof.
  intros Hl Hv. revert i. induction Hl as [|x l Hx Hl IH]; intros i.
  - destruct i; constructor.
  - destruct i; cbn [set_nth]; constructor; auto.
Qed.

Lemma wire_payload_size_set_nth i v h :
  (i < 7)%nat -> wire_payload_size (set_nth i v h) = wire_payload_size h.
Proof.
  intros Hi. unfold wire_payload_size, Packet.byte_at.
  change (Z.to_nat 7) with 7%nat. change (Z.to_nat 8) with 8%nat.
  change (Z.to_nat 9) with 9%nat. change (Z.to_nat 10) with 10%nat.
  rewrite !nth_set_nth_other by lia. reflexivity.
Qed.

(** Decoding a frame and verifying it, in terms of the wire bytes. *)
Lemma decode_then_verify h pl c0 c1 tail :
  length h = 11%nat -> Forall is_u8 h -> is_u8 c0 -> is_u8 c1 ->
  Z.of_nat (length pl) = wire_payload_size h ->
  exists d,
    Packet.from_bytes (h ++ pl ++ c0 :: c1 :: tail) = Some d /\
    payload_size d = Z.of_nat (length pl) /\
    Packet.verify_crc d
    = (crc.crc16_ccitt (h ++ pl) (length (h ++ pl)) =? c0 * 2 ^ 8 + c1).
Proof.
  intros Hh Uh U0 U1 Hn.
  destruct (from_bytes_frame h pl c0 c1 tail Hh Uh U0 U1 Hn)
    as (d & Hd & Hhdr & _ & _ & _ & Hps & Hpl & Hc).
  exists d. split; [exact Hd|split; [exact Hps|]].
  unfold Packet.verify_crc, Packet.crc_data. cbv zeta.
  rewrite Hpl, Hc.
  replace (u32 (Z.of_nat (length pl))) with (payload_size d).
  - rewrite Hhdr. reflexivity.
  - rewrite Hps. symmetry. apply u32_small_id. rewrite Hn.
    apply wire_payload_size_range.
Qed.

Lemma set_nth_split_app i v (a b : list Z) :
  (i < length a)%nat ->
  exists pre post,
    a ++ b = pre ++ nth i a 0 :: post ++ b /\
    set_nth i v a ++ b = pre ++ v :: post ++ b /\
    (Forall is_u8 a -> Forall is_u8 post /\ is_u8 (nth i a 0)).
Proof.
  intros Hi. destruct (set_nth_split i v a Hi) as (pre & post & E1 & E2).
  exists pre, post. split; [|split].
  - rewrite E1 at 1. rewrite <- app_assoc. reflexivity.
  - rewrite E2, <- app_assoc. reflexivity.
  - intros Ha. rewrite E1 in Ha. apply Forall_split_at in Ha. exact Ha.
Qed.

(** X6. Take a byte string that decodes to a packet passing [verify_crc]
    and replace one byte of its frame by a different value.  When the byte
    lies outside the payload-size field (version, type, seq, payload or CRC
    footer), the result still decodes and the decoded packet fails
    [verify_crc].  When it is a payload-size byte made larger and the input
    has no trailing bytes, decoding itself fails. *)
Theorem corrupted_wire_byte_is_detected :
  forall (frame : list Z) (d : Packet) (i : nat) (v : Z),
    Forall is_u8 frame ->
    Packet.from_bytes frame = Some d ->
    Packet.verify_crc d = true ->
    is_u8 v -> v <> nth i frame 0 ->
    ((i < 7)%nat \/ (11 <= i)%nat ->
     Z.of_nat i < 13 + payload_size d ->
     exists d' : Packet,
       Packet.from_bytes (set_nth i v frame) = Some d' /\
       Packet.verify_crc d' = false) /\
    ((7 <= i < 11)%nat ->
     nth i frame 0 < v ->
     Z.of_nat (length frame) = 13 + payload_size d ->
     Packet.from_bytes (set_nth i v frame) = None).
Proof.
  intros frame d i v Hu Hd Hok Hv Hne.
  destruct (from_bytes_shape frame d Hd)
    as (h & pl & c0 & c1 & tail & E & Hh & Hn).
  subst frame.
  destruct (Forall_frame_parts _ _ _ _ _ Hu) as (Uh & Upl & U0 & U1).
  rewrite wire_payload_size_header in Hn by exact Hh.
  destruct (decode_then_verify h pl c0 c1 tail Hh Uh U0 U1 Hn)
    as (d0 & Hd0 & Hps & Hver).
  rewrite Hd in Hd0. injection Hd0 as <-.
  rewrite Hok in Hver. symmetry in Hver. apply Z.eqb_eq in Hver.
  split.
  - intros Hpos Hin. rewrite Hps in Hin.
    destruct (Nat.lt_ge_cases i 11) as [Hi11|Hi11].
    + (* a header byte before the size field *)
      assert (Hi7 : (i < 7)%nat) by lia.
      rewrite set_nth_app1 by lia.
      rewrite app_nth1 in Hne by lia.
      destruct (decode_then_verify (set_nth i v h) pl c0 c1 tail)
        as (d' & Hd' & _ & Hver'); try assumption.
      * rewrite set_nth_length. exact Hh.
      * apply Forall_set_nth; assumption.
      * rewrite wire_payload_size_set_nth by exact Hi7. exact Hn.
      * exists d'. split; [exact Hd'|]. rewrite Hver'. apply Z.eqb_neq.
        rewrite <- Hver.
        destruct (set_nth_split_app i v h pl) as (pre & post & E1 & E2 & Hparts);
          [lia|].
        destruct (Hparts Uh) as [Upost Ub].
        rewrite E1, E2. intros Heq. symmetry in Heq. revert Heq.
        apply crc16_single_byte; try assumption.
        -- apply Forall_app. split; assumption.
        -- congruence.
    + destruct (Nat.lt_ge_cases i (11 + length pl)) as [Hipl|Hipl].
      * (* a payload byte *)
        rewrite set_nth_app2 by lia. rewrite Hh.
        rewrite set_nth_app1 by lia.
        rewrite app_nth2 in Hne by lia. rewrite Hh in Hne.
        rewrite app_nth1 in Hne by lia.
        destruct (decode_then_verify h (set_nth (i - 11) v pl) c0 c1 tail)
          as (d' & Hd' & _ & Hver'); try assumption.
        -- rewrite set_nth_length. exact Hn.
        -- exists d'. split; [exact Hd'|]. rewrite Hver'. apply Z.eqb_neq.
           rewrite <- Hver.
           destruct (set_nth_split (i - 11) v pl) as (pre & post & E1 & E2);
             [lia|].
           remember (nth (i - 11) pl 0) as b eqn:Hb.
           rewrite E2. rewrite E1. rewrite E1 in Upl.
           apply Forall_split_at in Upl.
           rewrite !app_assoc. intros Heq. symmetry in Heq. revert Heq.
           apply crc16_single_byte; try tauto. congruence.
      * (* a footer byte *)
        rewrite set_nth_app2 by lia. rewrite Hh.
        rewrite set_nth_app2 by lia.
        rewrite app_nth2 in Hne by lia. rewrite Hh in Hne.
        rewrite app_nth2 in Hne by lia.
        assert (Hk : (i - 11 - length pl = 0 \/ i - 11 - length pl = 1)%nat)
          by lia.
        destruct Hk as [Hk|Hk]; rewrite Hk in *; cbn [set_nth nth] in *.
        -- destruct (decode_then_verify h pl v c1 tail)
             as (d' & Hd' & _ & Hver'); try assumption.
           exists d'. split; [exact Hd'|]. rewrite Hver'. apply Z.eqb_neq.
           rewrite Hver. unfold is_u8 in *. lia.
        -- destruct (decode_then_verify h pl c0 v tail)
             as (d' & Hd' & _ & Hver'); try assumption.
           exists d'. split; [exact Hd'|]. rewrite Hver'. apply Z.eqb_neq.
           rewrite Hver. unfold is_u8 in *. lia.
  - intros Hi Hgt Hlen. rewrite Hps in Hlen.
    rewrite set_nth_app1 by lia. rewrite app_nth1 in Hgt by lia.
    rewrite from_bytes_unfold. cbv zeta.
    rewrite wire_payload_size_header by (rewrite set_nth_length; exact Hh).
    assert (Hsame : length (set_nth i v h ++ pl ++ c0 :: c1 :: tail)
                    = length (h ++ pl ++ c0 :: c1 :: tail)).
    { rewrite !length_app, set_nth_length. reflexivity. }
    rewrite Hsame, Hlen.
    destruct (Z.ltb_spec (13 + Z.of_nat (length pl)) 13); [reflexivity|].
    assert (Hbig : wire_payload_size h < wire_payload_size (set_nth i v h)).
    { do 11 (destruct h as [|? h]; [discriminate Hh|]).
      destruct h; [|discriminate Hh].
      repeat match goal with
             | H : Forall is_u8 (_ :: _) |- _ => inversion H; subst; clear H
             end.
      assert (Hcase : (i = 7 \/ i = 8 \/ i = 9 \/ i = 10)%nat) by lia.
      unfold wire_payload_size, Packet.byte_at.
      change (Z.to_nat 7) with 7%nat. change (Z.to_nat 8) with 8%nat.
      change (Z.to_nat 9) with 9%nat. change (Z.to_nat 10) with 10%nat.
      destruct Hcase as [-> | [-> | [-> | ->]]]; cbn [set_nth nth] in *;
        rewrite !u8_small by assumption;
        rewrite !be32_value by assumption;
        unfold u32; rewrite !Z.mod_small by (unfold is_u8 in *; lia);
        lia. }
    destruct (Z.ltb_spec (13 + Z.of_nat (length pl))
                (13 + wire_payload_size (set_nth i v h))); [reflexivity|lia].
Qed.

(** The corrupted-frame scenario on the wire: a payload byte overwritten. *)
Lemma corrupted_wire_byte_is_detected_witness :
  exists d' : Packet,
    Packet.from_bytes (set_nth 11 88 (Packet.to_bytes test_packet)) = Some d' /\
    Packet.verify_crc d' = false.
Proof.
  destruct (corrupted_wire_byte_is_detected (Packet.to_bytes test_packet)
              test_packet 11 88) as [H _].
  - vm_compute. repeat constructor; intros H; discriminate H.
  - vm_compute. reflexivity.
  - vm_compute. reflexivity.
  - unfold is_u8. lia.
  - vm_compute. intros H. discriminate H.
  - apply H.
    + right. lia.
    + vm_compute. reflexivity.
Defined.

(** ** What the channel delivers *)

Lemma packets_to_cons queue q pkt calls :
  packets_to queue ((q, pkt) :: calls)
  = if queue_ref_eqb q queue then pkt :: packets_to queue calls
    else packets_to queue calls.
Proof.
  unfold packets_to. cbn [filter fst].
  destruct (queue_ref_eqb q queue); reflexivity.
Qed.

Lemma subsequence_refl {A : Type} (l : list A) : subsequence l l.
Proof. induction l; constructor; assumption. Qed.

Section ChannelDelivery.
Context {std : Std}.

Lemma run_sends_cons queue pkt calls (l : Link.t) :
  Link.run_sends ((queue, pkt) :: calls) l
  = Link.run_sends calls (Link.apply_impairments_and_send pkt queue l).
Proof. reflexivity. Qed.

Lemma run_sends_subsequence calls : forall l : Link.t,
  exists n1 n2,
    Link.sat_to_gs_ (Link.run_sends calls l) = Link.sat_to_gs_ l ++ n1 /\
    Link.gs_to_sat_ (Link.run_sends calls l) = Link.gs_to_sat_ l ++ n2 /\
    subsequence n1 (packets_to Link.sat_to_gs calls) /\
    subsequence n2 (packets_to Link.gs_to_sat calls).
Proof.
  induction calls as [|[queue pkt] calls IH]; intros l.
  - exists [], []. cbn. rewrite !app_nil_r. repeat split; constructor.
  - rewrite run_sends_cons.
    destruct (IH (Link.apply_impairments_and_send pkt queue l))
      as (n1 & n2 & E1 & E2 & S1 & S2).
    destruct (send_outcome pkt queue l) as (_ & _ & [(_ & Q1 & Q2)|(_ & Q)]).
    + exists n1, n2. rewrite E1, E2, Q1, Q2, !packets_to_cons.
      repeat split; destruct queue; cbn [queue_ref_eqb];
        try assumption; constructor; assumption.
    + destruct queue; destruct Q as [Q1 Q2]; rewrite !packets_to_cons;
        cbn [queue_ref_eqb].
      * exists (pkt :: n1), n2. rewrite E1, E2, Q1, Q2, <- app_assoc.
        repeat split; try assumption. constructor. exact S1.
      * exists n1, (pkt :: n2). rewrite E1, E2, Q1, Q2, <- app_assoc.
        repeat split; try assumption. constructor. exact S2.
Qed.

(** X7. After any sequence of send calls on a new channel, each
    directional queue holds a subsequence of the packets sent in that
    direction: the channel drops packets, but never duplicates, reorders,
    alters or misroutes one. *)
Theorem channel_delivers_a_subsequence :
  forall (config : Link.Config) (calls : list Link.send_call),
    let l := Link.run_sends calls (Link.new config) in
    subsequence (Link.sat_to_gs_ l) (packets_to Link.sat_to_gs calls) /\
    subsequence (Link.gs_to_sat_ l) (packets_to Link.gs_to_sat calls).
Proof.
  intros config calls. cbv zeta.
  destruct (run_sends_subsequence calls (Link.new config))
    as (n1 & n2 & E1 & E2 & S1 & S2).
  rewrite E1, E2. cbn [Link.new Link.sat_to_gs_ Link.gs_to_sat_ app].
  split; assumption.
Qed.

Lemma send_not_lost pkt queue (l : Link.t) :
  never_lost (Link.config_ l) ->
  let l' := Link.apply_impairments_and_send pkt queue l in
  Link.config_ l' = Link.config_ l /\
  Link.packets_sent_ l' = u64 (Link.packets_sent_ l + 1) /\
  send_enqueued pkt queue l l'.
Proof.
  intros Hnl. cbv zeta. unfold Link.apply_impairments_and_send.
  specialize (Hnl (Link.rng_ l)).
  destruct (uniform_real_distribution (Link.rng_ l)) as [loss_value rng1].
  cbn [fst] in Hnl.
  destruct (normal_distribution _ _ rng1) as [delay_ms rng2].
  rewrite Hnl. unfold send_enqueued, ThreadSafeQueue.push.
  destruct queue; cbn; auto.
Qed.

Lemma run_sends_never_lost calls : forall l : Link.t,
  never_lost (Link.config_ l) ->
  let l' := Link.run_sends calls l in
  Link.config_ l' = Link.config_ l /\
  Link.sat_to_gs_ l' = Link.sat_to_gs_ l ++ packets_to Link.sat_to_gs calls /\
  Link.gs_to_sat_ l' = Link.gs_to_sat_ l ++ packets_to Link.gs_to_sat calls /\
  Link.packets_dropped_ l' = Link.packets_dropped_ l.
Proof.
  induction calls as [|[queue pkt] calls IH]; intros l Hnl; cbv zeta.
  - cbn. rewrite !app_nil_r. auto.
  - rewrite run_sends_cons.
    destruct (send_not_lost pkt queue l Hnl) as (C & _ & D & Q).
    cbv zeta in C.
    destruct (IH (Link.apply_impairments_and_send pkt queue l))
      as (C' & E1 & E2 & D'); [rewrite C; exact Hnl|].
    cbv zeta in *. rewrite C', C, E1, E2, D', D, !packets_to_cons.
    destruct queue; destruct Q as [Q1 Q2]; rewrite Q1, Q2;
      cbn [queue_ref_eqb]; rewrite <- ?app_assoc; auto.
Qed.

(** X8. When no uniform draw can fall below [loss_prob], a new channel
    delivers every packet: after any sequence of send calls each queue holds
    exactly the packets sent in its direction, in call order, and
    [packets_dropped_] is 0. *)
Theorem lossless_channel_delivers_everything :
  forall (config : Link.Config) (calls : list Link.send_call),
    never_lost config ->
    let l := Link.run_sends calls (Link.new config) in
    Link.sat_to_gs_ l = packets_to Link.sat_to_gs calls /\
    Link.gs_to_sat_ l = packets_to Link.gs_to_sat calls /\
    Link.packets_dropped_ l = 0.
Proof.
  intros config calls Hnl. cbv zeta.
  destruct (run_sends_never_lost calls (Link.new config) Hnl)
    as (_ & E1 & E2 & D).
  cbv zeta in *. rewrite E1, E2, D. auto.
Qed.

End ChannelDelivery.

Lemma toy_never_lost : @never_lost toy_std (Link.config_ lossless_link).
Proof.
  intros rng. cbn. apply Z.ltb_ge.
  apply Z.mod_pos_bound. lia.
Qed.

Lemma lossless_channel_delivers_everything_witness :
  Link.sat_to_gs_
    (Link.run_sends
       [(Link.sat_to_gs, test_packet); (Link.gs_to_sat, reply AckPkt 12345);
        (Link.sat_to_gs, corrupted_packet)]
       lossless_link)
  = [test_packet; corrupted_packet].
Proof.
  apply (@lossless_channel_delivers_everything toy_std
           (Link.config_ lossless_link)
           [(Link.sat_to_gs, test_packet); (Link.gs_to_sat, reply AckPkt 12345);
            (Link.sat_to_gs, corrupted_packet)]).
  exact toy_never_lost.
Defined.

(** ** What a send operation changes *)

Section SendFrame.
Context {std : Std}.

(** The retry loop of the satellite touches [retries_] and
    [naks_received_] only. *)
Lemma sat_send_loop_frame fuel : forall retry pkt peer (s : Satellite.t) (l : Link.t),
  exists r n,
    snd (fst (Satellite.send_loop fuel retry pkt peer s l))
    = Satellite.set_naks_received n (Satellite.set_retries r s).
Proof.
  induction fuel as [|fuel IH]; intros retry pkt peer s l.
  - exists (Satellite.retries_ s), (Satellite.naks_received_ s).
    destruct s; reflexivity.
  - cbn [Satellite.send_loop].
    destruct ((retry <=? Satellite.max_retries (Satellite.config_ s))
              && Satellite.running_ s).
    2:{ exists (Satellite.retries_ s), (Satellite.naks_received_ s).
        destruct s; reflexivity. }
    set (s1 := if 0 <? retry
               then Satellite.set_retries (u64 (Satellite.retries_ s + 1)) s
               else s).
    assert (H1 : exists r, s1 = Satellite.set_retries r s).
    { subst s1. destruct (0 <? retry); eexists; [reflexivity|].
      instantiate (1 := Satellite.retries_ s). destruct s; reflexivity. }
    destruct H1 as [r1 H1].
    set (l2 := peer retry (Link.send_sat_to_gs pkt l)).
    assert (H2 : exists n,
      snd (fst (Satellite.wait_for_ack (seq pkt)
                  (Satellite.ack_timeout_ms (Satellite.config_ s1)) s1 l2))
      = Satellite.set_naks_received n s1).
    { unfold Satellite.wait_for_ack.
      destruct (Link.recv_gs_to_sat _ l2) as [[p|] l3].
      - destruct ((type p =? AckPkt) && (seq p =? seq pkt)).
        + exists (Satellite.naks_received_ s1). destruct s1; reflexivity.
        + destruct ((type p =? NakPkt) && (seq p =? seq pkt)).
          * eexists. reflexivity.
          * exists (Satellite.naks_received_ s1). destruct s1; reflexivity.
      - exists (Satellite.naks_received_ s1). destruct s1; reflexivity. }
    destruct H2 as [n2 H2].
    destruct (Satellite.wait_for_ack (seq pkt)
                (Satellite.ack_timeout_ms (Satellite.config_ s1)) s1 l2)
      as [[ok s2] l3].
    cbn [fst snd] in H2. subst s2. rewrite H1.
    destruct ok.
    + exists r1, n2. reflexivity.
    + destruct (IH (retry + 1) pkt peer
                  (Satellite.set_naks_received n2 (Satellite.set_retries r1 s)) l3)
        as (r & n & E).
      destruct (Satellite.send_loop fuel (retry + 1) pkt peer
                  (Satellite.set_naks_received n2 (Satellite.set_retries r1 s)) l3)
        as [[[success attempts] s3] l4].
      cbn [fst snd] in *. exists r, n. rewrite E. reflexivity.
Qed.

(** The retry loop of the ground station touches [retries_] only. *)
Lemma gs_send_loop_frame fuel : forall retry pkt peer (g : GroundStation.t) (l : Link.t),
  exists r,
    snd (fst (GroundStation.send_loop fuel retry pkt peer g l))
    = GroundStation.set_retries r g.
Proof.
  induction fuel as [|fuel IH]; intros retry pkt peer g l.
  - exists (GroundStation.retries_ g). destruct g; reflexivity.
  - cbn [GroundStation.send_loop].
    destruct ((retry <=? GroundStation.max_retries (GroundStation.config_ g))
              && GroundStation.running_ g).
    2:{ exists (GroundStation.retries_ g). destruct g; reflexivity. }
    set (g1 := if 0 <? retry
               then GroundStation.set_retries (u64 (GroundStation.retries_ g + 1)) g
               else g).
    assert (H1 : exists r, g1 = GroundStation.set_retries r g).
    { subst g1. destruct (0 <? retry); eexists; [reflexivity|].
      instantiate (1 := GroundStation.retries_ g). destruct g; reflexivity. }
    destruct H1 as [r1 H1].
    set (l2 := peer retry (Link.send_gs_to_sat pkt l)).
    assert (H2 :
      snd (fst (GroundStation.wait_for_ack (seq pkt)
                  (GroundStation.ack_timeout_ms (GroundStation.config_ g1)) g1 l2))
      = g1).
    { unfold GroundStation.wait_for_ack.
      destruct (Link.recv_sat_to_gs _ l2) as [[p|] l3]; [|reflexivity].
      destruct ((type p =? AckPkt) && (seq p =? seq pkt)); [reflexivity|].
      destruct ((type p =? NakPkt) && (seq p =? seq pkt)); reflexivity. }
    destruct (GroundStation.wait_for_ack (seq pkt)
                (GroundStation.ack_timeout_ms (GroundStation.config_ g1)) g1 l2)
      as [[ok g2] l3].
    cbn [fst snd] in H2. subst g2. rewrite H1.
    destruct ok.
    + exists r1. reflexivity.
    + destruct (IH (retry + 1) pkt peer (GroundStation.set_retries r1 g) l3)
        as (r & E).
      destruct (GroundStation.send_loop fuel (retry + 1) pkt peer
                  (GroundStation.set_retries r1 g) l3)
        as [[[success attempts] g3] l4].
      cbn [fst snd] in *. exists r. rewrite E. reflexivity.
Qed.

Lemma sat_send_frame body peer (s : Satellite.t) (l : Link.t) :
  exists sent r n,
    snd (fst (Satellite.send_telemetry body peer s l))
    = Satellite.mk (Satellite.config_ s) (Satellite.running_ s)
        (u32 (Satellite.tx_seq_ s + 1)) (Satellite.rx_seq_expected_ s)
        (Satellite.safe_mode_ s) sent (Satellite.commands_received_ s)
        r n (Satellite.executed_ s).
Proof.
  unfold Satellite.send_telemetry. cbv zeta.
  set (s0 := Satellite.set_tx_seq (u32 (Satellite.tx_seq_ s + 1)) s).
  set (pkt := data_packet TelemetryPkt (Satellite.tx_seq_ s) body).
  destruct (sat_send_loop_frame
              (Z.to_nat (Satellite.max_retries (Satellite.config_ s0) + 1))
              0 pkt peer s0 l) as (r & n & E).
  destruct (Satellite.send_loop _ 0 pkt peer s0 l)
    as [[[success attempts] s1] l1].
  cbn [fst snd] in E. subst s1.
  destruct success; cbn [fst snd]; eexists; exists r, n; reflexivity.
Qed.

Lemma gs_send_frame body peer (g : GroundStation.t) (l : Link.t) :
  exists sent r,
    snd (fst (GroundStation.send_command_with_retry body peer g l))
    = GroundStation.mk (GroundStation.config_ g) (GroundStation.running_ g)
        (u32 (GroundStation.tx_seq_ g + 1))
        (GroundStation.rx_seq_expected_ g)
        (GroundStation.telemetry_received_ g) sent r
        (GroundStation.naks_sent_ g) (GroundStation.logged_ g).
Proof.
  unfold GroundStation.send_command_with_retry. cbv zeta.
  set (g0 := GroundStation.set_tx_seq (u32 (GroundStation.tx_seq_ g + 1)) g).
  set (pkt := data_packet CommandPkt (GroundStation.tx_seq_ g) body).
  destruct (gs_send_loop_frame
              (Z.to_nat (GroundStation.max_retries (GroundStation.config_ g0) + 1))
              0 pkt peer g0 l) as (r & E).
  destruct (GroundStation.send_loop _ 0 pkt peer g0 l)
    as [[[success attempts] g1] l1].
  cbn [fst snd] in E. subst g1.
  destruct success; cbn [fst snd]; eexists; exists r; reflexivity.
Qed.

(** X9. A send operation changes nothing of the endpoint but its sender
    side: [send_telemetry] leaves the satellite as it was except for
    [tx_seq_], which advances by one in [uint32_t] whether or not an attempt
    is made, and for [telemetry_sent_], [retries_] and [naks_received_];
    [send_command_with_retry] leaves the ground station as it was except
    for [tx_seq_], advanced in the same way, [commands_sent_] and
    [retries_]. *)
Theorem send_changes_the_sender_side_only :
  forall (body : list Z) (peer : Z -> Link.t -> Link.t) (l : Link.t),
    (forall s : Satellite.t,
       exists sent r n,
         snd (fst (Satellite.send_telemetry body peer s l))
         = Satellite.mk (Satellite.config_ s) (Satellite.running_ s)
             (u32 (Satellite.tx_seq_ s + 1)) (Satellite.rx_seq_expected_ s)
             (Satellite.safe_mode_ s) sent (Satellite.commands_received_ s)
             r n (Satellite.executed_ s)) /\
    (forall g : GroundStation.t,
       exists sent r,
         snd (fst (GroundStation.send_command_with_retry body peer g l))
         = GroundStation.mk (GroundStation.config_ g) (GroundStation.running_ g)
             (u32 (GroundStation.tx_seq_ g + 1))
             (GroundStation.rx_seq_expected_ g)
             (GroundStation.telemetry_received_ g) sent r
             (GroundStation.naks_sent_ g) (GroundStation.logged_ g)).
Proof.
  intros body peer l. split.
  - intros s. apply sat_send_frame.
  - intros g. apply gs_send_frame.
Qed.

End SendFrame.

(* ----------------------------------------------------------------- *)
(** ** Counting attempts: Satellite *)

Section SatelliteAttempts.
Context {std : Std}.

Lemma sat_wait_for_ack_keeps_retries seq_awaited timeout (s : Satellite.t) (l : Link.t) :
  let s' := snd (fst (Satellite.wait_for_ack seq_awaited timeout s l)) in
  Satellite.retries_ s' = Satellite.retries_ s /\
  Satellite.config_ s' = Satellite.config_ s /\
  Satellite.running_ s' = Satellite.running_ s.
Proof.
  cbv zeta. unfold Satellite.wait_for_ack.
  destruct (Link.recv_gs_to_sat timeout l) as [[p|] l3]; [|repeat split].
  destruct ((type p =? AckPkt) && (seq p =? seq_awaited)); [repeat split|].
  destruct ((type p =? NakPkt) && (seq p =? seq_awaited)); repeat split.
Qed.

(** From the second attempt on, every attempt counts as a retry. *)
Lemma sat_send_loop_retries fuel : forall retry pkt peer (s : Satellite.t) (l : Link.t),
  1 <= retry -> is_u64 (Satellite.retries_ s) ->
  let r := Satellite.send_loop fuel retry pkt peer s l in
  Satellite.retries_ (snd (fst r))
  = u64 (Satellite.retries_ s + Z.of_nat (length (snd (fst (fst r))))).
Proof.
  induction fuel as [|fuel IH]; intros retry pkt peer s l Hr Hu; cbv zeta.
  - cbn. rewrite Z.add_0_r. symmetry. apply u64_small, Hu.
  - cbn [Satellite.send_loop].
    destruct ((retry <=? Satellite.max_retries (Satellite.config_ s))
              && Satellite.running_ s).
    2:{ cbn. rewrite Z.add_0_r. symmetry. apply u64_small, Hu. }
    destruct (Z.ltb_spec 0 retry) as [_|]; [|lia].
    set (s1 := Satellite.set_retries (u64 (Satellite.retries_ s + 1)) s).
    set (l2 := peer retry (Link.send_sat_to_gs pkt l)).
    pose proof (sat_wait_for_ack_keeps_retries (seq pkt)
                  (Satellite.ack_timeout_ms (Satellite.config_ s1)) s1 l2) as Hw.
    cbv zeta in Hw.
    destruct (Satellite.wait_for_ack (seq pkt)
                (Satellite.ack_timeout_ms (Satellite.config_ s1)) s1 l2)
      as [[ok s2] l3].
    cbn [fst snd] in Hw. destruct Hw as (Hret & _ & _).
    assert (H2 : Satellite.retries_ s2 = u64 (Satellite.retries_ s + 1))
      by (rewrite Hret; reflexivity).
    destruct ok.
    + cbn [fst snd length]. exact H2.
    + specialize (IH (retry + 1) pkt peer s2 l3). cbv zeta in IH.
      destruct (Satellite.send_loop fuel (retry + 1) pkt peer s2 l3)
        as [[[success attempts] s3] l4].
      cbn [fst snd length] in *.
      rewrite IH; [|lia|rewrite H2; apply u64_range].
      rewrite H2, u64_succ_add. f_equal. lia.
Qed.

Lemma sat_send_retries body peer (s : Satellite.t) (l : Link.t) :
  Satellite.running_ s = true ->
  0 <= Satellite.max_retries (Satellite.config_ s) ->
  is_u64 (Satellite.retries_ s) ->
  let r := Satellite.send_telemetry body peer s l in
  (1 <= length (fst (fst r)))%nat /\
  Satellite.retries_ (snd (fst r))
  = u64 (Satellite.retries_ s + Z.of_nat (length (fst (fst r))) - 1).
Proof.
  intros Hrun Hmax Hu. cbv zeta. unfold Satellite.send_telemetry. cbv zeta.
  set (s0 := Satellite.set_tx_seq (u32 (Satellite.tx_seq_ s + 1)) s).
  set (pkt := data_packet TelemetryPkt (Satellite.tx_seq_ s) body).
  assert (Hfuel : Z.to_nat (Satellite.max_retries (Satellite.config_ s0) + 1)
                  = S (Z.to_nat (Satellite.max_retries (Satellite.config_ s0)))).
  { change (Satellite.config_ s0) with (Satellite.config_ s). lia. }
  rewrite Hfuel. cbn [Satellite.send_loop].
  change (Satellite.config_ s0) with (Satellite.config_ s).
  change (Satellite.running_ s0) with (Satellite.running_ s).
  rewrite Hrun.
  destruct (Z.leb_spec 0 (Satellite.max_retries (Satellite.config_ s)));
    [|lia].
  cbn [andb]. change (0 <? 0) with false. cbv iota.
  change (Satellite.config_ s0) with (Satellite.config_ s).
  set (l2 := peer 0 (Link.send_sat_to_gs pkt l)).
  pose proof (sat_wait_for_ack_keeps_retries (seq pkt)
                (Satellite.ack_timeout_ms (Satellite.config_ s)) s0 l2) as Hw.
  cbv zeta in Hw.
  destruct (Satellite.wait_for_ack (seq pkt)
              (Satellite.ack_timeout_ms (Satellite.config_ s)) s0 l2)
    as [[ok s2] l3].
  cbn [fst snd] in Hw. destruct Hw as (Hret & _ & _).
  change (Satellite.retries_ s0) with (Satellite.retries_ s) in Hret.
  destruct ok.
  - cbn [fst snd length]. split; [lia|].
    change (Satellite.retries_ (Satellite.set_telemetry_sent
              (u64 (Satellite.telemetry_sent_ s2 + 1)) s2))
      with (Satellite.retries_ s2).
    rewrite Hret. replace (Satellite.retries_ s + Z.of_nat 1 - 1)
      with (Satellite.retries_ s) by lia.
    symmetry. apply u64_small, Hu.
  - pose proof (sat_send_loop_retries
                  (Z.to_nat (Satellite.max_retries (Satellite.config_ s)))
                  (0 + 1) pkt peer s2 l3) as Hl.
    cbv zeta in Hl.
    destruct (Satellite.send_loop _ (0 + 1) pkt peer s2 l3)
      as [[[success attempts] s3] l4].
    cbn [fst snd] in Hl.
    assert (E : Satellite.retries_ s3
                = u64 (Satellite.retries_ s + Z.of_nat (length attempts))).
    { rewrite Hl; [rewrite Hret; reflexivity|lia|rewrite Hret; exact Hu]. }
    destruct success; cbn [fst snd length]; (split; [lia|]).
    + change (Satellite.retries_ (Satellite.set_telemetry_sent
                (u64 (Satellite.telemetry_sent_ s3 + 1)) s3))
        with (Satellite.retries_ s3).
      rewrite E. f_equal. lia.
    + rewrite E. f_equal. lia.
Qed.

(** With nothing in the inbound queue at any wait, every attempt fails. *)
Lemma sat_send_loop_unanswered fuel : forall retry pkt peer (s : Satellite.t) (l : Link.t),
  (forall k l0, Link.gs_to_sat_ (peer k l0) = []) ->
  let r := Satellite.send_loop fuel retry pkt peer s l in
  fst (fst (fst r)) = false /\
  Forall (fun ok => ok = false) (snd (fst (fst r))).
Proof.
  induction fuel as [|fuel IH]; intros retry pkt peer s l Hq; cbv zeta.
  - split; [reflexivity|constructor].
  - cbn [Satellite.send_loop].
    destruct ((retry <=? Satellite.max_retries (Satellite.config_ s))
              && Satellite.running_ s); [|split; [reflexivity|constructor]].
    set (s1 := if 0 <? retry
               then Satellite.set_retries (u64 (Satellite.retries_ s + 1)) s
               else s).
    set (l2 := peer retry (Link.send_sat_to_gs pkt l)).
    assert (Hw : Satellite.wait_for_ack (seq pkt)
                   (Satellite.ack_timeout_ms (Satellite.config_ s1)) s1 l2
                 = (false, s1, Link.set_queue Link.gs_to_sat [] l2)).
    { unfold Satellite.wait_for_ack, Link.recv_gs_to_sat.
      subst l2. rewrite Hq. reflexivity. }
    rewrite Hw.
    specialize (IH (retry + 1) pkt peer s1 (Link.set_queue Link.gs_to_sat [] l2) Hq).
    cbv zeta in IH.
    destruct (Satellite.send_loop fuel (retry + 1) pkt peer s1
                (Link.set_queue Link.gs_to_sat [] l2))
      as [[[success attempts] s3] l4].
    cbn [fst snd] in *. destruct IH as [I1 I2].
    split; [exact I1|constructor; [reflexivity|exact I2]].
Qed.

End SatelliteAttempts.

(* ----------------------------------------------------------------- *)
(** ** Counting attempts: GroundStation *)

Section GroundStationAttempts.
Context {std : Std}.

Lemma gs_wait_for_ack_keeps_retries seq_awaited timeout (s : GroundStation.t) (l : Link.t) :
  let s' := snd (fst (GroundStation.wait_for_ack seq_awaited timeout s l)) in
  GroundStation.retries_ s' = GroundStation.retries_ s /\
  GroundStation.config_ s' = GroundStation.config_ s /\
  GroundStation.running_ s' = GroundStation.running_ s.
Proof.
  cbv zeta. unfold GroundStation.wait_for_ack.
  destruct (Link.recv_sat_to_gs timeout l) as [[p|] l3]; [|repeat split].
  destruct ((type p =? AckPkt) && (seq p =? seq_awaited)); [repeat split|].
  destruct ((type p =? NakPkt) && (seq p =? seq_awaited)); repeat split.
Qed.

(** From the second attempt on, every attempt counts as a retry. *)
Lemma gs_send_loop_retries fuel : forall retry pkt peer (s : GroundStation.t) (l : Link.t),
  1 <= retry -> is_u64 (GroundStation.retries_ s) ->
  let r := GroundStation.send_loop fuel retry pkt peer s l in
  GroundStation.retries_ (snd (fst r))
  = u64 (GroundStation.retries_ s + Z.of_nat (length (snd (fst (fst r))))).
Proof.
  induction fuel as [|fuel IH]; intros retry pkt peer s l Hr Hu; cbv zeta.
  - cbn. rewrite Z.add_0_r. symmetry. apply u64_small, Hu.
  - cbn [GroundStation.send_loop].
    destruct ((retry <=? GroundStation.max_retries (GroundStation.config_ s))
              && GroundStation.running_ s).
    2:{ cbn. rewrite Z.add_0_r. symmetry. apply u64_small, Hu. }
    destruct (Z.ltb_spec 0 retry) as [_|]; [|lia].
    set (s1 := GroundStation.set_retries (u64 (GroundStation.retries_ s + 1)) s).
    set (l2 := peer retry (Link.send_gs_to_sat pkt l)).
    pose proof (gs_wait_for_ack_keeps_retries (seq pkt)
                  (GroundStation.ack_timeout_ms (GroundStation.config_ s1)) s1 l2) as Hw.
    cbv zeta in Hw.
    destruct (GroundStation.wait_for_ack (seq pkt)
                (GroundStation.ack_timeout_ms (GroundStation.config_ s1)) s1 l2)
      as [[ok s2] l3].
    cbn [fst snd] in Hw. destruct Hw as (Hret & _ & _).
    assert (H2 : GroundStation.retries_ s2 = u64 (GroundStation.retries_ s + 1))
      by (rewrite Hret; reflexivity).
    destruct ok.
    + cbn [fst snd length]. exact H2.
    + specialize (IH (retry + 1) pkt peer s2 l3). cbv zeta in IH.
      destruct (GroundStation.send_loop fuel (retry + 1) pkt peer s2 l3)
        as [[[success attempts] s3] l4].
      cbn [fst snd length] in *.
      rewrite IH; [|lia|rewrite H2; apply u64_range].
      rewrite H2, u64_succ_add. f_equal. lia.
Qed.

Lemma gs_send_retries body peer (s : GroundStation.t) (l : Link.t) :
  GroundStation.running_ s = true ->
  0 <= GroundStation.max_retries (GroundStation.config_ s) ->
  is_u64 (GroundStation.retries_ s) ->
  let r := GroundStation.send_command_with_retry body peer s l in
  (1 <= length (fst (fst r)))%nat /\
  GroundStation.retries_ (snd (fst r))
  = u64 (GroundStation.retries_ s + Z.of_nat (length (fst (fst r))) - 1).
Proof.
  intros Hrun Hmax Hu. cbv zeta. unfold GroundStation.send_command_with_retry. cbv zeta.
  set (s0 := GroundStation.set_tx_seq (u32 (GroundStation.tx_seq_ s + 1)) s).
  set (pkt := data_packet CommandPkt (GroundStation.tx_seq_ s) body).
  assert (Hfuel : Z.to_nat (GroundStation.max_retries (GroundStation.config_ s0) + 1)
                  = S (Z.to_nat (GroundStation.max_retries (GroundStation.config_ s0)))).
  { change (GroundStation.config_ s0) with (GroundStation.config_ s). lia. }
  rewrite Hfuel. cbn [GroundStation.send_loop].
  change (GroundStation.config_ s0) with (GroundStation.config_ s).
  change (GroundStation.running_ s0) with (GroundStation.running_ s).
  rewrite Hrun.
  destruct (Z.leb_spec 0 (GroundStation.max_retries (GroundStation.config_ s)));
    [|lia].
  cbn [andb]. change (0 <? 0) with false. cbv iota.
  change (GroundStation.config_ s0) with (GroundStation.config_ s).
  set (l2 := peer 0 (Link.send_gs_to_sat pkt l)).
  pose proof (gs_wait_for_ack_keeps_retries (seq pkt)
                (GroundStation.ack_timeout_ms (GroundStation.config_ s)) s0 l2) as Hw.
  cbv zeta in Hw.
  destruct (GroundStation.wait_for_ack (seq pkt)
              (GroundStation.ack_timeout_ms (GroundStation.config_ s)) s0 l2)
    as [[ok s2] l3].
  cbn [fst snd] in Hw. destruct Hw as (Hret & _ & _).
  change (GroundStation.retries_ s0) with (GroundStation.retries_ s) in Hret.
  destruct ok.
  - cbn [fst snd length]. split; [lia|].
    change (GroundStation.retries_ (GroundStation.set_commands_sent
              (u64 (GroundStation.commands_sent_ s2 + 1)) s2))
      with (GroundStation.retries_ s2).
    rewrite Hret. replace (GroundStation.retries_ s + Z.of_nat 1 - 1)
      with (GroundStation.retries_ s) by lia.
    symmetry. apply u64_small, Hu.
  - pose proof (gs_send_loop_retries
                  (Z.to_nat (GroundStation.max_retries (GroundStation.config_ s)))
                  (0 + 1) pkt peer s2 l3) as Hl.
    cbv zeta in Hl.
    destruct (GroundStation.send_loop _ (0 + 1) pkt peer s2 l3)
      as [[[success attempts] s3] l4].
    cbn [fst snd] in Hl.
    assert (E : GroundStation.retries_ s3
                = u64 (GroundStation.retries_ s + Z.of_nat (length attempts))).
    { rewrite Hl; [rewrite Hret; reflexivity|lia|rewrite Hret; exact Hu]. }
    destruct success; cbn [fst snd length]; (split; [lia|]).
    + change (GroundStation.retries_ (GroundStation.set_commands_sent
                (u64 (GroundStation.commands_sent_ s3 + 1)) s3))
        with (GroundStation.retries_ s3).
      rewrite E. f_equal. lia.
    + rewrite E. f_equal. lia.
Qed.

(** With nothing in the inbound queue at any wait, every attempt fails. *)
Lemma gs_send_loop_unanswered fuel : forall retry pkt peer (s : GroundStation.t) (l : Link.t),
  (forall k l0, Link.sat_to_gs_ (peer k l0) = []) ->
  let r := GroundStation.send_loop fuel retry pkt peer s l in
  fst (fst (fst r)) = false /\
  Forall (fun ok => ok = false) (snd (fst (fst r))).
Proof.
  induction fuel as [|fuel IH]; intros retry pkt peer s l Hq; cbv zeta.
  - split; [reflexivity|constructor].
  - cbn [GroundStation.send_loop].
    destruct ((retry <=? GroundStation.max_retries (GroundStation.config_ s))
              && GroundStation.running_ s); [|split; [reflexivity|constructor]].
    set (s1 := if 0 <? retry
               then GroundStation.set_retries (u64 (GroundStation.retries_ s + 1)) s
               else s).
    set (l2 := peer retry (Link.send_gs_to_sat pkt l)).
    assert (Hw : GroundStation.wait_for_ack (seq pkt)
                   (GroundStation.ack_timeout_ms (GroundStation.config_ s1)) s1 l2
                 = (false, s1, Link.set_queue Link.sat_to_gs [] l2)).
    { unfold GroundStation.wait_for_ack, Link.recv_sat_to_gs.
      subst l2. rewrite Hq. reflexivity. }
    rewrite Hw.
    specialize (IH (retry + 1) pkt peer s1 (Link.set_queue Link.sat_to_gs [] l2) Hq).
    cbv zeta in IH.
    destruct (GroundStation.send_loop fuel (retry + 1) pkt peer s1
                (Link.set_queue Link.sat_to_gs [] l2))
      as [[[success attempts] s3] l4].
    cbn [fst snd] in *. destruct IH as [I1 I2].
    split; [exact I1|constructor; [reflexivity|exact I2]].
Qed.

End GroundStationAttempts.

Section AttemptProperties.
Context {std : Std}.

Lemma sat_send_unanswered body peer (s : Satellite.t) (l : Link.t) :
  (forall k l0, Link.gs_to_sat_ (peer k l0) = []) ->
  Forall (fun ok => ok = false)
    (fst (fst (Satellite.send_telemetry body peer s l))).
Proof.
  intros Hq. unfold Satellite.send_telemetry. cbv zeta.
  match goal with
  | |- context [Satellite.send_loop ?f ?r ?p peer ?s0 l] =>
      pose proof (sat_send_loop_unanswered f r p peer s0 l Hq) as H;
      destruct (Satellite.send_loop f r p peer s0 l)
        as [[[success attempts] s1] l1]
  end.
  cbv zeta in H. cbn [fst snd] in H. destruct H as [_ H].
  destruct success; exact H.
Qed.

Lemma gs_send_unanswered body peer (g : GroundStation.t) (l : Link.t) :
  (forall k l0, Link.sat_to_gs_ (peer k l0) = []) ->
  Forall (fun ok => ok = false)
    (fst (fst (GroundStation.send_command_with_retry body peer g l))).
Proof.
  intros Hq. unfold GroundStation.send_command_with_retry. cbv zeta.
  match goal with
  | |- context [GroundStation.send_loop ?f ?r ?p peer ?g0 l] =>
      pose proof (gs_send_loop_unanswered f r p peer g0 l Hq) as H;
      destruct (GroundStation.send_loop f r p peer g0 l)
        as [[[success attempts] g1] l1]
  end.
  cbv zeta in H. cbn [fst snd] in H. destruct H as [_ H].
  destruct success; exact H.
Qed.

Lemma no_success_in_failures k (attempts : list bool) :
  attempts = repeat false k ++ [true] ->
  Forall (fun ok => ok = false) attempts -> False.
Proof.
  intros -> H. apply Forall_app in H. destruct H as [_ H].
  inversion H; subst. discriminate.
Qed.

(** X10. In one send operation of a running endpoint at least one attempt
    is made, and [retries_] grows (in [uint64_t]) by the number of attempts
    after the first. *)
Theorem retries_count_the_attempts_after_the_first :
  forall (body : list Z) (peer : Z -> Link.t -> Link.t) (l : Link.t),
    (forall s : Satellite.t,
       Satellite.running_ s = true ->
       0 <= Satellite.max_retries (Satellite.config_ s) < 2 ^ 31 - 1 ->
       is_u64 (Satellite.retries_ s) ->
       let r := Satellite.send_telemetry body peer s l in
       (1 <= length (fst (fst r)))%nat /\
       Satellite.retries_ (snd (fst r))
       = u64 (Satellite.retries_ s + Z.of_nat (length (fst (fst r))) - 1)) /\
    (forall g : GroundStation.t,
       GroundStation.running_ g = true ->
       0 <= GroundStation.max_retries (GroundStation.config_ g) < 2 ^ 31 - 1 ->
       is_u64 (GroundStation.retries_ g) ->
       let r := GroundStation.send_command_with_retry body peer g l in
       (1 <= length (fst (fst r)))%nat /\
       GroundStation.retries_ (snd (fst r))
       = u64 (GroundStation.retries_ g + Z.of_nat (length (fst (fst r))) - 1)).
Proof.
  intros body peer l. split.
  - intros s Hrun Hmax Hu. apply sat_send_retries; [exact Hrun|lia|exact Hu].
  - intros g Hrun Hmax Hu. apply gs_send_retries; [exact Hrun|lia|exact Hu].
Qed.

(** X11. When the inbound queue is empty at every wait, a running endpoint
    makes exactly [max_retries + 1] attempts, all of them failed, leaves its
    sent counter unchanged and adds [max_retries] to [retries_]. *)
Theorem unanswered_send_uses_every_attempt :
  forall (body : list Z) (peer : Z -> Link.t -> Link.t) (l : Link.t),
    (forall s : Satellite.t,
       (forall k l0, Link.gs_to_sat_ (peer k l0) = []) ->
       Satellite.running_ s = true ->
       0 <= Satellite.max_retries (Satellite.config_ s) < 2 ^ 31 - 1 ->
       is_u64 (Satellite.retries_ s) ->
       let r := Satellite.send_telemetry body peer s l in
       fst (fst r)
       = repeat false (Z.to_nat (Satellite.max_retries (Satellite.config_ s) + 1)) /\
       Satellite.telemetry_sent_ (snd (fst r)) = Satellite.telemetry_sent_ s /\
       Satellite.retries_ (snd (fst r))
       = u64 (Satellite.retries_ s + Satellite.max_retries (Satellite.config_ s))) /\
    (forall g : GroundStation.t,
       (forall k l0, Link.sat_to_gs_ (peer k l0) = []) ->
       GroundStation.running_ g = true ->
       0 <= GroundStation.max_retries (GroundStation.config_ g) < 2 ^ 31 - 1 ->
       is_u64 (GroundStation.retries_ g) ->
       let r := GroundStation.send_command_with_retry body peer g l in
       fst (fst r)
       = repeat false
           (Z.to_nat (GroundStation.max_retries (GroundStation.config_ g) + 1)) /\
       GroundStation.commands_sent_ (snd (fst r)) = GroundStation.commands_sent_ g /\
       GroundStation.retries_ (snd (fst r))
       = u64 (GroundStation.retries_ g
              + GroundStation.max_retries (GroundStation.config_ g))).
Proof.
  intros body peer l. split.
  - intros s Hq Hrun Hmax Hu. cbv zeta.
    pose proof (sat_send_unanswered body peer s l Hq) as Hf.
    pose proof (sat_send_spec body peer s l Hrun (proj1 Hmax)) as Hs.
    destruct (sat_send_retries body peer s l Hrun (proj1 Hmax) Hu) as [_ Hr].
    cbv zeta in Hr.
    destruct (Satellite.send_telemetry body peer s l) as [[attempts s'] l'].
    cbn [fst snd] in *.
    destruct Hs as ([_ [[[k Hk] _]|[Ha Ht]]] & _ & _).
    + exfalso. exact (no_success_in_failures k attempts Hk Hf).
    + split; [exact Ha|split; [exact Ht|]].
      rewrite Hr, Ha, repeat_length. f_equal. lia.
  - intros g Hq Hrun Hmax Hu. cbv zeta.
    pose proof (gs_send_unanswered body peer g l Hq) as Hf.
    pose proof (gs_send_spec body peer g l Hrun (proj1 Hmax)) as Hs.
    destruct (gs_send_retries body peer g l Hrun (proj1 Hmax) Hu) as [_ Hr].
    cbv zeta in Hr.
    destruct (GroundStation.send_command_with_retry body peer g l)
      as [[attempts g'] l'].
    cbn [fst snd] in *.
    destruct Hs as ([_ [[[k Hk] _]|[Ha Ht]]] & _ & _).
    + exfalso. exact (no_success_in_failures k attempts Hk Hf).
    + split; [exact Ha|split; [exact Ht|]].
      rewrite Hr, Ha, repeat_length. f_equal. lia.
Qed.

End AttemptProperties.

(** Retry on ACK loss: two attempts, one retry counted. *)
Lemma retries_count_the_attempts_after_the_first_witness :
  Satellite.retries_
    (snd (fst (Satellite.send_telemetry (str "ts=1000") late_ack_peer
                 running_satellite lossless_link))) = 1.
Proof.
  destruct (proj1 (@retries_count_the_attempts_after_the_first toy_std
                     (str "ts=1000") late_ack_peer lossless_link)
              running_satellite) as [_ H].
  - reflexivity.
  - cbn. lia.
  - cbn. unfold is_u64. lia.
  - cbv zeta in H. rewrite H. vm_compute. reflexivity.
Defined.

(** Nobody answers: four attempts with [max_retries = 3]. *)
Lemma unanswered_send_uses_every_attempt_witness :
  fst (fst (Satellite.send_telemetry (str "ts=1000")
              (fun _ l => Link.set_queue Link.gs_to_sat [] l)
              running_satellite lossless_link))
  = [false; false; false; false].
Proof.
  destruct (proj1 (@unanswered_send_uses_every_attempt toy_std
                     (str "ts=1000")
                     (fun _ l => Link.set_queue Link.gs_to_sat [] l)
                     lossless_link)
              running_satellite) as [H _].
  - intros k l0. destruct l0; reflexivity.
  - reflexivity.
  - cbn. lia.
  - cbn. unfold is_u64. lia.
  - cbv zeta in H. rewrite H. reflexivity.
Defined.

(* ----------------------------------------------------------------- *)
(** ** The inbound loop as a whole: Satellite *)

Section SatelliteLoop.
Context {std : Std}.

(** What every iteration keeps, the whole loop keeps. *)
Lemma sat_process_commands_keeps (P : Satellite.t -> Prop) q :
  (forall pkt s l, In pkt q -> P s -> P (fst (Satellite.process_command pkt s l))) ->
  forall (s : Satellite.t) (l : Link.t),
    P s -> P (fst (Satellite.process_commands s (Link.set_queue Link.gs_to_sat q l))).
Proof.
  induction q as [|pkt rest IH]; intros Hstep s l Hs.
  - rewrite sat_process_commands_nil. exact Hs.
  - rewrite sat_process_commands_cons.
    pose proof (sat_process_command_keeps_queue pkt s (Link.set_queue Link.gs_to_sat rest l))
      as Hk.
    pose proof (Hstep pkt s (Link.set_queue Link.gs_to_sat rest l)
                  (or_introl eq_refl) Hs) as Hs1.
    destruct (Satellite.process_command pkt s (Link.set_queue Link.gs_to_sat rest l))
      as [s1 l1].
    cbn [fst snd] in *.
    replace l1 with (Link.set_queue Link.gs_to_sat rest l1).
    + apply IH; [|exact Hs1].
      intros p s0 l0 Hin. apply Hstep. right. exact Hin.
    + replace rest with (Link.gs_to_sat_ l1)
        by (rewrite Hk; destruct l; reflexivity).
      apply (set_queue_same Link.gs_to_sat l1).
Qed.

Lemma sat_process_command_packets_sent pkt (s : Satellite.t) (l : Link.t) :
  Link.packets_sent_ (snd (Satellite.process_command pkt s l))
  = if answered_by_satellite pkt then u64 (Link.packets_sent_ l + 1)
    else Link.packets_sent_ l.
Proof.
  unfold Satellite.process_command, answered_by_satellite.
  destruct (negb (Packet.verify_crc pkt)); cbn [orb snd];
    [apply sat_send_packets_sent|].
  destruct (type pkt =? CommandPkt); [|reflexivity].
  destruct (seq pkt <? Satellite.rx_seq_expected_ s); cbn [snd];
    [apply sat_send_packets_sent|].
  destruct (Command.deserialize (payload pkt)); cbn [snd]; apply sat_send_packets_sent.
Qed.

Lemma sat_process_commands_answers q : forall (s : Satellite.t) (l : Link.t),
  is_u64 (Link.packets_sent_ l) ->
  let r := Satellite.process_commands s (Link.set_queue Link.gs_to_sat q l) in
  Link.gs_to_sat_ (snd r) = [] /\
  Link.packets_sent_ (snd r)
  = u64 (Link.packets_sent_ l + Z.of_nat (length (filter answered_by_satellite q))).
Proof.
  induction q as [|pkt rest IH]; intros s l Hu; cbv zeta.
  - rewrite sat_process_commands_nil. cbn [snd filter length]. split.
    + destruct l; reflexivity.
    + rewrite Z.add_0_r.
      replace (Link.packets_sent_ (Link.set_queue Link.gs_to_sat [] l))
        with (Link.packets_sent_ l) by (destruct l; reflexivity).
      symmetry. apply u64_small, Hu.
  - rewrite sat_process_commands_cons.
    pose proof (sat_process_command_keeps_queue pkt s (Link.set_queue Link.gs_to_sat rest l))
      as Hk.
    pose proof (sat_process_command_packets_sent pkt s (Link.set_queue Link.gs_to_sat rest l))
      as Hp.
    replace (Link.packets_sent_ (Link.set_queue Link.gs_to_sat rest l))
      with (Link.packets_sent_ l) in Hp by (destruct l; reflexivity).
    destruct (Satellite.process_command pkt s (Link.set_queue Link.gs_to_sat rest l))
      as [s1 l1].
    cbn [fst snd] in *.
    assert (Hl1 : l1 = Link.set_queue Link.gs_to_sat rest l1).
    { replace rest with (Link.gs_to_sat_ l1)
        by (rewrite Hk; destruct l; reflexivity).
      symmetry. apply (set_queue_same Link.gs_to_sat l1). }
    rewrite Hl1.
    assert (Hu1 : is_u64 (Link.packets_sent_ l1)).
    { rewrite Hp. destruct (answered_by_satellite pkt); [apply u64_range|exact Hu]. }
    destruct (IH s1 l1 Hu1) as [I1 I2]. cbv zeta in *.
    split; [exact I1|]. rewrite I2, Hp. cbn [filter].
    destruct (answered_by_satellite pkt); cbn [length].
    + rewrite u64_succ_add. f_equal. lia.
    + reflexivity.
Qed.

End SatelliteLoop.

(* ----------------------------------------------------------------- *)
(** ** The inbound loop as a whole: GroundStation *)

Section GroundStationLoop.
Context {std : Std}.

(** What every iteration keeps, the whole loop keeps. *)
Lemma gs_receive_telemetry_keeps (P : GroundStation.t -> Prop) q :
  (forall pkt s l, In pkt q -> P s -> P (fst (GroundStation.receive_packet pkt s l))) ->
  forall (s : GroundStation.t) (l : Link.t),
    P s -> P (fst (GroundStation.receive_telemetry s (Link.set_queue Link.sat_to_gs q l))).
Proof.
  induction q as [|pkt rest IH]; intros Hstep s l Hs.
  - rewrite gs_receive_telemetry_nil. exact Hs.
  - rewrite gs_receive_telemetry_cons.
    pose proof (gs_receive_packet_keeps_queue pkt s (Link.set_queue Link.sat_to_gs rest l))
      as Hk.
    pose proof (Hstep pkt s (Link.set_queue Link.sat_to_gs rest l)
                  (or_introl eq_refl) Hs) as Hs1.
    destruct (GroundStation.receive_packet pkt s (Link.set_queue Link.sat_to_gs rest l))
      as [s1 l1].
    cbn [fst snd] in *.
    replace l1 with (Link.set_queue Link.sat_to_gs rest l1).
    + apply IH; [|exact Hs1].
      intros p s0 l0 Hin. apply Hstep. right. exact Hin.
    + replace rest with (Link.sat_to_gs_ l1)
        by (rewrite Hk; destruct l; reflexivity).
      apply (set_queue_same Link.sat_to_gs l1).
Qed.

Lemma gs_receive_packet_packets_sent pkt (s : GroundStation.t) (l : Link.t) :
  Link.packets_sent_ (snd (GroundStation.receive_packet pkt s l))
  = if answered_by_ground_station pkt then u64 (Link.packets_sent_ l + 1)
    else Link.packets_sent_ l.
Proof.
  unfold GroundStation.receive_packet, answered_by_ground_station.
  destruct (negb (Packet.verify_crc pkt)); cbn [orb snd];
    [apply gs_send_packets_sent|].
  destruct (type pkt =? TelemetryPkt); [|reflexivity].
  destruct (seq pkt <? GroundStation.rx_seq_expected_ s); cbn [snd];
    [apply gs_send_packets_sent|].
  destruct (telemetry_parses (payload pkt)); cbn [snd]; apply gs_send_packets_sent.
Qed.

Lemma gs_receive_telemetry_answers q : forall (s : GroundStation.t) (l : Link.t),
  is_u64 (Link.packets_sent_ l) ->
  let r := GroundStation.receive_telemetry s (Link.set_queue Link.sat_to_gs q l) in
  Link.sat_to_gs_ (snd r) = [] /\
  Link.packets_sent_ (snd r)
  = u64 (Link.packets_sent_ l + Z.of_nat (length (filter answered_by_ground_station q))).
Proof.
  induction q as [|pkt rest IH]; intros s l Hu; cbv zeta.
  - rewrite gs_receive_telemetry_nil. cbn [snd filter length]. split.
    + destruct l; reflexivity.
    + rewrite Z.add_0_r.
      replace (Link.packets_sent_ (Link.set_queue Link.sat_to_gs [] l))
        with (Link.packets_sent_ l) by (destruct l; reflexivity).
      symmetry. apply u64_small, Hu.
  - rewrite gs_receive_telemetry_cons.
    pose proof (gs_receive_packet_keeps_queue pkt s (Link.set_queue Link.sat_to_gs rest l))
      as Hk.
    pose proof (gs_receive_packet_packets_sent pkt s (Link.set_queue Link.sat_to_gs rest l))
      as Hp.
    replace (Link.packets_sent_ (Link.set_queue Link.sat_to_gs rest l))
      with (Link.packets_sent_ l) in Hp by (destruct l; reflexivity).
    destruct (GroundStation.receive_packet pkt s (Link.set_queue Link.sat_to_gs rest l))
      as [s1 l1].
    cbn [fst snd] in *.
    assert (Hl1 : l1 = Link.set_queue Link.sat_to_gs rest l1).
    { replace rest with (Link.sat_to_gs_ l1)
        by (rewrite Hk; destruct l; reflexivity).
      symmetry. apply (set_queue_same Link.sat_to_gs l1). }
    rewrite Hl1.
    assert (Hu1 : is_u64 (Link.packets_sent_ l1)).
    { rewrite Hp. destruct (answered_by_ground_station pkt); [apply u64_range|exact Hu]. }
    destruct (IH s1 l1 Hu1) as [I1 I2]. cbv zeta in *.
    split; [exact I1|]. rewrite I2, Hp. cbn [filter].
    destruct (answered_by_ground_station pkt); cbn [length].
    + rewrite u64_succ_add. f_equal. lia.
    + reflexivity.
Qed.

End GroundStationLoop.

(* ----------------------------------------------------------------- *)
(** ** Replies, safe mode and sessions *)

Section InboundLoopProperties.
Context {std : Std}.

(** X12. An inbound loop empties its queue and hands the channel exactly
    one reply for each packet that fails the CRC check or is a data packet
    of the expected type; a packet of another type with a valid CRC (an ACK
    or a NAK, for instance) is dropped without a reply, one with a bad CRC
    is answered with a NAK like any other. *)
Theorem inbound_loop_answers_each_packet_once :
  forall (q : list Packet) (l : Link.t),
    is_u64 (Link.packets_sent_ l) ->
    (forall s : Satellite.t,
       let r := Satellite.process_commands s (Link.set_queue Link.gs_to_sat q l) in
       Link.gs_to_sat_ (snd r) = [] /\
       Link.packets_sent_ (snd r)
       = u64 (Link.packets_sent_ l
              + Z.of_nat (length (filter answered_by_satellite q)))) /\
    (forall g : GroundStation.t,
       let r := GroundStation.receive_telemetry g
                  (Link.set_queue Link.sat_to_gs q l) in
       Link.sat_to_gs_ (snd r) = [] /\
       Link.packets_sent_ (snd r)
       = u64 (Link.packets_sent_ l
              + Z.of_nat (length (filter answered_by_ground_station q)))).
Proof.
  intros q l Hu. split.
  - intros s. apply sat_process_commands_answers. exact Hu.
  - intros g. apply gs_receive_telemetry_answers. exact Hu.
Qed.

Lemma sat_process_command_safe_mode pkt (s : Satellite.t) (l : Link.t) :
  Satellite.safe_mode_ s = true ->
  Command.deserialize (payload pkt) <> Some Reboot ->
  Satellite.safe_mode_ (fst (Satellite.process_command pkt s l)) = true.
Proof.
  intros Hsafe Hnr. unfold Satellite.process_command.
  destruct (negb (Packet.verify_crc pkt)); [exact Hsafe|].
  destruct (type pkt =? CommandPkt); [|exact Hsafe].
  destruct (seq pkt <? Satellite.rx_seq_expected_ s); [exact Hsafe|].
  destruct (Command.deserialize (payload pkt)) as [[| | |]|];
    cbn [fst Satellite.execute Satellite.safe_mode_
         Satellite.set_rx_seq_expected]; try exact Hsafe; try reflexivity.
  exfalso. apply Hnr. reflexivity.
Qed.

(** X13. Safe mode is left by an executed REBOOT only: when the satellite
    is in safe mode and no packet of the inbound queue carries a payload
    that parses as REBOOT, it is in safe mode after [process_commands], and
    [send_telemetry] never changes the mode.  A fresh, valid REBOOT clears
    safe mode and a fresh, valid ENTER_SAFE_MODE sets it. *)
Theorem safe_mode_is_left_by_reboot_only :
  (forall (q : list Packet) (s : Satellite.t) (l : Link.t),
     Satellite.safe_mode_ s = true ->
     Forall (fun pkt => Command.deserialize (payload pkt) <> Some Reboot) q ->
     Satellite.safe_mode_
       (fst (Satellite.process_commands s (Link.set_queue Link.gs_to_sat q l)))
     = true) /\
  (forall (body : list Z) (peer : Z -> Link.t -> Link.t)
          (s : Satellite.t) (l : Link.t),
     Satellite.safe_mode_ (snd (fst (Satellite.send_telemetry body peer s l)))
     = Satellite.safe_mode_ s) /\
  (forall (pkt : Packet) (cmd : CommandType) (s : Satellite.t) (l : Link.t),
     Packet.verify_crc pkt = true -> type pkt = CommandPkt ->
     Satellite.rx_seq_expected_ s <= seq pkt ->
     Command.deserialize (payload pkt) = Some cmd ->
     Satellite.safe_mode_ (fst (Satellite.process_command pkt s l))
     = match cmd with
       | Reboot => false
       | EnterSafeMode => true
       | AdjustOrientation | ThrustBurn => Satellite.safe_mode_ s
       end).
Proof.
  split; [|split].
  - intros q s l Hsafe Hq.
    apply (sat_process_commands_keeps
             (fun s0 => Satellite.safe_mode_ s0 = true)); [|exact Hsafe].
    intros pkt s0 l0 Hin Hs0. apply sat_process_command_safe_mode; [exact Hs0|].
    rewrite Forall_forall in Hq. apply Hq, Hin.
  - intros body peer s l.
    destruct (sat_send_frame body peer s l) as (sent & r & n & E).
    rewrite E. reflexivity.
  - intros pkt cmd s l Hok Hty Hnew Hcmd. unfold Satellite.process_command.
    rewrite Hok, Hty, Hcmd. cbn [negb]. rewrite Z.eqb_refl.
    apply Z.ltb_ge in Hnew. rewrite Hnew.
    destruct cmd; reflexivity.
Qed.

Lemma u64_length_succ n : u64 (u64 (Z.of_nat n) + 1) = u64 (Z.of_nat (S n)).
Proof.
  unfold u64. rewrite Zplus_mod_idemp_l. f_equal. lia.
Qed.

Lemma u32_is_u32 x : is_u32 (u32 x).
Proof. unfold is_u32, u32. apply Z.mod_pos_bound. lia. Qed.

(** The part of the invariant that needs no assumption on the seq. *)
Lemma gs_receive_packet_accepts pkt (g : GroundStation.t) (l : Link.t) :
  let g' := fst (GroundStation.receive_packet pkt g l) in
  GroundStation.telemetry_received_ g
  = u64 (Z.of_nat (length (GroundStation.logged_ g))) /\
  Forall telemetry_accepted (GroundStation.logged_ g) /\
  is_u32 (GroundStation.tx_seq_ g) /\
  is_u32 (GroundStation.rx_seq_expected_ g) ->
  GroundStation.telemetry_received_ g'
  = u64 (Z.of_nat (length (GroundStation.logged_ g'))) /\
  Forall telemetry_accepted (GroundStation.logged_ g') /\
  is_u32 (GroundStation.tx_seq_ g') /\
  is_u32 (GroundStation.rx_seq_expected_ g').
Proof.
  cbv zeta. intros (Hc & Ha & Ht & Hr). unfold GroundStation.receive_packet.
  destruct (Packet.verify_crc pkt) eqn:Hok; cbn [negb];
    [|cbn; auto].
  destruct (Z.eqb_spec (type pkt) TelemetryPkt) as [Hty|]; [|cbn; auto].
  destruct (seq pkt <? GroundStation.rx_seq_expected_ g); [cbn; auto|].
  cbv zeta.
  destruct (telemetry_parses (payload pkt)) eqn:Hparse;
    cbn [fst GroundStation.log_telemetry GroundStation.set_naks_sent
         GroundStation.set_rx_seq_expected GroundStation.telemetry_received_
         GroundStation.logged_ GroundStation.tx_seq_
         GroundStation.rx_seq_expected_].
  - rewrite Hc. split; [apply u64_length_succ|].
    split; [|split; [exact Ht|apply u32_is_u32]].
    constructor; [|exact Ha]. unfold telemetry_accepted. auto.
  - split; [exact Hc|split; [exact Ha|split; [exact Ht|apply u32_is_u32]]].
Qed.

Lemma sat_process_command_accepts pkt (s : Satellite.t) (l : Link.t) :
  let s' := fst (Satellite.process_command pkt s l) in
  Satellite.commands_received_ s
  = u64 (Z.of_nat (length (Satellite.executed_ s))) /\
  Forall command_accepted (Satellite.executed_ s) /\
  is_u32 (Satellite.tx_seq_ s) /\
  is_u32 (Satellite.rx_seq_expected_ s) ->
  Satellite.commands_received_ s'
  = u64 (Z.of_nat (length (Satellite.executed_ s'))) /\
  Forall command_accepted (Satellite.executed_ s') /\
  is_u32 (Satellite.tx_seq_ s') /\
  is_u32 (Satellite.rx_seq_expected_ s').
Proof.
  cbv zeta. intros (Hc & Ha & Ht & Hr). unfold Satellite.process_command.
  destruct (Packet.verify_crc pkt) eqn:Hok; cbn [negb];
    [|cbn; auto].
  destruct (Z.eqb_spec (type pkt) CommandPkt) as [Hty|]; [|cbn; auto].
  destruct (seq pkt <? Satellite.rx_seq_expected_ s); [cbn; auto|].
  cbv zeta.
  destruct (Command.deserialize (payload pkt)) as [cmd|] eqn:Hparse;
    cbn [fst Satellite.execute Satellite.set_rx_seq_expected
         Satellite.commands_received_ Satellite.executed_ Satellite.tx_seq_
         Satellite.rx_seq_expected_].
  - rewrite Hc. split; [apply u64_length_succ|].
    split; [|split; [exact Ht|apply u32_is_u32]].
    constructor; [|exact Ha]. unfold command_accepted.
    repeat split; try assumption. rewrite Hparse. discriminate.
  - split; [exact Hc|split; [exact Ha|split; [exact Ht|apply u32_is_u32]]].
Qed.

(** X14. Throughout a session of the ground station in which no received
    packet carries the seq 2^32 - 1: no seq has been logged twice,
    [telemetry_received_] is the number of logged packets (in [uint64_t]),
    every logged packet passed the CRC check, is of type telemetry and has
    a payload that parsed, and both sequence counters are within 32 bits. *)
Theorem ground_station_session_invariant :
  forall g : GroundStation.t,
    gs_session g ->
    gs_session_invariant g /\
    NoDup (map seq (GroundStation.logged_ g)).
Proof.
  assert (H : forall g, gs_session g -> gs_session_invariant g).
  { intros g Hg. induction Hg as [config|g Hg IH|g Hg IH|g l Hg IH Hq
                                  |g l body peer Hg IH].
    - unfold gs_session_invariant. cbn.
      split; [exact delivered_once_init|].
      split; [reflexivity|split; [constructor|]].
      unfold is_u32. lia.
    - exact IH.
    - exact IH.
    - destruct IH as (Hd & Hrest).
      rewrite <- (set_queue_same Link.sat_to_gs l).
      cbn [Link.queue_of]. split.
      + apply (gs_receive_telemetry_invariant (Link.sat_to_gs_ l) g l Hq Hd).
      + apply (gs_receive_telemetry_keeps
                 (fun g0 =>
                    GroundStation.telemetry_received_ g0
                    = u64 (Z.of_nat (length (GroundStation.logged_ g0))) /\
                    Forall telemetry_accepted (GroundStation.logged_ g0) /\
                    is_u32 (GroundStation.tx_seq_ g0) /\
                    is_u32 (GroundStation.rx_seq_expected_ g0)));
          [|exact Hrest].
        intros pkt g0 l0 _ H0. apply gs_receive_packet_accepts. exact H0.
    - destruct (gs_send_frame body peer g l) as (sent & r & E).
      rewrite E. destruct IH as (Hd & Hc & Ha & Ht & Hr).
      unfold gs_session_invariant. cbn.
      repeat split; try assumption; try apply Hd; try apply Hr;
        apply u32_is_u32. }
  intros g Hg. split; [apply H, Hg|].
  destruct (H g Hg) as (Hd & _). eapply delivered_once_NoDup, Hd.
Qed.

(** X15. Throughout a session of the satellite in which no received packet
    carries the seq 2^32 - 1: no seq has been executed twice,
    [commands_received_] is the number of executed packets (in
    [uint64_t]), every executed packet passed the CRC check, is of type
    command and has a payload that parsed, and both sequence counters are
    within 32 bits. *)
Theorem satellite_session_invariant :
  forall s : Satellite.t,
    sat_session s ->
    sat_session_invariant s /\
    NoDup (map seq (Satellite.executed_ s)).
Proof.
  assert (H : forall s, sat_session s -> sat_session_invariant s).
  { intros s Hs. induction Hs as [config|s Hs IH|s Hs IH|s l Hs IH Hq
                                  |s l body peer Hs IH].
    - unfold sat_session_invariant. cbn.
      split; [exact delivered_once_init|].
      split; [reflexivity|split; [constructor|]].
      unfold is_u32. lia.
    - exact IH.
    - exact IH.
    - destruct IH as (Hd & Hrest).
      rewrite <- (set_queue_same Link.gs_to_sat l).
      cbn [Link.queue_of]. split.
      + apply (sat_process_commands_invariant (Link.gs_to_sat_ l) s l Hq Hd).
      + apply (sat_process_commands_keeps
                 (fun s0 =>
                    Satellite.commands_received_ s0
                    = u64 (Z.of_nat (length (Satellite.executed_ s0))) /\
                    Forall command_accepted (Satellite.executed_ s0) /\
                    is_u32 (Satellite.tx_seq_ s0) /\
                    is_u32 (Satellite.rx_seq_expected_ s0)));
          [|exact Hrest].
        intros pkt s0 l0 _ H0. apply sat_process_command_accepts. exact H0.
    - destruct (sat_send_frame body peer s l) as (sent & r & n & E).
      rewrite E. destruct IH as (Hd & Hc & Ha & Ht & Hr).
      unfold sat_session_invariant. cbn.
      repeat split; try assumption; try apply Hd; try apply Hr;
        apply u32_is_u32. }
  intros s Hs. split; [apply H, Hs|].
  destruct (H s Hs) as (Hd & _). eapply delivered_once_NoDup, Hd.
Qed.

End InboundLoopProperties.

Lemma inbound_loop_answers_each_packet_once_witness :
  Link.packets_sent_
    (snd (Satellite.process_commands running_satellite
            (commands_queued
               [corrupted_command; reboot_command 0; reply AckPkt 3])))
  = 2.
Proof.
  destruct (@inbound_loop_answers_each_packet_once toy_std
              [corrupted_command; reboot_command 0; reply AckPkt 3]
              lossless_link) as [H _].
  - cbn. unfold is_u64. lia.
  - destruct (H running_satellite) as [_ Hc]. unfold commands_queued.
    rewrite Hc. vm_compute. reflexivity.
Defined.

Lemma safe_mode_is_left_by_reboot_only_witness :
  Satellite.safe_mode_
    (fst (Satellite.process_commands safe_mode_satellite
            (commands_queued [bogus_command; enter_safe_mode_command 1])))
  = true.
Proof.
  apply (proj1 (@safe_mode_is_left_by_reboot_only toy_std)).
  - reflexivity.
  - repeat constructor; vm_compute; intros H; discriminate H.
Defined.

Lemma ground_station_session_invariant_witness :
  NoDup (map seq
           (GroundStation.logged_
              (fst (GroundStation.receive_telemetry running_ground_station
                      (telemetry_queued [test_packet; test_packet]))))).
Proof.
  apply (@ground_station_session_invariant toy_std).
  apply gs_session_receive.
  - apply gs_session_start. apply gs_session_new.
  - repeat constructor; vm_compute; intros H; discriminate H.
Defined.

Lemma satellite_session_invariant_witness :
  NoDup (map seq
           (Satellite.executed_
              (fst (Satellite.process_commands running_satellite
                      (commands_queued [reboot_command 0; reboot_command 0]))))).
Proof.
  apply (@satellite_session_invariant toy_std).
  apply sat_session_process.
  - apply sat_session_start. apply sat_session_new.
  - repeat constructor; vm_compute; intros H; discriminate H.
Defined.

(* ----------------------------------------------------------------- *)
(** ** A command from the ground station to the satellite and back *)

Section CommandExchange.
Context {std : Std}.

Lemma set_queue_fields queue q (l : Link.t) :
  Link.config_ (Link.set_queue queue q l) = Link.config_ l /\
  Link.queue_of queue (Link.set_queue queue q l) = q /\
  Link.packets_sent_ (Link.set_queue queue q l) = Link.packets_sent_ l /\
  match queue with
  | Link.sat_to_gs =>
      Link.gs_to_sat_ (Link.set_queue queue q l) = Link.gs_to_sat_ l
  | Link.gs_to_sat =>
      Link.sat_to_gs_ (Link.set_queue queue q l) = Link.sat_to_gs_ l
  end.
Proof. destruct l, queue; repeat split. Qed.

Lemma send_gs_to_sat_view pkt (l : Link.t) :
  never_lost (Link.config_ l) ->
  Link.config_ (Link.send_gs_to_sat pkt l) = Link.config_ l /\
  Link.gs_to_sat_ (Link.send_gs_to_sat pkt l) = Link.gs_to_sat_ l ++ [pkt] /\
  Link.sat_to_gs_ (Link.send_gs_to_sat pkt l) = Link.sat_to_gs_ l.
Proof.
  intros Hnl.
  destruct (send_not_lost pkt Link.gs_to_sat l Hnl) as (C & _ & _ & Q1 & Q2).
  repeat split; assumption.
Qed.

Lemma send_sat_to_gs_view pkt (l : Link.t) :
  never_lost (Link.config_ l) ->
  Link.config_ (Link.send_sat_to_gs pkt l) = Link.config_ l /\
  Link.sat_to_gs_ (Link.send_sat_to_gs pkt l) = Link.sat_to_gs_ l ++ [pkt] /\
  Link.gs_to_sat_ (Link.send_sat_to_gs pkt l) = Link.gs_to_sat_ l.
Proof.
  intros Hnl.
  destruct (send_not_lost pkt Link.sat_to_gs l Hnl) as (C & _ & _ & Q1 & Q2).
  repeat split; assumption.
Qed.

Lemma sat_process_command_state pkt (s : Satellite.t) (l l' : Link.t) :
  fst (Satellite.process_command pkt s l) = fst (Satellite.process_command pkt s l').
Proof.
  unfold Satellite.process_command.
  destruct (negb (Packet.verify_crc pkt)); [reflexivity|].
  destruct (type pkt =? CommandPkt); [|reflexivity].
  destruct (seq pkt <? Satellite.rx_seq_expected_ s); [reflexivity|].
  destruct (Command.deserialize (payload pkt)); reflexivity.
Qed.

Lemma sat_process_command_valid pkt (s : Satellite.t) (l : Link.t) :
  Packet.verify_crc pkt = true -> type pkt = CommandPkt ->
  snd (Satellite.process_command pkt s l)
  = Link.send_sat_to_gs (reply (command_reply pkt s) (seq pkt)) l.
Proof.
  intros Hok Hty. unfold Satellite.process_command, command_reply.
  rewrite Hok, Hty. cbn [negb]. rewrite Z.eqb_refl.
  destruct (seq pkt <? Satellite.rx_seq_expected_ s); [reflexivity|].
  destruct (Command.deserialize (payload pkt)); reflexivity.
Qed.

(** [process_commands] on a queue that holds one valid command frame. *)
Lemma sat_process_single pkt (s : Satellite.t) (l : Link.t) :
  Link.gs_to_sat_ l = [pkt] -> Link.sat_to_gs_ l = [] ->
  never_lost (Link.config_ l) ->
  Packet.verify_crc pkt = true -> type pkt = CommandPkt ->
  let r := Satellite.process_commands s l in
  fst r = fst (Satellite.process_command pkt s l) /\
  Link.config_ (snd r) = Link.config_ l /\
  Link.sat_to_gs_ (snd r) = [reply (command_reply pkt s) (seq pkt)] /\
  Link.gs_to_sat_ (snd r) = [].
Proof.
  intros Hq Hout Hnl Hok Hty. cbv zeta.
  set (l0 := Link.set_queue Link.gs_to_sat [] l).
  set (rp := reply (command_reply pkt s) (seq pkt)).
  destruct (set_queue_fields Link.gs_to_sat [] l) as (C0 & Q0 & _ & O0).
  fold l0 in C0, Q0, O0. cbn [Link.queue_of] in Q0.
  destruct (send_sat_to_gs_view rp l0) as (C1 & Q1 & O1);
    [rewrite C0; exact Hnl|].
  assert (E : Satellite.process_commands s l
              = (fst (Satellite.process_command pkt s l),
                 Link.set_queue Link.gs_to_sat [] (Link.send_sat_to_gs rp l0))).
  { transitivity (Satellite.process_commands s
                    (Link.set_queue Link.gs_to_sat [pkt] l)).
    - f_equal. rewrite <- Hq. symmetry. apply (set_queue_same Link.gs_to_sat l).
    - rewrite sat_process_commands_cons. fold l0.
      rewrite (sat_process_command_valid pkt s l0 Hok Hty). fold rp.
      rewrite (sat_process_command_state pkt s l0 l).
      transitivity (Satellite.process_commands
                      (fst (Satellite.process_command pkt s l))
                      (Link.set_queue Link.gs_to_sat []
                         (Link.send_sat_to_gs rp l0))).
      + f_equal. rewrite <- Q0, <- O1. symmetry.
        apply (set_queue_same Link.gs_to_sat (Link.send_sat_to_gs rp l0)).
      + apply sat_process_commands_nil. }
  rewrite E. cbn [fst snd].
  destruct (set_queue_fields Link.gs_to_sat [] (Link.send_sat_to_gs rp l0))
    as (C2 & Q2 & _ & O2).
  cbn [Link.queue_of] in Q2.
  split; [reflexivity|split; [|split]].
  - rewrite C2, C1. exact C0.
  - rewrite O2, Q1, O0, Hout. reflexivity.
  - exact Q2.
Qed.

Lemma gs_wait_single seq_awaited timeout p (g : GroundStation.t) (l : Link.t) :
  Link.sat_to_gs_ l = [p] ->
  GroundStation.wait_for_ack seq_awaited timeout g l
  = ((type p =? AckPkt) && (seq p =? seq_awaited), g,
     Link.set_queue Link.sat_to_gs [] l).
Proof.
  intros Hq. unfold GroundStation.wait_for_ack, Link.recv_sat_to_gs.
  rewrite Hq. cbn [ThreadSafeQueue.try_pop].
  destruct ((type p =? AckPkt) && (seq p =? seq_awaited)); [reflexivity|].
  destruct ((type p =? NakPkt) && (seq p =? seq_awaited)); reflexivity.
Qed.

Lemma data_packet_fields ty k body :
  type (data_packet ty k body) = ty /\ seq (data_packet ty k body) = k /\
  payload (data_packet ty k body) = body /\
  Packet.verify_crc (data_packet ty k body) = true.
Proof.
  unfold data_packet. repeat split; try reflexivity. apply verify_compute_crc.
Qed.

(** One attempt on a quiet, lossless link: the command frame goes to the
    satellite, the satellite answers, the ground station reads the answer. *)
Lemma command_attempt k body timeout (g : GroundStation.t) (s : Satellite.t)
    (l : Link.t) :
  never_lost (Link.config_ l) ->
  Link.sat_to_gs_ l = [] -> Link.gs_to_sat_ l = [] ->
  let pkt := data_packet CommandPkt k body in
  let l1 := Link.send_gs_to_sat pkt l in
  let r := Satellite.process_commands s l1 in
  let l3 := Link.set_queue Link.sat_to_gs [] (snd r) in
  fst r = fst (Satellite.process_command pkt s l) /\
  GroundStation.wait_for_ack k timeout g (snd r)
  = (command_reply pkt s =? AckPkt, g, l3) /\
  never_lost (Link.config_ l3) /\
  Link.sat_to_gs_ l3 = [] /\ Link.gs_to_sat_ l3 = [].
Proof.
  intros Hnl Hout Hin. cbv zeta.
  set (pkt := data_packet CommandPkt k body).
  destruct (data_packet_fields CommandPkt k body) as (Hty & Hseq & _ & Hok).
  fold pkt in Hty, Hseq, Hok.
  destruct (send_gs_to_sat_view pkt l Hnl) as (C1 & Q1 & O1).
  rewrite Hin in Q1. rewrite Hout in O1. cbn [app] in Q1.
  destruct (sat_process_single pkt s (Link.send_gs_to_sat pkt l) Q1 O1)
    as (Hfst & C2 & Q2 & O2); try assumption.
  { rewrite C1. exact Hnl. }
  cbv zeta in *.
  destruct (Satellite.process_commands s (Link.send_gs_to_sat pkt l))
    as [s1 l2].
  cbn [fst snd] in *.
  destruct (set_queue_fields Link.sat_to_gs [] l2) as (C3 & Q3 & _ & O3).
  cbn [Link.queue_of] in Q3.
  split; [|split; [|split; [|split]]].
  - rewrite Hfst. apply sat_process_command_state.
  - rewrite (gs_wait_single k timeout _ g l2 Q2).
    destruct (reply_fields (command_reply pkt s) (seq pkt))
      as (_ & Rt & Rs & _).
    rewrite Rt, Rs, Hseq, Z.eqb_refl, andb_true_r. reflexivity.
  - rewrite C3, C2, C1. exact Hnl.
  - exact Q3.
  - rewrite O3. exact O2.
Qed.

(** One iteration of the retry loop of the ground station. *)
Lemma gs_send_loop_step fuel retry pkt peer (g g2 : GroundStation.t)
    (l l3 : Link.t) (ok : bool) :
  GroundStation.running_ g = true ->
  retry <= GroundStation.max_retries (GroundStation.config_ g) ->
  let g1 := if 0 <? retry
            then GroundStation.set_retries (u64 (GroundStation.retries_ g + 1)) g
            else g in
  GroundStation.wait_for_ack (seq pkt)
    (GroundStation.ack_timeout_ms (GroundStation.config_ g1)) g1
    (peer retry (Link.send_gs_to_sat pkt l)) = (ok, g2, l3) ->
  GroundStation.send_loop (S fuel) retry pkt peer g l
  = if ok then (true, [true], g2, l3)
    else match GroundStation.send_loop fuel (retry + 1) pkt peer g2 l3 with
         | (success, attempts, g3, l4) => (success, false :: attempts, g3, l4)
         end.
Proof.
  intros Hrun Hle g1 Hw. cbn [GroundStation.send_loop].
  rewrite Hrun. destruct (Z.leb_spec retry
    (GroundStation.max_retries (GroundStation.config_ g))); [|lia].
  cbn [andb]. fold g1. rewrite Hw. destruct ok; reflexivity.
Qed.

Lemma command_reply_ack_cases pkt cmd (s : Satellite.t) :
  Command.deserialize (payload pkt) = Some cmd ->
  command_reply pkt s = AckPkt.
Proof.
  intros H. unfold command_reply. rewrite H.
  destruct (seq pkt <? Satellite.rx_seq_expected_ s); reflexivity.
Qed.

(** X16. On a lossless link with empty queues, a running ground station
    sends a command whose payload parses, to a satellite that has not seen
    its seq: the first attempt is acknowledged, [commands_sent_] is
    incremented, the satellite has executed the command exactly once and
    expects the next seq, and both queues are empty again. *)
Theorem command_is_executed_and_acknowledged :
  forall (body : list Z) (cmd : CommandType) (g : GroundStation.t)
         (s : Satellite.t) (l : Link.t),
    never_lost (Link.config_ l) ->
    Link.sat_to_gs_ l = [] -> Link.gs_to_sat_ l = [] ->
    GroundStation.running_ g = true ->
    0 <= GroundStation.max_retries (GroundStation.config_ g) < 2 ^ 31 - 1 ->
    Command.deserialize body = Some cmd ->
    Satellite.rx_seq_expected_ s <= GroundStation.tx_seq_ g ->
    let pkt := data_packet CommandPkt (GroundStation.tx_seq_ g) body in
    let r := GroundStation.send_command_with_retry body
               (satellite_peer (fun _ => s)) g l in
    fst (fst r) = [true] /\
    GroundStation.commands_sent_ (snd (fst r))
    = u64 (GroundStation.commands_sent_ g + 1) /\
    Link.sat_to_gs_ (snd r) = [] /\ Link.gs_to_sat_ (snd r) = [] /\
    fst (Satellite.process_commands s (Link.send_gs_to_sat pkt l))
    = Satellite.execute pkt cmd
        (Satellite.set_rx_seq_expected (u32 (GroundStation.tx_seq_ g + 1)) s).
Proof.
  intros body cmd g s l Hnl Hout Hin Hrun Hmax Hcmd Hrx. cbv zeta.
  set (k := GroundStation.tx_seq_ g).
  set (pkt := data_packet CommandPkt k body).
  set (g0 := GroundStation.set_tx_seq (u32 (k + 1)) g).
  destruct (data_packet_fields CommandPkt k body) as (Hty & Hseq & Hpl & Hok).
  fold pkt in Hty, Hseq, Hpl, Hok.
  destruct (command_attempt k body
              (GroundStation.ack_timeout_ms (GroundStation.config_ g0)) g0 s l
              Hnl Hout Hin) as (Hfst & Hw & _ & Q3 & O3).
  cbv zeta in *. fold pkt in Hfst, Hw, Q3, O3.
  assert (Hreply : command_reply pkt s = AckPkt).
  { apply (command_reply_ack_cases pkt cmd). rewrite Hpl. exact Hcmd. }
  rewrite Hreply in Hw. change (AckPkt =? AckPkt) with true in Hw.
  set (l3 := Link.set_queue Link.sat_to_gs []
               (snd (Satellite.process_commands s (Link.send_gs_to_sat pkt l))))
    in *.
  unfold GroundStation.send_command_with_retry. cbv zeta.
  fold k. fold pkt. fold g0.
  replace (Z.to_nat (GroundStation.max_retries (GroundStation.config_ g0) + 1))
    with (S (Z.to_nat (GroundStation.max_retries (GroundStation.config_ g0))))
    by (change (GroundStation.config_ g0) with (GroundStation.config_ g); lia).
  rewrite (gs_send_loop_step _ 0 pkt (satellite_peer (fun _ => s)) g0 g0 l l3 true);
    [| exact Hrun
     | change (GroundStation.config_ g0) with (GroundStation.config_ g); lia
     | rewrite Hseq; exact Hw ].
  cbn [fst snd GroundStation.commands_sent_ GroundStation.set_commands_sent
       GroundStation.set_tx_seq].
  split; [reflexivity|split; [reflexivity|split; [exact Q3|split; [exact O3|]]]].
  rewrite Hfst. unfold Satellite.process_command.
  rewrite Hok, Hty, Hpl, Hcmd. cbn [negb]. rewrite Z.eqb_refl.
  rewrite Hseq. apply Z.ltb_ge in Hrx. fold k in Hrx. rewrite Hrx. reflexivity.
Qed.

(** X17. A command whose payload does not parse is reported as sent all
    the same.  On a lossless link with empty queues and with at least one
    retry allowed, the satellite answers the first attempt with a NAK but
    has advanced its expected seq, so it takes the retry for a duplicate and
    acknowledges it: the ground station makes two attempts, the second one
    successful, and increments [commands_sent_], while the satellite has
    executed nothing. *)
Theorem rejected_command_is_acknowledged_on_retry :
  forall (body : list Z) (g : GroundStation.t) (s : Satellite.t) (l : Link.t),
    never_lost (Link.config_ l) ->
    Link.sat_to_gs_ l = [] -> Link.gs_to_sat_ l = [] ->
    GroundStation.running_ g = true ->
    1 <= GroundStation.max_retries (GroundStation.config_ g) < 2 ^ 31 - 1 ->
    Command.deserialize body = None ->
    Satellite.rx_seq_expected_ s <= GroundStation.tx_seq_ g ->
    0 <= GroundStation.tx_seq_ g < 2 ^ 32 - 1 ->
    let pkt := data_packet CommandPkt (GroundStation.tx_seq_ g) body in
    let s1 := satellite_after_rejecting (GroundStation.tx_seq_ g) s in
    let r := GroundStation.send_command_with_retry body
               (satellite_peer (fun retry => if retry =? 0 then s else s1)) g l in
    fst (fst r) = [false; true] /\
    GroundStation.commands_sent_ (snd (fst r))
    = u64 (GroundStation.commands_sent_ g + 1) /\
    fst (Satellite.process_commands s (Link.send_gs_to_sat pkt l)) = s1 /\
    (forall l' : Link.t,
       never_lost (Link.config_ l') ->
       Link.sat_to_gs_ l' = [] -> Link.gs_to_sat_ l' = [] ->
       fst (Satellite.process_commands s1 (Link.send_gs_to_sat pkt l')) = s1) /\
    Satellite.executed_ s1 = Satellite.executed_ s /\
    Satellite.commands_received_ s1 = Satellite.commands_received_ s.
Proof.
  intros body g s l Hnl Hout Hin Hrun Hmax Hcmd Hrx Hk. cbv zeta.
  set (k := GroundStation.tx_seq_ g) in *.
  set (pkt := data_packet CommandPkt k body).
  set (s1 := satellite_after_rejecting k s).
  set (g0 := GroundStation.set_tx_seq (u32 (k + 1)) g).
  set (peer := satellite_peer (fun retry => if retry =? 0 then s else s1)).
  destruct (data_packet_fields CommandPkt k body) as (Hty & Hseq & Hpl & Hok).
  fold pkt in Hty, Hseq, Hpl, Hok.
  assert (Hu : u32 (k + 1) = k + 1) by (unfold u32; apply Z.mod_small; lia).
  (* what the satellite does with the frame, before and after *)
  assert (Hs : forall l0, fst (Satellite.process_command pkt s l0) = s1).
  { intros l0. unfold Satellite.process_command.
    rewrite Hok, Hty, Hpl, Hcmd. cbn [negb]. rewrite Z.eqb_refl, Hseq.
    apply Z.ltb_ge in Hrx. rewrite Hrx. reflexivity. }
  assert (Hs1 : forall l0, fst (Satellite.process_command pkt s1 l0) = s1).
  { intros l0. unfold Satellite.process_command.
    rewrite Hok, Hty. cbn [negb]. rewrite Z.eqb_refl, Hseq.
    replace (k <? Satellite.rx_seq_expected_ s1) with true; [reflexivity|].
    symmetry. apply Z.ltb_lt. subst s1. unfold satellite_after_rejecting.
    cbn [Satellite.rx_seq_expected_ Satellite.set_rx_seq_expected].
    rewrite Hu. lia. }
  assert (Hr0 : command_reply pkt s = NakPkt).
  { unfold command_reply. rewrite Hseq, Hpl, Hcmd.
    apply Z.ltb_ge in Hrx. rewrite Hrx. reflexivity. }
  assert (Hr1 : command_reply pkt s1 = AckPkt).
  { unfold command_reply. rewrite Hseq.
    replace (k <? Satellite.rx_seq_expected_ s1) with true; [reflexivity|].
    symmetry. apply Z.ltb_lt. subst s1. unfold satellite_after_rejecting.
    cbn [Satellite.rx_seq_expected_ Satellite.set_rx_seq_expected].
    rewrite Hu. lia. }
  (* first attempt *)
  destruct (command_attempt k body
              (GroundStation.ack_timeout_ms (GroundStation.config_ g0)) g0 s l
              Hnl Hout Hin) as (Hfst & Hw & Hnl3 & Q3 & O3).
  cbv zeta in *. fold pkt in Hfst, Hw, Hnl3, Q3, O3.
  rewrite Hr0 in Hw. change (NakPkt =? AckPkt) with false in Hw.
  set (l3 := Link.set_queue Link.sat_to_gs []
               (snd (Satellite.process_commands s (Link.send_gs_to_sat pkt l))))
    in *.
  (* second attempt *)
  set (g1 := GroundStation.set_retries (u64 (GroundStation.retries_ g0 + 1)) g0).
  destruct (command_attempt k body
              (GroundStation.ack_timeout_ms (GroundStation.config_ g1)) g1 s1 l3
              Hnl3 Q3 O3) as (_ & Hw' & _ & _ & _).
  cbv zeta in *. fold pkt in Hw'.
  rewrite Hr1 in Hw'. change (AckPkt =? AckPkt) with true in Hw'.
  unfold GroundStation.send_command_with_retry. cbv zeta.
  fold k. fold pkt. fold g0.
  replace (Z.to_nat (GroundStation.max_retries (GroundStation.config_ g0) + 1))
    with (S (S (Z.to_nat (GroundStation.max_retries (GroundStation.config_ g0) - 1))))
    by (change (GroundStation.config_ g0) with (GroundStation.config_ g); lia).
  rewrite (gs_send_loop_step _ 0 pkt peer g0 g0 l l3 false);
    [| exact Hrun
     | change (GroundStation.config_ g0) with (GroundStation.config_ g); lia
     | rewrite Hseq; exact Hw ].
  set (l5 := Link.set_queue Link.sat_to_gs []
               (snd (Satellite.process_commands s1 (Link.send_gs_to_sat pkt l3))))
    in *.
  rewrite (gs_send_loop_step _ (0 + 1) pkt peer g0 g1 l3 l5 true);
    [| exact Hrun
     | change (GroundStation.config_ g0) with (GroundStation.config_ g); lia
     | rewrite Hseq; exact Hw' ].
  cbn [fst snd GroundStation.commands_sent_ GroundStation.set_commands_sent
       GroundStation.set_retries GroundStation.set_tx_seq].
  split; [reflexivity|split; [reflexivity|split; [|split; [|split]]]].
  - rewrite Hfst. apply Hs.
  - intros l' Hnl' Hout' Hin'.
    destruct (command_attempt k body 0 g0 s1 l' Hnl' Hout' Hin') as (Hf & _).
    cbv zeta in Hf. fold pkt in Hf. rewrite Hf. apply Hs1.
  - reflexivity.
  - reflexivity.
Qed.

End CommandExchange.

Lemma command_is_executed_and_acknowledged_witness :
  fst (fst (GroundStation.send_command_with_retry (str "REBOOT")
              (satellite_peer (fun _ => running_satellite))
              running_ground_station lossless_link))
  = [true].
Proof.
  apply (@command_is_executed_and_acknowledged toy_std (str "REBOOT") Reboot
           running_ground_station running_satellite lossless_link).
  - exact toy_never_lost.
  - reflexivity.
  - reflexivity.
  - reflexivity.
  - cbn. lia.
  - vm_compute. reflexivity.
  - cbn. lia.
Defined.

Lemma rejected_command_is_acknowledged_on_retry_witness :
  fst (fst (GroundStation.send_command_with_retry (str "BOGUS")
              (satellite_peer
                 (fun retry => if retry =? 0 then running_satellite
                               else satellite_after_rejecting 0 running_satellite))
              running_ground_station lossless_link))
  = [false; true].
Proof.
  apply (@rejected_command_is_acknowledged_on_retry toy_std (str "BOGUS")
           running_ground_station running_satellite lossless_link).
  - exact toy_never_lost.
  - reflexivity.
  - reflexivity.
  - reflexivity.
  - cbn. lia.
  - vm_compute. reflexivity.
  - cbn. lia.
  - cbn. lia.
Defined.

(** ** The text of a command *)

Lemma bytes_eqb_eq a b : bytes_eqb a b = true <-> a = b.
Proof.
  revert b. induction a as [|x a IH]; intros [|y b]; cbn [bytes_eqb];
    try (split; [discriminate|discriminate]); [tauto|].
  rewrite andb_true_iff, Z.eqb_eq, IH. split.
  - intros [-> ->]. reflexivity.
  - intros E. injection E as -> ->. split; reflexivity.
Qed.

Lemma until_delim_shape delim s :
  ~ In delim (fst (until_delim delim s)) /\
  (s = fst (until_delim delim s) \/
   s = fst (until_delim delim s) ++ delim :: snd (until_delim delim s)).
Proof.
  induction s as [|c s IH]; cbn [until_delim].
  - split; [intros []|left; reflexivity].
  - destruct (c =? delim) eqn:E.
    + apply Z.eqb_eq in E. subst c. split; [intros []|right; reflexivity].
    + apply Z.eqb_neq in E. destruct (until_delim delim s) as [a b].
      cbn [fst snd] in *. destruct IH as [Hn Hs]. split.
      * intros [H|H]; [exact (E H)|exact (Hn H)].
      * destruct Hs as [Hs|Hs]; [left|right]; rewrite Hs at 1; reflexivity.
Qed.

Lemma until_delim_whole delim a :
  ~ In delim a -> until_delim delim a = (a, []).
Proof.
  induction a as [|c a IH]; intros Hn; cbn [until_delim]; [reflexivity|].
  destruct (c =? delim) eqn:E.
  - apply Z.eqb_eq in E. exfalso. apply Hn. left. exact E.
  - rewrite IH; [reflexivity|]. intros H. apply Hn. right. exact H.
Qed.

Lemma until_delim_app delim a b :
  ~ In delim a -> until_delim delim (a ++ delim :: b) = (a, b).
Proof.
  induction a as [|c a IH]; intros Hn; cbn [until_delim app].
  - rewrite Z.eqb_refl. reflexivity.
  - destruct (c =? delim) eqn:E.
    + apply Z.eqb_eq in E. exfalso. apply Hn. left. exact E.
    + rewrite IH; [reflexivity|]. intros H. apply Hn. right. exact H.
Qed.

Lemma getline_shape s delim name rest :
  getline s delim = Some (name, rest) ->
  s = name \/ s = name ++ delim :: rest.
Proof.
  destruct s as [|c s]; [discriminate|]. unfold getline. intros E.
  assert (E' : until_delim delim (c :: s) = (name, rest))
    by (injection E as E; exact E).
  pose proof (until_delim_shape delim (c :: s)) as [_ H].
  rewrite E' in H. exact H.
Qed.

Lemma getline_name delim name rest :
  name <> [] -> ~ In delim name ->
  getline name delim = Some (name, []) /\
  getline (name ++ delim :: rest) delim = Some (name, rest).
Proof.
  intros Hne Hn. destruct name as [|c name]; [congruence|]. split.
  - unfold getline. rewrite until_delim_whole by exact Hn. reflexivity.
  - change ((c :: name) ++ delim :: rest)
      with (c :: (name ++ delim :: rest)).
    unfold getline.
    change (c :: (name ++ delim :: rest))
      with ((c :: name) ++ delim :: rest).
    rewrite until_delim_app by exact Hn. reflexivity.
Qed.

Section CommandText.
Context {std : Std}.

Lemma deserialize_named s name rest :
  getline s 124 = Some (name, rest) ->
  (Command.deserialize s = Some EnterSafeMode <-> name = str "ENTER_SAFE_MODE") /\
  (Command.deserialize s = Some Reboot <-> name = str "REBOOT").
Proof.
  intros E. unfold Command.deserialize. rewrite E.
  destruct (bytes_eqb name (str "ADJUST_ORIENTATION")) eqn:E1.
  { apply bytes_eqb_eq in E1. subst name.
    destruct (orientation_parameters_parse rest);
      split; split; discriminate. }
  destruct (bytes_eqb name (str "THRUST_BURN")) eqn:E2.
  { apply bytes_eqb_eq in E2. subst name.
    destruct (burn_parameter_parses rest); split; split; discriminate. }
  destruct (bytes_eqb name (str "ENTER_SAFE_MODE")) eqn:E3.
  { apply bytes_eqb_eq in E3. subst name.
    split; split; try discriminate; reflexivity. }
  destruct (bytes_eqb name (str "REBOOT")) eqn:E4.
  { apply bytes_eqb_eq in E4. subst name.
    split; split; try discriminate; reflexivity. }
  split; split; try discriminate; intros ->; discriminate.
Qed.

(** X18. [Command::deserialize] recognises the two commands without
    parameters by the text before the first ['|'] alone: a string parses as
    [Reboot] exactly when it is [REBOOT] or starts with [REBOOT|], and as
    [EnterSafeMode] exactly when it is [ENTER_SAFE_MODE] or starts with
    [ENTER_SAFE_MODE|]; whatever follows the bar is ignored. *)
Theorem parameterless_commands_ignore_trailing_text :
  forall s : list Z,
    (Command.deserialize s = Some Reboot <->
     s = str "REBOOT" \/ exists rest, s = str "REBOOT" ++ 124 :: rest) /\
    (Command.deserialize s = Some EnterSafeMode <->
     s = str "ENTER_SAFE_MODE" \/
     exists rest, s = str "ENTER_SAFE_MODE" ++ 124 :: rest).
Proof.
  intros s.
  assert (R : str "REBOOT" <> [] /\ ~ In 124 (str "REBOOT")).
  { split; [discriminate|]. vm_compute. intuition discriminate. }
  assert (M : str "ENTER_SAFE_MODE" <> [] /\ ~ In 124 (str "ENTER_SAFE_MODE")).
  { split; [discriminate|]. vm_compute. intuition discriminate. }
  split; split.
  - intros H. destruct (getline s 124) as [[name rest]|] eqn:E.
    + destruct (deserialize_named s name rest E) as [_ [Hn _]].
      specialize (Hn H). subst name.
      destruct (getline_shape _ _ _ _ E) as [Hs|Hs];
        [left; exact Hs|right; exists rest; exact Hs].
    + unfold Command.deserialize in H. rewrite E in H. discriminate.
  - destruct R as [Rne Rn].
    intros [-> | [rest ->]].
    + destruct (getline_name 124 (str "REBOOT") [] Rne Rn) as [G1 _].
      apply (deserialize_named _ _ _ G1). reflexivity.
    + destruct (getline_name 124 (str "REBOOT") rest Rne Rn) as [_ G2].
      apply (deserialize_named _ _ _ G2). reflexivity.
  - intros H. destruct (getline s 124) as [[name rest]|] eqn:E.
    + destruct (deserialize_named s name rest E) as [[Hn _] _].
      specialize (Hn H). subst name.
      destruct (getline_shape _ _ _ _ E) as [Hs|Hs];
        [left; exact Hs|right; exists rest; exact Hs].
    + unfold Command.deserialize in H. rewrite E in H. discriminate.
  - destruct M as [Mne Mn].
    intros [-> | [rest ->]].
    + destruct (getline_name 124 (str "ENTER_SAFE_MODE") [] Mne Mn) as [G1 _].
      apply (deserialize_named _ _ _ G1). reflexivity.
    + destruct (getline_name 124 (str "ENTER_SAFE_MODE") rest Mne Mn) as [_ G2].
      apply (deserialize_named _ _ _ G2). reflexivity.
Qed.

End CommandText.
